(** * Library circulation rules engine: a shallow embedding

    The Python classes [LibraryItem] (with its subclasses), [User], [Hold],
    [Loan], [Catalog] and [LibrarySystem] are embedded as records and
    functions.  A method that mutates [self] or may raise is a computation
    in a state-and-exception monad: it takes the object's state and returns
    the outcome together with the state the object is left in, also when
    the outcome is an exception.  Console output ([print]) is not part of
    the model. *)

From Stdlib Require Import ZArith List Bool Ascii String Lia.
From Stdlib Require Import Floats.SpecFloat.
From stdpp Require Import base option gmap strings.

Local Open Scope string_scope.
Local Open Scope Z_scope.

(** ** Python exceptions and the state-and-exception monad *)

Module Py.

Inductive exn : Type :=
| ValueError (msg : string)
| KeyError (msg : string)
| RuntimeError (msg : string)
| OverflowError (msg : string).

Inductive result (A : Type) : Type :=
| Ok (a : A)
| Raise (e : exn).
Arguments Ok {A} a.
Arguments Raise {A} e.

(** A method on an object of state [S]: the outcome and the state left. *)
Definition M (S A : Type) : Type := S -> result A * S.

Definition ret {S A} (a : A) : M S A := fun s => (Ok a, s).

Definition bind {S A B} (c : M S A) (k : A -> M S B) : M S B :=
  fun s =>
    match c s with
    | (Ok a, s') => k a s'
    | (Raise e, s') => (Raise e, s')
    end.

Definition raise {S A} (e : exn) : M S A := fun s => (Raise e, s).
Definition get {S} : M S S := fun s => (Ok s, s).
Definition put {S} (s : S) : M S unit := fun _ => (Ok tt, s).

(** A pure computation that may raise, run inside a method. *)
Definition lift {S A} (r : result A) : M S A := fun s => (r, s).

End Py.

Notation "'let!' x ':=' c 'in' k" := (Py.bind c (fun x => k))
  (at level 10, x pattern, c at level 100, k at level 200).
Notation "'do!' c 'in' k" := (Py.bind c (fun _ => k))
  (at level 10, c at level 100, k at level 200).

Import Py.

(** ** [datetime.date] as a proleptic Gregorian ordinal *)

Module Date.

(** A date is its [toordinal()]; [date.min] is 1 and [date.max]
    (9999-12-31) is 3652059. *)
Definition t := Z.

Definition MINORDINAL : Z := 1.
Definition MAXORDINAL : Z := 3652059.

Definition valid (d : t) : Prop := MINORDINAL <= d <= MAXORDINAL.

Definition is_leap (year : Z) : bool :=
  (year mod 4 =? 0) && (negb (year mod 100 =? 0) || (year mod 400 =? 0)).

Definition days_before_year (year : Z) : Z :=
  let y := year - 1 in y * 365 + y / 4 - y / 100 + y / 400.

Definition DAYS_BEFORE_MONTH : list Z :=
  [0; 31; 59; 90; 120; 151; 181; 212; 243; 273; 304; 334].

Definition days_before_month (year month : Z) : Z :=
  nth (Z.to_nat (month - 1)) DAYS_BEFORE_MONTH 0
  + (if (2 <? month) && is_leap year then 1 else 0).

(** [date(year, month, day).toordinal()] *)
Definition ymd2ord (year month day : Z) : t :=
  days_before_year year + days_before_month year month + day.

(** [d + timedelta(days=n)]: the constructor of [timedelta] and the
    addition both check their range. *)
Definition add_days (d : t) (n : Z) : result t :=
  if (n <? -999999999) || (999999999 <? n) then
    Raise (OverflowError "days out of range for timedelta")
  else
    let o := d + n in
    if (0 <? o) && (o <=? MAXORDINAL) then Ok o
    else Raise (OverflowError "date value out of range").

(** [(a - b).days] *)
Definition days_between (a b : t) : Z := a - b.

Definition le (a b : t) : bool := a <=? b.
Definition lt (a b : t) : bool := a <? b.

End Date.

(** ** Python [str] operations, on ASCII text *)

Module Str.

Definition code (c : ascii) : nat := nat_of_ascii c.

(** [str.isspace] on one character: TAB..CR, FS..US and the space. *)
Definition isspace (c : ascii) : bool :=
  let n := code c in
  ((9 <=? n) && (n <=? 13) || (28 <=? n) && (n <=? 32))%nat.

Definition isdigit (c : ascii) : bool :=
  let n := code c in ((48 <=? n) && (n <=? 57))%nat.
Definition islower (c : ascii) : bool :=
  let n := code c in ((97 <=? n) && (n <=? 122))%nat.
Definition isupper (c : ascii) : bool :=
  let n := code c in ((65 <=? n) && (n <=? 90))%nat.

(** Case mapping of one character, exact on ASCII (codes below 128):
    there [str.upper] and [str.lower] change the 26 letters and nothing
    else.  Other characters are left as they are, where Python maps by
    Unicode rules; what is stated of case mapping is stated of ASCII
    text. *)
Definition to_upper (c : ascii) : ascii :=
  if islower c then ascii_of_nat (code c - 32) else c.
Definition to_lower (c : ascii) : ascii :=
  if isupper c then ascii_of_nat (code c + 32) else c.

(** Truth value of a string: non-empty. *)
Definition truthy (s : string) : bool :=
  match s with EmptyString => false | String _ _ => true end.

Fixpoint lstrip (s : string) : string :=
  match s with
  | EmptyString => EmptyString
  | String c r => if isspace c then lstrip r else s
  end.

Fixpoint rstrip (s : string) : string :=
  match s with
  | EmptyString => EmptyString
  | String c r =>
      let r' := rstrip r in
      if isspace c && negb (truthy r') then EmptyString else String c r'
  end.

Definition strip (s : string) : string := rstrip (lstrip s).

(** [not s or not s.strip()] *)
Definition blank (s : string) : bool :=
  negb (truthy s) || negb (truthy (strip s)).

Fixpoint upper (s : string) : string :=
  match s with
  | EmptyString => EmptyString
  | String c r => String (to_upper c) (upper r)
  end.

Fixpoint lower (s : string) : string :=
  match s with
  | EmptyString => EmptyString
  | String c r => String (to_lower c) (lower r)
  end.

(** [s.replace(c, empty)] for a one-character [c]. *)
Fixpoint remove_char (x : ascii) (s : string) : string :=
  match s with
  | EmptyString => EmptyString
  | String c r =>
      if Ascii.eqb c x then remove_char x r else String c (remove_char x r)
  end.

Fixpoint all_digits (s : string) : bool :=
  match s with
  | EmptyString => true
  | String c r => isdigit c && all_digits r
  end.

(** [s.isdigit()]: false on the empty string. *)
Definition str_isdigit (s : string) : bool := truthy s && all_digits s.

(** [s.split()]: the maximal runs of non-space characters; [cur] is the
    run being read, reversed. *)
Fixpoint split_from (cur : list ascii) (s : string) : list string :=
  let flush := match cur with
               | [] => []
               | _ => [string_of_list_ascii (rev cur)]
               end in
  match s with
  | EmptyString => flush
  | String c r =>
      if isspace c then flush ++ split_from [] r
      else split_from (c :: cur) r
  end.
Definition split (s : string) : list string := split_from [] s.

Fixpoint join (sep : string) (l : list string) : string :=
  match l with
  | [] => EmptyString
  | [x] => x
  | x :: r => String.append x (String.append sep (join sep r))
  end.

(** [s.title()]: a cased character is upper-cased after an uncased one
    and lower-cased after a cased one. *)
Fixpoint title_from (previous_is_cased : bool) (s : string) : string :=
  match s with
  | EmptyString => EmptyString
  | String c r =>
      if islower c || isupper c then
        String (if previous_is_cased then to_lower c else to_upper c)
               (title_from true r)
      else String c (title_from false r)
  end.
Definition title (s : string) : string := title_from false s.

(** [x in {..}] for a set literal of strings. *)
Definition in_set (x : string) (l : list string) : bool :=
  existsb (String.eqb x) l.

Definition len (s : string) : Z := Z.of_nat (String.length s).

(** [int(ch)] for a decimal digit. *)
Definition int_of_digit (c : ascii) : Z := Z.of_nat (code c - 48).

End Str.

(** ** Python [float]: IEEE 754 binary64 *)

Module Float.

Definition prec : Z := 53.
Definition emax : Z := 1024.

Definition t := spec_float.

Definition zero : t := S754_zero false.

Definition mul : t -> t -> t := SFmul prec emax.
Definition add : t -> t -> t := SFadd prec emax.
Definition sub : t -> t -> t := SFsub prec emax.
Definition div : t -> t -> t := SFdiv prec emax.
Definition ltb : t -> t -> bool := SFltb.

(** [x] is the integer [n], exactly. *)
Definition represents_int (x : t) (n : Z) : Prop :=
  match x with
  | S754_finite false m e => e <= 0 /\ Zpos m = n * 2 ^ (- e)
  | _ => False
  end.

Definition is_finite (x : t) : bool :=
  match x with S754_zero _ | S754_finite _ _ _ => true | _ => false end.

(** Conversion of an [int] operand of a float operation: nearest
    binary64, ties to even; an [int] beyond the range raises. *)
Definition of_int (n : Z) : result t :=
  let f := binary_normalize prec emax n 0 false in
  if is_finite f then Ok f
  else Raise (OverflowError "int too large to convert to float").

(** The binary64 nearest to [n / d], as a decimal literal is read. *)
Definition lit (n : Z) (d : positive) : t :=
  match n with
  | Z0 => zero
  | Zpos p => div (S754_finite false p 0) (S754_finite false d 0)
  | Zneg p => div (S754_finite true p 0) (S754_finite false d 0)
  end.

(** [num / den] rounded to the nearest integer, ties to even. *)
Definition round_half_even (num : Z) (den : Z) : Z :=
  let q := num / den in
  let r := num mod den in
  match Z.compare (2 * r) den with
  | Lt => q
  | Gt => q + 1
  | Eq => if Z.even q then q else q + 1
  end.

(** [round(x, ndigits)] for [0 <= ndigits]: the exact value of [x] is
    rounded to [ndigits] decimals, ties to even, and the decimal read
    back as the nearest binary64; the sign is kept, and infinities and
    NaN round to themselves. *)
Definition round (x : t) (ndigits : nat) : t :=
  match x with
  | S754_finite s m e =>
      let scale := Z.to_pos (10 ^ Z.of_nat ndigits) in
      let n :=
        if 0 <=? e then Zpos m * 2 ^ e * Zpos scale
        else round_half_even (Zpos m * Zpos scale) (2 ^ (- e)) in
      match n with
      | Zpos p => div (S754_finite s p 0) (S754_finite false scale 0)
      | _ => S754_zero s
      end
  | _ => x
  end.

End Float.

(** ** project_1_functions.py *)

Module project_1_functions.

Definition validate_user_role (role : string) : bool :=
  Str.in_set role ["Student"; "Faculty"; "Staff"; "Admin"; "Public"].

Definition normalize_name (name : string) : string :=
  Str.title (Str.join " " (Str.split (Str.strip name))).

(** The ISBN-10 loop: [None] is the early [return False]. *)
Fixpoint isbn10_total (i : Z) (total : Z) (s : string) : option Z :=
  match s with
  | EmptyString => Some total
  | String ch r =>
      if Ascii.eqb ch "X"%char then
        if negb (i =? 9) then None
        else isbn10_total (i + 1) (total + (10 - i) * 10) r
      else if negb (Str.isdigit ch) then None
      else isbn10_total (i + 1) (total + (10 - i) * Str.int_of_digit ch) r
  end.

Fixpoint isbn13_total (i : Z) (total : Z) (s : string) : Z :=
  match s with
  | EmptyString => total
  | String d r =>
      let w := if i mod 2 =? 0 then 1 else 3 in
      isbn13_total (i + 1) (total + w * Str.int_of_digit d) r
  end.

(** [validate_isbn], exact on ASCII codes: there [ch.isdigit()] holds of
    the ten ASCII digits only and [int(ch)] never raises.  What is stated
    of the validator is stated of ASCII codes. *)
Definition validate_isbn (isbn : string) : bool :=
  let s := Str.upper (Str.remove_char " "%char (Str.remove_char "-"%char isbn)) in
  if Str.len s =? 10 then
    match isbn10_total 0 0 s with
    | Some total => total mod 11 =? 0
    | None => false
    end
  else if (Str.len s =? 13) && Str.str_isdigit s then
    isbn13_total 0 0 s mod 10 =? 0
  else false.

Definition calculate_due_date (start : Date.t) (role : string) : result Date.t :=
  let days := if Str.in_set role ["Student"; "Public"] then 14 else 28 in
  Date.add_days start days.

Definition compute_overdue_fine (due_date return_date : Date.t)
    (daily_rate : Float.t) : result Float.t :=
  if Date.le return_date due_date then Ok Float.zero
  else
    let days_late := Date.days_between return_date due_date in
    match Float.of_int days_late with
    | Ok d => Ok (Float.round (Float.mul d daily_rate) 2)
    | Raise e => Raise e
    end.

End project_1_functions.

(** ** libraryItem.py *)

Module LibraryItem.

(** The concrete classes: [LibraryItem] itself and its four subclasses. *)
Inductive kind : Type := Generic | Book | Journal | DVD | EBook.

Record t : Type := mk {
  cls : kind;
  item_id : string;
  title : string;
  creators : list string;
  tags : gset string;
  available_copies : Z;
  total_copies : Z;
  call_number : option string;
  isbn : option string;
  genre : option string
}.

Definition set_available (n : Z) (it : t) : t :=
  mk (cls it) (item_id it) (title it) (creators it) (tags it) n
     (total_copies it) (call_number it) (isbn it) (genre it).

Definition set_tags (ts : gset string) (it : t) : t :=
  mk (cls it) (item_id it) (title it) (creators it) ts (available_copies it)
     (total_copies it) (call_number it) (isbn it) (genre it).

(** [__init__] of [LibraryItem], inherited by every subclass; [Book]
    adds [genre], which the other classes do not have. *)
Definition init (k : kind) (item_id title : string) (creators : list string)
    (tags : gset string) (available_copies : Z)
    (call_number isbn genre : option string) : result t :=
  if Str.blank item_id then Raise (ValueError "Item ID cannot be empty")
  else if Str.blank title then Raise (ValueError "Title cannot be empty")
  else if available_copies <? 0 then
    Raise (ValueError "Available copies cannot be negative")
  else
    let invalid_isbn :=
      match isbn with
      | Some code =>
          Str.truthy code && negb (project_1_functions.validate_isbn code)
      | None => false
      end in
    if invalid_isbn then
      Raise (ValueError
               (String.append "Invalid ISBN: " (default EmptyString isbn)))
    else
      Ok (mk k (Str.strip item_id) (Str.strip title)
             (map project_1_functions.normalize_name creators)
             tags available_copies available_copies
             (match call_number with
              | Some c => if Str.truthy c then Some (Str.strip c) else None
              | None => None
              end)
             isbn
             (match k with Book => genre | _ => None end)).

Definition get_item_type (it : t) : string :=
  match cls it with
  | Generic => "Generic Item"
  | Book => "Book"
  | Journal => "Journal"
  | DVD => "DVD"
  | EBook => "EBook"
  end.

(** Dynamic dispatch on the class of [self]. *)
Definition calculate_due_date (it : t) (checkout_date : Date.t)
    (user_role : string) : result Date.t :=
  match cls it with
  | Generic | Book =>
      project_1_functions.calculate_due_date checkout_date user_role
  | Journal =>
      let days := if Str.in_set user_role ["Student"; "Public"] then 7 else 14 in
      Date.add_days checkout_date days
  | DVD => Date.add_days checkout_date 7
  | EBook => Ok checkout_date
  end.

Definition is_available (it : t) : bool := 0 <? available_copies it.

Definition checkout_copy : M t unit :=
  fun it =>
    match cls it with
    | EBook => (Ok tt, it)
    | _ =>
        if available_copies it <=? 0 then
          (Raise (RuntimeError
             (String.append "Item "
                (String.append (item_id it) " has no available copies"))),
           it)
        else (Ok tt, set_available (available_copies it - 1) it)
    end.

Definition return_copy : M t unit :=
  fun it =>
    if total_copies it <=? available_copies it then
      (Raise (RuntimeError
         (String.append "All copies of "
            (String.append (item_id it) " are already returned"))),
       it)
    else (Ok tt, set_available (available_copies it + 1) it).

Definition add_tag (tag : string) : M t unit :=
  fun it =>
    if Str.truthy tag && Str.truthy (Str.strip tag) then
      (Ok tt, set_tags ({[ Str.lower (Str.strip tag) ]} ∪ tags it) it)
    else (Ok tt, it).

Definition remove_tag (tag : string) : M t unit :=
  fun it => (Ok tt, set_tags (tags it ∖ {[ Str.lower (Str.strip tag) ]}) it).

Definition has_tag (tag : string) (it : t) : bool :=
  bool_decide (Str.lower (Str.strip tag) ∈ tags it).

End LibraryItem.

(** ** User.py *)

Module User.

Record t : Type := mk {
  user_id : string;
  name : string;
  role : string;
  active_loan_ids : list string;
  total_fines : Float.t
}.

Definition init (user_id name role : string) : result t :=
  if Str.blank user_id then Raise (ValueError "User ID cannot be empty")
  else if negb (project_1_functions.validate_user_role role) then
    Raise (ValueError
      (String.append "Invalid role: "
         (String.append role
            ". Must be Student, Faculty, Staff, Admin, or Public")))
  else
    Ok (mk (Str.strip user_id) (project_1_functions.normalize_name name)
           role [] Float.zero).

Definition get_loan_period (u : t) : Z :=
  if Str.in_set (role u) ["Student"; "Public"] then 14 else 28.

Definition calculate_due_date (u : t) (checkout_date : Date.t) : result Date.t :=
  project_1_functions.calculate_due_date checkout_date (role u).

Definition mem (x : string) (l : list string) : bool :=
  existsb (String.eqb x) l.

(** [list.remove]: drops the first occurrence. *)
Fixpoint remove_first (x : string) (l : list string) : list string :=
  match l with
  | [] => []
  | y :: r => if String.eqb x y then r else y :: remove_first x r
  end.

Definition add_loan (loan_id : string) : M t unit :=
  fun u =>
    if negb (mem loan_id (active_loan_ids u)) then
      (Ok tt, mk (user_id u) (name u) (role u)
                 (active_loan_ids u ++ [loan_id]) (total_fines u))
    else (Ok tt, u).

Definition remove_loan (loan_id : string) : M t unit :=
  fun u =>
    if negb (mem loan_id (active_loan_ids u)) then
      (Raise (ValueError
         (String.append "Loan "
            (String.append loan_id " not found in active loans"))), u)
    else
      (Ok tt, mk (user_id u) (name u) (role u)
                 (remove_first loan_id (active_loan_ids u)) (total_fines u)).

Definition add_fine (amount : Float.t) : M t unit :=
  fun u =>
    if Float.ltb amount Float.zero then
      (Raise (ValueError "Fine amount cannot be negative"), u)
    else
      (Ok tt, mk (user_id u) (name u) (role u) (active_loan_ids u)
                 (Float.add (total_fines u) amount)).

(** [max(0, x)] keeps [0] unless [x] is greater. *)
Definition pay_fine (amount : Float.t) : M t Float.t :=
  fun u =>
    if Float.ltb amount Float.zero then
      (Raise (ValueError "Payment amount cannot be negative"), u)
    else
      let x := Float.sub (total_fines u) amount in
      let remaining := if Float.ltb Float.zero x then x else Float.zero in
      (Ok remaining,
       mk (user_id u) (name u) (role u) (active_loan_ids u) remaining).

Definition get_active_loan_count (u : t) : Z :=
  Z.of_nat (List.length (active_loan_ids u)).

Definition has_fines (u : t) : bool := Float.ltb Float.zero (total_fines u).

End User.

(** ** Hold.py *)

Module Hold.

Record t : Type := mk {
  hold_id : string;
  user_id : string;
  item_id : string;
  placed_on : Date.t;
  expires_on : Date.t;
  notified : bool;
  fulfilled : bool;
  cancelled : bool
}.

Definition init (hold_id user_id item_id : string)
    (placed_on expires_on : Date.t) (notified : bool) : result t :=
  if Str.blank hold_id then Raise (ValueError "Hold ID cannot be empty")
  else if Str.blank user_id then Raise (ValueError "User ID cannot be empty")
  else if Str.blank item_id then Raise (ValueError "Item ID cannot be empty")
  else if Date.lt expires_on placed_on then
    Raise (ValueError "Expiry date cannot be before placement date")
  else
    Ok (mk (Str.strip hold_id) (Str.strip user_id) (Str.strip item_id)
           placed_on expires_on notified false false).

Definition is_active (h : t) (today : Date.t) : bool :=
  negb (fulfilled h) && negb (cancelled h) && Date.le today (expires_on h).

Definition is_expired (h : t) (today : Date.t) : bool :=
  negb (fulfilled h) && Date.lt (expires_on h) today.

Definition notify : M t unit :=
  fun h =>
    if fulfilled h || cancelled h then
      (Raise (RuntimeError
         (String.append "Hold " (String.append (hold_id h) " is not active"))),
       h)
    else
      (Ok tt, mk (hold_id h) (user_id h) (item_id h) (placed_on h)
                 (expires_on h) true (fulfilled h) (cancelled h)).

Definition fulfill : M t unit :=
  fun h =>
    if cancelled h then
      (Raise (RuntimeError
         (String.append "Hold " (String.append (hold_id h) " is cancelled"))),
       h)
    else
      (Ok tt, mk (hold_id h) (user_id h) (item_id h) (placed_on h)
                 (expires_on h) (notified h) true (cancelled h)).

Definition cancel : M t unit :=
  fun h =>
    if fulfilled h then
      (Raise (RuntimeError "Cannot cancel fulfilled hold"), h)
    else
      (Ok tt, mk (hold_id h) (user_id h) (item_id h) (placed_on h)
                 (expires_on h) (notified h) (fulfilled h) true).

Definition days_until_expiry (h : t) (today : Date.t) : Z :=
  if fulfilled h || cancelled h then 0
  else Date.days_between (expires_on h) today.

Definition extend (additional_days : Z) (today : Date.t) : M t Date.t :=
  fun h =>
    if negb (is_active h today) then
      (Raise (RuntimeError "Cannot extend inactive hold"), h)
    else if additional_days <? 1 then
      (Raise (ValueError "Extension must be at least 1 day"), h)
    else
      match Date.add_days (expires_on h) additional_days with
      | Raise e => (Raise e, h)
      | Ok d =>
          (Ok d, mk (hold_id h) (user_id h) (item_id h) (placed_on h) d
                    (notified h) (fulfilled h) (cancelled h))
      end.

End Hold.

(** ** loan.py *)

Module Loan.

Record t : Type := mk {
  loan_id : string;
  user_id : string;
  item_id : string;
  due : Date.t;
  returned_on : option Date.t;
  renewals : Z
}.

Definition init (loan_id user_id item_id : string) (due : Date.t)
    (returned_on : option Date.t) (renewals : Z) : result t :=
  if Str.blank loan_id then Raise (ValueError "Loan ID cannot be empty")
  else if Str.blank user_id then Raise (ValueError "User ID cannot be empty")
  else if Str.blank item_id then Raise (ValueError "Item ID cannot be empty")
  else if renewals <? 0 then Raise (ValueError "Renewals cannot be negative")
  else
    Ok (mk (Str.strip loan_id) (Str.strip user_id) (Str.strip item_id)
           due returned_on renewals).

Definition is_active (l : t) : bool :=
  match returned_on l with None => true | Some _ => false end.

Definition is_overdue (l : t) (today : Date.t) : bool :=
  is_active l && Date.lt (due l) today.

Definition days_overdue (l : t) (today : Date.t) : Z :=
  if negb (is_overdue l today) then 0 else Date.days_between today (due l).

Definition days_until_due (l : t) (today : Date.t) : Z :=
  if negb (is_active l) then 0 else Date.days_between (due l) today.

Definition calculate_fine (l : t) (return_date : Date.t)
    (daily_rate : Float.t) : result Float.t :=
  project_1_functions.compute_overdue_fine (due l) return_date daily_rate.

Definition set_returned_on (d : Date.t) (l : t) : t :=
  mk (loan_id l) (user_id l) (item_id l) (due l) (Some d) (renewals l).

(** [return_item] mutates the loan and the item passed to it: the state
    is the pair of both objects. *)
Definition return_item (return_date : Date.t) (daily_rate : Float.t)
    : M (t * LibraryItem.t) Float.t :=
  fun '(l, item) =>
    if negb (is_active l) then
      (Raise (RuntimeError
         (String.append "Loan "
            (String.append (loan_id l) " is already closed"))),
       (l, item))
    else
      let l1 := set_returned_on return_date l in
      match LibraryItem.return_copy item with
      | (Raise e, item1) => (Raise e, (l1, item1))
      | (Ok _, item1) =>
          (calculate_fine l1 return_date daily_rate, (l1, item1))
      end.

(** The hold test of [renew], written inline in the source. *)
Definition blocks_renewal (user : User.t) (item : LibraryItem.t)
    (today : Date.t) (h : Hold.t) : bool :=
  String.eqb (Hold.item_id h) (LibraryItem.item_id item)
  && negb (String.eqb (Hold.user_id h) (User.user_id user))
  && Date.le today (Hold.expires_on h)
  && negb (Hold.cancelled h).

(** [renew] reads the user and the item and mutates the loan only;
    [holds] is [None] when the argument is left out. *)
Definition renew (user : User.t) (item : LibraryItem.t) (today : Date.t)
    (holds : option (list Hold.t)) (max_renewals : Z) (allow_overdue : bool)
    : M t (option Date.t) :=
  fun l =>
    if negb (is_active l) then (Ok None, l)
    else if negb (String.eqb (user_id l) (User.user_id user)) then (Ok None, l)
    else if max_renewals <=? renewals l then (Ok None, l)
    else if negb allow_overdue && Date.lt (due l) today then (Ok None, l)
    else if existsb (blocks_renewal user item today) (default [] holds)
    then (Ok None, l)
    else
      match project_1_functions.calculate_due_date today (User.role user) with
      | Raise e => (Raise e, l)
      | Ok d =>
          (Ok (Some d),
           mk (loan_id l) (user_id l) (item_id l) d (returned_on l)
              (renewals l + 1))
      end.

(** The defaults of the keyword arguments. *)
Definition default_max_renewals : Z := 2.
Definition default_daily_rate : Float.t := Float.lit 25 100.

End Loan.

(** ** catalog.py *)

Module Catalog.

Record t : Type := mk {
  name : string;
  items : gmap string LibraryItem.t
}.

Definition init (name : string) : result t :=
  if Str.blank name then Raise (ValueError "Catalog name cannot be empty")
  else Ok (mk (Str.strip name) ∅).

Definition item_count (c : t) : Z := Z.of_nat (size (items c)).

Definition add_item (item : LibraryItem.t) : M t unit :=
  fun c =>
    match items c !! LibraryItem.item_id item with
    | Some _ =>
        (Raise (ValueError
           (String.append "Item "
              (String.append (LibraryItem.item_id item)
                 " already exists in catalog"))), c)
    | None =>
        (Ok tt, mk (name c) (<[LibraryItem.item_id item := item]> (items c)))
    end.

Definition remove_item (item_id : string) : M t LibraryItem.t :=
  fun c =>
    match items c !! item_id with
    | None =>
        (Raise (KeyError
           (String.append "Item "
              (String.append item_id " not found in catalog"))), c)
    | Some item => (Ok item, mk (name c) (delete item_id (items c)))
    end.

Definition get_item (item_id : string) (c : t) : option LibraryItem.t :=
  items c !! item_id.

(** The item stored under [item_id] is replaced by its new state: the
    effect of mutating the object the catalog refers to. *)
Definition update_item (item_id : string) (item : LibraryItem.t) (c : t) : t :=
  mk (name c) (<[item_id := item]> (items c)).

End Catalog.

(** ** library_system.py *)

Module LibrarySystem.

Record t : Type := mk {
  catalog : Catalog.t;
  users : gmap string User.t;
  loans : gmap string Loan.t;
  holds : gmap string Hold.t
}.

Definition init (name : string) : result t :=
  match Catalog.init name with
  | Raise e => Raise e
  | Ok c => Ok (mk c ∅ ∅ ∅)
  end.

Definition add_user (user : User.t) : M t unit :=
  fun s =>
    match users s !! User.user_id user with
    | Some _ =>
        (Raise (ValueError
           (String.append "User "
              (String.append (User.user_id user) " already exists"))), s)
    | None =>
        (Ok tt, mk (catalog s) (<[User.user_id user := user]> (users s))
                   (loans s) (holds s))
    end.

Definition get_user (user_id : string) (s : t) : option User.t :=
  users s !! user_id.

Definition add_item (item : LibraryItem.t) : M t unit :=
  fun s =>
    let '(r, c) := Catalog.add_item item (catalog s) in
    (r, mk c (users s) (loans s) (holds s)).

Definition get_item (item_id : string) (s : t) : option LibraryItem.t :=
  Catalog.get_item item_id (catalog s).

(** The objects the system refers to are mutated in place: a method run
    on the item under [item_id] (or the user under [user_id], the loan
    under [loan_id]) leaves its new state in the store, also when it
    raises. *)
Definition on_item {A} (item_id : string) (item : LibraryItem.t)
    (c : M LibraryItem.t A) : M t A :=
  fun s =>
    let '(r, item') := c item in
    (r, mk (Catalog.update_item item_id item' (catalog s))
           (users s) (loans s) (holds s)).

Definition on_user {A} (user_id : string) (user : User.t)
    (c : M User.t A) : M t A :=
  fun s =>
    let '(r, user') := c user in
    (r, mk (catalog s) (<[user_id := user']> (users s)) (loans s) (holds s)).

Definition store_loan (loan_id : string) (loan : Loan.t) : M t unit :=
  fun s =>
    (Ok tt, mk (catalog s) (users s) (<[loan_id := loan]> (loans s)) (holds s)).

Definition checkout_item (loan_id user_id item_id : string)
    (checkout_date : Date.t) : M t Loan.t :=
  let! s := get in
  match users s !! user_id with
  | None => raise (KeyError (String.append "Unknown user " user_id))
  | Some user =>
      match Catalog.get_item item_id (catalog s) with
      | None => raise (KeyError (String.append "Unknown item " item_id))
      | Some item =>
          if negb (LibraryItem.is_available item) then
            raise (RuntimeError
              (String.append "Item "
                 (String.append item_id " is not available")))
          else
            let! due :=
              lift (LibraryItem.calculate_due_date item checkout_date
                      (User.role user)) in
            do! on_item item_id item LibraryItem.checkout_copy in
            let! loan :=
              lift (Loan.init loan_id (User.user_id user)
                      (LibraryItem.item_id item) due None 0) in
            do! store_loan loan_id loan in
            do! on_user user_id user (User.add_loan loan_id) in
            ret loan
      end
  end.

(** [loan.return_item(item, ...)] on the loan under [loan_id] and the
    item under [item_id]. *)
Definition on_loan_and_item {A} (loan_id : string) (loan : Loan.t)
    (item_id : string) (item : LibraryItem.t)
    (c : M (Loan.t * LibraryItem.t) A) : M t A :=
  fun s =>
    let '(r, (loan', item')) := c (loan, item) in
    (r, mk (Catalog.update_item item_id item' (catalog s))
           (users s) (<[loan_id := loan']> (loans s)) (holds s)).

Definition return_item (loan_id : string) (return_date : Date.t)
    (daily_rate : Float.t) : M t Float.t :=
  let! s := get in
  match loans s !! loan_id with
  | None => raise (KeyError (String.append "Unknown loan " loan_id))
  | Some loan =>
      match Catalog.get_item (Loan.item_id loan) (catalog s) with
      | None =>
          raise (KeyError (String.append "Unknown item " (Loan.item_id loan)))
      | Some item =>
          let! fine :=
            on_loan_and_item loan_id loan (Loan.item_id loan) item
              (Loan.return_item return_date daily_rate) in
          match users s !! Loan.user_id loan with
          | None => raise (KeyError (Loan.user_id loan))
          | Some user =>
              do! on_user (Loan.user_id loan) user
                    (do! User.remove_loan loan_id in
                     if Float.ltb Float.zero fine then User.add_fine fine
                     else ret tt) in
              ret fine
          end
      end
  end.

Definition place_hold (hold_id user_id item_id : string)
    (placed_on expires_on : Date.t) : M t Hold.t :=
  let! s := get in
  match holds s !! hold_id with
  | Some _ =>
      raise (ValueError
        (String.append "Hold " (String.append hold_id " already exists")))
  | None =>
      let! hold :=
        lift (Hold.init hold_id user_id item_id placed_on expires_on false) in
      do! put (mk (catalog s) (users s) (loans s) (<[hold_id := hold]> (holds s))) in
      ret hold
  end.

End LibrarySystem.

(** ** Sequences of operations on one object

    A caller may catch an exception and go on: a sequence of calls is run
    from the state each call leaves, whatever its outcome. *)

Module ItemOps.

Inductive op : Type :=
| CheckoutCopy
| ReturnCopy
| AddTag (tag : string)
| RemoveTag (tag : string).

Definition run (o : op) : M LibraryItem.t unit :=
  match o with
  | CheckoutCopy => LibraryItem.checkout_copy
  | ReturnCopy => LibraryItem.return_copy
  | AddTag tag => LibraryItem.add_tag tag
  | RemoveTag tag => LibraryItem.remove_tag tag
  end.

Definition exec (ops : list op) (it : LibraryItem.t) : LibraryItem.t :=
  fold_left (fun it o => snd (run o it)) ops it.

(** The copy-count invariant of the data model. *)
Definition inv (it : LibraryItem.t) : Prop :=
  0 <= LibraryItem.available_copies it <= LibraryItem.total_copies it.

(** The invariant on every item of a system's catalog. *)
Definition catalog_inv (s : LibrarySystem.t) : Prop :=
  forall (id : string) (it : LibraryItem.t),
    Catalog.items (LibrarySystem.catalog s) !! id = Some it -> inv it.

(** A method of the system keeps the catalog invariant, whatever its
    outcome. *)
Definition preserves {A} (c : M LibrarySystem.t A) : Prop :=
  forall s, catalog_inv s -> catalog_inv (snd (c s)).

End ItemOps.

(** ** The policy table of the specification *)

Module Spec.

(** The closed set of roles. *)
Inductive Role : Type := Student | Faculty | Staff | Admin | Public.

Definition role_name (r : Role) : string :=
  match r with
  | Student => "Student"
  | Faculty => "Faculty"
  | Staff => "Staff"
  | Admin => "Admin"
  | Public => "Public"
  end.

(** Role-based loan period: 14 days for Student and Public, 28 days for
    every other role. *)
Definition role_period (r : Role) : Z :=
  match r with
  | Student | Public => 14
  | Faculty | Staff | Admin => 28
  end.

(** The due-date table, in days after checkout; [None] is the
    licensed-resource row, whose due date is the checkout date. *)
Definition loan_days (k : LibraryItem.kind) (r : Role) : option Z :=
  match k with
  | LibraryItem.Generic | LibraryItem.Book => Some (role_period r)
  | LibraryItem.Journal =>
      Some (match r with Student | Public => 7 | _ => 14 end)
  | LibraryItem.DVD => Some 7
  | LibraryItem.EBook => None
  end.

(** A hold is active when it is neither fulfilled nor cancelled and
    today is on or before its expiry. *)
Definition hold_active (h : Hold.t) (today : Date.t) : Prop :=
  Hold.fulfilled h = false /\ Hold.cancelled h = false
  /\ today <= Hold.expires_on h.

(** Another user holds an active hold on the item, among [holds]. *)
Definition other_active_hold (user : User.t) (item : LibraryItem.t)
    (today : Date.t) (holds : list Hold.t) : Prop :=
  exists h, In h holds
    /\ Hold.item_id h = LibraryItem.item_id item
    /\ Hold.user_id h <> User.user_id user
    /\ hold_active h today.

(** The renewal rule as the specification words it: with the loan
    active, the user its borrower, the count below the maximum and the
    loan not overdue (or overdue allowed), [renew] succeeds exactly when
    no other user holds an active hold on the item. *)
Definition renewal_rule : Prop :=
  forall (user : User.t) (item : LibraryItem.t) (today : Date.t)
         (holds : list Hold.t) (max_renewals : Z) (allow_overdue : bool)
         (l : Loan.t),
    Loan.is_active l = true ->
    Loan.user_id l = User.user_id user ->
    Loan.renewals l < max_renewals ->
    Loan.is_overdue l today = false \/ allow_overdue = true ->
    ((exists d l',
        Loan.renew user item today (Some holds) max_renewals allow_overdue l
        = (Ok (Some d), l'))
     <-> ~ other_active_hold user item today holds).

(** The duplicate-id rule as the specification words it, for loans: a
    checkout under an id already in the loan catalog fails with a
    conflict error and leaves the stored loan as it was. *)
Definition duplicate_loan_rule : Prop :=
  forall (s : LibrarySystem.t) (loan_id user_id item_id : string)
         (checkout_date : Date.t),
    is_Some (LibrarySystem.loans s !! loan_id) ->
    (exists msg,
       fst (LibrarySystem.checkout_item loan_id user_id item_id checkout_date s)
       = Raise (ValueError msg))
    /\ LibrarySystem.loans
         (snd (LibrarySystem.checkout_item loan_id user_id item_id
                 checkout_date s)) !! loan_id
       = LibrarySystem.loans s !! loan_id.

(** Atomicity as the specification words it, for the two operations it
    names. *)
Definition return_is_atomic : Prop :=
  forall (l l' : Loan.t) (item item' : LibraryItem.t) (return_date : Date.t)
         (daily_rate : Float.t) (e : exn),
    Loan.returned_on l = None ->
    Loan.return_item return_date daily_rate (l, item) = (Raise e, (l', item')) ->
    Loan.returned_on l' = None
    /\ LibraryItem.available_copies item' = LibraryItem.available_copies item.

Definition checkout_is_atomic : Prop :=
  forall (s s' : LibrarySystem.t) (loan_id user_id item_id : string)
         (checkout_date : Date.t) (e : exn),
    LibrarySystem.checkout_item loan_id user_id item_id checkout_date s
      = (Raise e, s') ->
    (LibraryItem.available_copies <$> LibrarySystem.get_item item_id s')
    = (LibraryItem.available_copies <$> LibrarySystem.get_item item_id s).

End Spec.

Module HoldOps.

Inductive op : Type :=
| Notify
| Fulfill
| Cancel
| Extend (additional_days : Z) (today : Date.t).

Definition run (o : op) : M Hold.t unit :=
  match o with
  | Notify => Hold.notify
  | Fulfill => Hold.fulfill
  | Cancel => Hold.cancel
  | Extend n today => do! Hold.extend n today in ret tt
  end.

Definition exec (ops : list op) (h : Hold.t) : Hold.t :=
  fold_left (fun h o => snd (run o h)) ops h.

(** The holds a program can hold: built by the constructor, then put
    through any calls. *)
Definition reachable (h : Hold.t) : Prop :=
  exists hold_id user_id item_id placed_on expires_on notified h0 ops,
    Hold.init hold_id user_id item_id placed_on expires_on notified = Ok h0
    /\ h = exec ops h0.

(** The two terminal flags are never both set. *)
Definition flags_exclusive (h : Hold.t) : Prop :=
  Hold.fulfilled h && Hold.cancelled h = false.

End HoldOps.

Module LoanOps.

(** The arguments of one call of [Loan.renew]. *)
Record renew_call : Type := mk_call {
  user : User.t;
  item : LibraryItem.t;
  today : Date.t;
  holds : option (list Hold.t);
  max_renewals : Z;
  allow_overdue : bool
}.

Definition renew (c : renew_call) : M Loan.t (option Date.t) :=
  Loan.renew (user c) (item c) (today c) (holds c) (max_renewals c)
    (allow_overdue c).

(** Calls in a row: the outcomes, in order, and the loan left. *)
Fixpoint renew_all (calls : list renew_call) (l : Loan.t)
    : list (result (option Date.t)) * Loan.t :=
  match calls with
  | [] => ([], l)
  | c :: rest =>
      let '(r, l1) := renew c l in
      let '(rs, l2) := renew_all rest l1 in
      (r :: rs, l2)
  end.

End LoanOps.

(** ** Concrete objects

    The objects of the repository's demonstration and test scripts, and a
    few more in their style. *)

Module Examples.

Definition jan (day : Z) : Date.t := Date.ymd2ord 2025 1 day.
Definition mar (day : Z) : Date.t := Date.ymd2ord 2025 3 day.

(** [User("U1", "jane doe", "Student")] *)
Definition jane : User.t :=
  User.mk "U1" "Jane Doe" "Student" [] Float.zero.

(** [User("U2", "bob faculty", "Faculty")] *)
Definition bob : User.t :=
  User.mk "U2" "Bob Faculty" "Faculty" [] Float.zero.

(** [Book("B1", "Test Book", ["a"], set(), 2)] *)
Definition book : LibraryItem.t :=
  LibraryItem.mk LibraryItem.Book "B1" "Test Book" ["A"] ∅ 2 2 None None None.

(** [DVD("DV", "DVD", ["a"], set(), 1)] *)
Definition dvd : LibraryItem.t :=
  LibraryItem.mk LibraryItem.DVD "DV" "DVD" ["A"] ∅ 1 1 None None None.

(** [EBook("EB", "EBook", ["a"], set(), 1)] *)
Definition ebook : LibraryItem.t :=
  LibraryItem.mk LibraryItem.EBook "EB" "EBook" ["A"] ∅ 1 1 None None None.

(** [book] with one of its two copies out. *)
Definition book_one_out : LibraryItem.t :=
  LibraryItem.set_available 1 book.

(** [Hold("H001", "U001", "B001", date(2025, 1, 1), date(2025, 1, 10))] *)
Definition hold : Hold.t :=
  Hold.mk "H001" "U001" "B001" (jan 1) (jan 10) false false false.

(** A library with [jane], [bob] and the three items. *)
Definition library : LibrarySystem.t :=
  LibrarySystem.mk
    (Catalog.mk "Test Library"
       (<["B1" := book]> (<["DV" := dvd]> (<["EB" := ebook]> ∅))))
    (<["U1" := jane]> (<["U2" := bob]> ∅)) ∅ ∅.

(** The same objects, registered through the system's own methods. *)
Definition library_built : result unit * LibrarySystem.t :=
  match LibrarySystem.init "Test Library" with
  | Raise e => (Raise e, LibrarySystem.mk (Catalog.mk "" ∅) ∅ ∅ ∅)
  | Ok s0 =>
      (do! LibrarySystem.add_user jane in
       do! LibrarySystem.add_user bob in
       do! LibrarySystem.add_item book in
       do! LibrarySystem.add_item dvd in
       LibrarySystem.add_item ebook) s0
  end.

End Examples.

Module MoreExamples.

(** A loan of [Examples.jane], closed on 2025-01-20. *)
Definition closed_loan : Loan.t :=
  Loan.mk "L1" "U1" "B1" (Examples.jan 15) (Some (Examples.jan 20)) 0.

(** Jane's loan of the DVD, checked out on 2025-03-01. *)
Definition dvd_loan : Loan.t :=
  Loan.mk "L2" "U1" "DV" (Examples.mar 8) None 0.

Definition renew_by_jane : LoanOps.renew_call :=
  LoanOps.mk_call Examples.jane Examples.book (Examples.jan 10) None 2 false.

Definition renew_by_bob : LoanOps.renew_call :=
  LoanOps.mk_call Examples.bob Examples.book (Examples.jan 25) (Some []) 5 true.

(** Jane's loan of the book, checked out on 2025-01-01. *)
Definition book_loan : Loan.t :=
  Loan.mk "L1" "U1" "B1" (Examples.jan 15) None 0.

(** Bob's hold on the book, [Hold("H2", "U2", "B1", date(2025, 1, 1),
    date(2025, 1, 20))], after [fulfill()]: Bob has got his copy. *)
Definition bob_hold : Hold.t :=
  Hold.mk "H2" "U2" "B1" (Examples.jan 1) (Examples.jan 20) false false false.
Definition bob_hold_fulfilled : Hold.t :=
  Hold.mk "H2" "U2" "B1" (Examples.jan 1) (Examples.jan 20) false true false.

(** The library after [checkout_item("L1", "U1", "B1", date(2025, 1, 1))]. *)
Definition library_L1 : LibrarySystem.t :=
  snd (LibrarySystem.checkout_item "L1" "U1" "B1" (Examples.jan 1)
         Examples.library).

(** The library after [checkout_item("L3", "U1", "EB", date(2025, 1, 1))]. *)
Definition library_L3 : LibrarySystem.t :=
  snd (LibrarySystem.checkout_item "L3" "U1" "EB" (Examples.jan 1)
         Examples.library).

Definition ebook_loan : Loan.t :=
  Loan.mk "L3" "U1" "EB" (Examples.jan 1) None 0.

End MoreExamples.


(** ** The class of a raised exception *)

Module Exn.

Definition is_RuntimeError {A} (r : result A) : bool :=
  match r with Raise (RuntimeError _) => true | _ => false end.
Definition is_ValueError {A} (r : result A) : bool :=
  match r with Raise (ValueError _) => true | _ => false end.
Definition is_KeyError {A} (r : result A) : bool :=
  match r with Raise (KeyError _) => true | _ => false end.
Definition is_Ok {A} (r : result A) : bool :=
  match r with Ok _ => true | Raise _ => false end.

End Exn.

(** ** The rest of project_1_functions.py *)

Module project_1_search.

(** [needle in hay] on strings: [needle] occurs as a substring. *)
Fixpoint contains (needle hay : string) : bool :=
  String.prefix needle hay
  || match hay with
     | EmptyString => false
     | String _ rest => contains needle rest
     end.

(** [search_items]: the items whose title holds the keyword, case
    folded, in the order of [items]. *)
Definition search_items (items : list LibraryItem.t) (keyword : string)
    : list LibraryItem.t :=
  List.filter
    (fun i => contains (Str.lower keyword) (Str.lower (LibraryItem.title i)))
    items.

Definition check_item_availability (item : LibraryItem.t) : bool :=
  0 <? LibraryItem.available_copies item.

End project_1_search.

(** ** Sequences of calls on a user and on a loan *)

Module UserOps.

Inductive op : Type :=
| AddLoan (loan_id : string)
| RemoveLoan (loan_id : string)
| AddFine (amount : Float.t)
| PayFine (amount : Float.t).

Definition run (o : op) : M User.t unit :=
  match o with
  | AddLoan loan_id => User.add_loan loan_id
  | RemoveLoan loan_id => User.remove_loan loan_id
  | AddFine amount => User.add_fine amount
  | PayFine amount => do! User.pay_fine amount in ret tt
  end.

Definition exec (ops : list op) (u : User.t) : User.t :=
  fold_left (fun u o => snd (run o u)) ops u.

(** The users a program can hold: built by the constructor, then put
    through any calls. *)
Definition reachable (u : User.t) : Prop :=
  exists user_id name role u0 ops,
    User.init user_id name role = Ok u0 /\ u = exec ops u0.

(** [x < 0] is false: a balance that is not negative. *)
Definition not_negative (x : Float.t) : Prop := Float.ltb x Float.zero = false.

End UserOps.

Module LoanLife.

(** The two mutating methods of a loan. *)
Inductive op : Type :=
| Renew (c : LoanOps.renew_call)
| Return (item : LibraryItem.t) (return_date : Date.t) (daily_rate : Float.t).

(** The loan a call leaves, whatever its outcome. *)
Definition run (o : op) (l : Loan.t) : Loan.t :=
  match o with
  | Renew c => snd (LoanOps.renew c l)
  | Return item return_date daily_rate =>
      fst (snd (Loan.return_item return_date daily_rate (l, item)))
  end.

Definition exec (ops : list op) (l : Loan.t) : Loan.t :=
  fold_left (fun l o => run o l) ops l.

(** Renewals only, all with the same maximum. *)
Definition with_max (m : Z) (c : LoanOps.renew_call) : LoanOps.renew_call :=
  LoanOps.mk_call (LoanOps.user c) (LoanOps.item c) (LoanOps.today c)
    (LoanOps.holds c) m (LoanOps.allow_overdue c).

End LoanLife.

(** ** Sequences of calls on a library system *)

Module SysOps.

(** The calls a driver makes: the methods of [LibrarySystem], with users
    and items built by their constructors (and possibly used before they
    are registered), and methods called directly on a registered item or
    user, which the system shares with its caller. *)
Inductive op : Type :=
| AddUser (user_id name role : string) (before : list UserOps.op)
| AddItem (k : LibraryItem.kind) (item_id title : string)
    (creators : list string) (tags : gset string) (available_copies : Z)
    (call_number isbn genre : option string) (before : list ItemOps.op)
| Checkout (loan_id user_id item_id : string) (checkout_date : Date.t)
| Return (loan_id : string) (return_date : Date.t) (daily_rate : Float.t)
| PlaceHold (hold_id user_id item_id : string) (placed_on expires_on : Date.t)
| ItemCall (item_id : string) (o : ItemOps.op)
| UserCall (user_id : string) (o : UserOps.op).

Definition run (o : op) : M LibrarySystem.t unit :=
  match o with
  | AddUser user_id name role before =>
      let! u := lift (User.init user_id name role) in
      LibrarySystem.add_user (UserOps.exec before u)
  | AddItem k item_id title creators tags n call_number isbn genre before =>
      let! it := lift (LibraryItem.init k item_id title creators tags n
                         call_number isbn genre) in
      LibrarySystem.add_item (ItemOps.exec before it)
  | Checkout loan_id user_id item_id checkout_date =>
      do! LibrarySystem.checkout_item loan_id user_id item_id checkout_date in
      ret tt
  | Return loan_id return_date daily_rate =>
      do! LibrarySystem.return_item loan_id return_date daily_rate in ret tt
  | PlaceHold hold_id user_id item_id placed_on expires_on =>
      do! LibrarySystem.place_hold hold_id user_id item_id placed_on expires_on in
      ret tt
  | ItemCall item_id o =>
      let! s := get in
      match LibrarySystem.get_item item_id s with
      | Some item => LibrarySystem.on_item item_id item (ItemOps.run o)
      | None => ret tt
      end
  | UserCall user_id o =>
      let! s := get in
      match LibrarySystem.get_user user_id s with
      | Some user => LibrarySystem.on_user user_id user (UserOps.run o)
      | None => ret tt
      end
  end.

Definition exec (ops : list op) (s : LibrarySystem.t) : LibrarySystem.t :=
  fold_left (fun s o => snd (run o s)) ops s.

(** The systems a driver can reach from a new [LibrarySystem(name)]. *)
Definition reachable (s : LibrarySystem.t) : Prop :=
  exists name s0 ops, LibrarySystem.init name = Ok s0 /\ s = exec ops s0.

(** Consistency of the stores: every item keeps its copy count within
    bounds, and every item and user is stored under its own id. *)
Definition consistent (s : LibrarySystem.t) : Prop :=
  ItemOps.catalog_inv s
  /\ (forall k it, Catalog.items (LibrarySystem.catalog s) !! k = Some it ->
        LibraryItem.item_id it = k)
  /\ (forall k u, LibrarySystem.users s !! k = Some u -> User.user_id u = k).

(** A method keeps a property of the system, whatever its outcome. *)
Definition keeps (P : LibrarySystem.t -> Prop) {A}
    (c : M LibrarySystem.t A) : Prop :=
  forall s, P s -> P (snd (c s)).

End SysOps.

Module SysExamples.

(** A short session: two registrations, a checkout, a hold, a direct
    call on the shared book, a return, and a checkout that fails. *)
Definition session : list SysOps.op :=
  [SysOps.AddUser "U1" "jane doe" "Student" [];
   SysOps.AddItem LibraryItem.Book "B1" "Test Book" ["a"] ∅ 2 None None None [];
   SysOps.Checkout "L1" "U1" "B1" (Examples.jan 1);
   SysOps.PlaceHold "H1" "U1" "B1" (Examples.jan 2) (Examples.jan 9);
   SysOps.ItemCall "B1" ItemOps.ReturnCopy;
   SysOps.ItemCall "B1" ItemOps.ReturnCopy;
   SysOps.Return "L1" (Examples.jan 20) Loan.default_daily_rate;
   SysOps.Checkout "" "U1" "B1" (Examples.jan 21)].

Definition after_session : LibrarySystem.t :=
  SysOps.exec session
    (LibrarySystem.mk (Catalog.mk "Test Library" ∅) ∅ ∅ ∅).

End SysExamples.

Module IsbnForm.

(** The string the validator works on: hyphens and spaces taken out,
    letters in upper case. *)
Definition cleaned (isbn : string) : string :=
  Str.upper (Str.remove_char " "%char (Str.remove_char "-"%char isbn)).

End IsbnForm.

(** ** Rounding to two decimals, as the specification means it *)

Module FineSpec.

(** [n] is the magnitude of the finite float [x], counted in hundredths
    and rounded to the nearest integer, ties to even: with [x] equal to
    plus or minus [m * 2^e], the distance from [100 * m * 2^e] to [n] is
    at most one half, and [n] is even when it is exactly one half.  The
    inequality is written multiplied by [2^(-e)] to stay in the
    integers. *)
Definition nearest_hundredth (x : Float.t) (n : Z) : Prop :=
  match x with
  | S754_finite _ m e =>
      if 0 <=? e then n = 100 * Zpos m * 2 ^ e
      else
        2 * Z.abs (100 * Zpos m - n * 2 ^ (- e)) <= 2 ^ (- e)
        /\ (2 * Z.abs (100 * Zpos m - n * 2 ^ (- e)) = 2 ^ (- e) ->
            Z.even n = true)
  | _ => False
  end.

(** The float a decimal with two places reads as: plus or minus [n / 100],
    the sign kept on zero. *)
Definition of_hundredths (negative : bool) (n : Z) : Float.t :=
  if n =? 0 then S754_zero negative
  else Float.lit (if negative then - n else n) 100.

(** [r] is [x] rounded to two decimals: the float read from the decimal
    with two places nearest to [x], ties to even; zeros, infinities and
    NaN round to themselves. *)
Definition rounded_to_two_decimals (x r : Float.t) : Prop :=
  match x with
  | S754_finite negative _ _ =>
      exists n, nearest_hundredth x n /\ r = of_hundredths negative n
  | _ => r = x
  end.

End FineSpec.

(** ** ASCII text *)

Module AsciiText.

(** Every character is below 128.  On such text the string operations of
    [Str] are exactly Python's; outside it Python maps case and classifies
    digits by Unicode rules. *)
Fixpoint is_ascii (s : string) : bool :=
  match s with
  | EmptyString => true
  | String c r => (Str.code c <? 128)%nat && is_ascii r
  end.

End AsciiText.
(** * Properties *)

(** Closed equations between evaluated terms. *)
Ltac closed_eval :=
  lazymatch goal with
  | |- @eq _ _ _ => vm_compute; reflexivity
  | |- _ < _ => vm_compute; reflexivity
  | |- exists _, @eq _ _ _ => eexists; vm_compute; reflexivity
  end.

(** ** Item policy *)

Lemma checkout_copy_total (it : LibraryItem.t) :
  LibraryItem.total_copies (snd (LibraryItem.checkout_copy it))
  = LibraryItem.total_copies it.
Proof.
  unfold LibraryItem.checkout_copy.
  destruct (LibraryItem.cls it); simpl; try reflexivity;
    destruct (LibraryItem.available_copies it <=? 0); reflexivity.
Qed.

Lemma return_copy_total (it : LibraryItem.t) :
  LibraryItem.total_copies (snd (LibraryItem.return_copy it))
  = LibraryItem.total_copies it.
Proof.
  unfold LibraryItem.return_copy.
  destruct (LibraryItem.total_copies it <=? LibraryItem.available_copies it);
    reflexivity.
Qed.

Lemma run_total (o : ItemOps.op) (it : LibraryItem.t) :
  LibraryItem.total_copies (snd (ItemOps.run o it)) = LibraryItem.total_copies it.
Proof.
  destruct o; simpl.
  - apply checkout_copy_total.
  - apply return_copy_total.
  - unfold LibraryItem.add_tag.
    destruct (Str.truthy tag && Str.truthy (Str.strip tag)); reflexivity.
  - reflexivity.
Qed.

Lemma run_inv (o : ItemOps.op) (it : LibraryItem.t) :
  ItemOps.inv it -> ItemOps.inv (snd (ItemOps.run o it)).
Proof.
  unfold ItemOps.inv. intros H. destruct o; simpl.
  - unfold LibraryItem.checkout_copy.
    destruct (LibraryItem.cls it); simpl; try assumption;
      destruct (Z.leb_spec (LibraryItem.available_copies it) 0); simpl; lia.
  - unfold LibraryItem.return_copy.
    destruct (Z.leb_spec (LibraryItem.total_copies it)
                (LibraryItem.available_copies it)); simpl; lia.
  - unfold LibraryItem.add_tag.
    destruct (Str.truthy tag && Str.truthy (Str.strip tag)); simpl; assumption.
  - simpl. assumption.
Qed.

Lemma exec_inv (ops : list ItemOps.op) (it : LibraryItem.t) :
  ItemOps.inv it -> ItemOps.inv (ItemOps.exec ops it).
Proof.
  revert it. induction ops as [|o ops IH]; intros it H; simpl.
  - exact H.
  - apply IH. apply run_inv. exact H.
Qed.

Lemma exec_total (ops : list ItemOps.op) (it : LibraryItem.t) :
  LibraryItem.total_copies (ItemOps.exec ops it) = LibraryItem.total_copies it.
Proof.
  revert it. induction ops as [|o ops IH]; intros it; simpl.
  - reflexivity.
  - rewrite IH. apply run_total.
Qed.

(** C5. For an item whose available copies lie in [0, total_copies]:
    on a physical item (every class but EBook) [checkout_copy] raises the
    capacity error (a RuntimeError, item untouched) when no copy is
    available and otherwise takes exactly one copy; [return_copy] raises
    the state error (a RuntimeError, item untouched) when all copies are
    in and otherwise gives back exactly one; on an EBook [checkout_copy]
    leaves the item as it is; and every operation, raising or not, leaves
    available copies within [0, total_copies]. *)
Theorem copies_invariant_preserved (it : LibraryItem.t) :
  ItemOps.inv it ->
  (LibraryItem.cls it <> LibraryItem.EBook ->
     (LibraryItem.available_copies it = 0 ->
        exists msg,
          LibraryItem.checkout_copy it = (Raise (RuntimeError msg), it))
     /\ (LibraryItem.available_copies it <> 0 ->
        LibraryItem.checkout_copy it
        = (Ok tt, LibraryItem.set_available
                    (LibraryItem.available_copies it - 1) it)))
  /\ (LibraryItem.available_copies it = LibraryItem.total_copies it ->
        exists msg, LibraryItem.return_copy it = (Raise (RuntimeError msg), it))
  /\ (LibraryItem.available_copies it <> LibraryItem.total_copies it ->
        LibraryItem.return_copy it
        = (Ok tt, LibraryItem.set_available
                    (LibraryItem.available_copies it + 1) it))
  /\ (LibraryItem.cls it = LibraryItem.EBook ->
        LibraryItem.checkout_copy it = (Ok tt, it))
  /\ (forall o, ItemOps.inv (snd (ItemOps.run o it)))
  /\ (forall ops, ItemOps.inv (ItemOps.exec ops it)).
Proof.
  intros Hinv. pose proof Hinv as [Hlo Hhi].
  repeat split.
  - intros Hz. unfold LibraryItem.checkout_copy.
    destruct (LibraryItem.cls it) eqn:E; try congruence;
      rewrite Hz; simpl; eexists; reflexivity.
  - intros Hnz. unfold LibraryItem.checkout_copy.
    destruct (LibraryItem.cls it) eqn:E; try congruence;
      destruct (Z.leb_spec (LibraryItem.available_copies it) 0);
      first [lia | reflexivity].
  - intros Heq. unfold LibraryItem.return_copy.
    rewrite Heq, Z.leb_refl. eexists; reflexivity.
  - intros Hne. unfold LibraryItem.return_copy.
    destruct (Z.leb_spec (LibraryItem.total_copies it)
                (LibraryItem.available_copies it)); [lia | reflexivity].
  - intros E. unfold LibraryItem.checkout_copy. rewrite E. reflexivity.
  - apply run_inv; assumption.
  - apply run_inv; assumption.
  - apply exec_inv; assumption.
  - apply exec_inv; assumption.
Qed.

Lemma examples_constructed :
  User.init "U1" "jane doe" "Student" = Ok Examples.jane
  /\ User.init "U2" "bob faculty" "Faculty" = Ok Examples.bob
  /\ LibraryItem.init LibraryItem.Book "B1" "Test Book" ["a"] ∅ 2 None None None
     = Ok Examples.book
  /\ LibraryItem.init LibraryItem.DVD "DV" "DVD" ["a"] ∅ 1 None None None
     = Ok Examples.dvd
  /\ LibraryItem.init LibraryItem.EBook "EB" "EBook" ["a"] ∅ 1 None None None
     = Ok Examples.ebook
  /\ Hold.init "H001" "U001" "B001" (Examples.jan 1) (Examples.jan 10) false
     = Ok Examples.hold
  /\ Examples.library_built = (Ok tt, Examples.library).
Proof. repeat split; vm_compute; reflexivity. Qed.

Lemma copies_invariant_preserved_witness :
  ItemOps.inv Examples.book_one_out
  /\ LibraryItem.checkout_copy Examples.book_one_out
     = (Ok tt, LibraryItem.set_available 0 Examples.book_one_out)
  /\ LibraryItem.return_copy Examples.book_one_out
     = (Ok tt, Examples.book)
  /\ (exists msg,
        LibraryItem.return_copy Examples.book = (Raise (RuntimeError msg), Examples.book))
  /\ LibraryItem.checkout_copy Examples.ebook = (Ok tt, Examples.ebook).
Proof.
  assert (H1 : ItemOps.inv Examples.book_one_out)
    by (unfold ItemOps.inv; simpl; lia).
  assert (H2 : ItemOps.inv Examples.book)
    by (unfold ItemOps.inv; simpl; lia).
  assert (H3 : ItemOps.inv Examples.ebook)
    by (unfold ItemOps.inv; simpl; lia).
  split; [exact H1|].
  destruct (copies_invariant_preserved Examples.book_one_out H1)
    as [Hc [_ [Hr _]]].
  destruct (copies_invariant_preserved Examples.book H2) as [_ [Hfull _]].
  destruct (copies_invariant_preserved Examples.ebook H3)
    as [_ [_ [_ [He _]]]].
  split; [apply Hc; simpl; [discriminate | lia]|].
  split; [apply Hr; simpl; lia|].
  split; [apply Hfull; reflexivity|].
  apply He; reflexivity.
Defined.

(** C10. The constructor takes one count and stores it both as the
    available and as the total number of copies; no operation of the item
    changes the total, so after any sequence of calls the total is still
    the count given at construction and the available copies are at most
    that count. *)
Theorem total_copies_fixed_at_construction
    (k : LibraryItem.kind) (item_id title : string) (creators : list string)
    (tags : gset string) (n : Z) (call_number isbn genre : option string)
    (it : LibraryItem.t) :
  LibraryItem.init k item_id title creators tags n call_number isbn genre = Ok it ->
  LibraryItem.total_copies it = n
  /\ LibraryItem.available_copies it = n
  /\ (forall o, LibraryItem.total_copies (snd (ItemOps.run o it)) = n)
  /\ (forall ops,
        LibraryItem.total_copies (ItemOps.exec ops it) = n
        /\ LibraryItem.available_copies (ItemOps.exec ops it) <= n).
Proof.
  unfold LibraryItem.init. intros H.
  destruct (Str.blank item_id); [discriminate|].
  destruct (Str.blank title); [discriminate|].
  destruct (Z.ltb_spec n 0) as [|Hn]; [discriminate|].
  match type of H with (if ?b then _ else _) = _ => destruct b end;
    [discriminate|].
  injection H as <-. simpl.
  split; [reflexivity|]. split; [reflexivity|].
  split.
  - intros o. rewrite run_total. reflexivity.
  - intros ops.
    match goal with |- context [ItemOps.exec ops ?x] => set (it0 := x) end.
    assert (Hinv : ItemOps.inv it0) by (unfold ItemOps.inv; simpl; lia).
    pose proof (exec_inv ops it0 Hinv) as [_ Hle].
    rewrite exec_total in Hle |- *. simpl in *. split; [reflexivity | exact Hle].
Qed.

Lemma total_copies_fixed_at_construction_witness :
  LibraryItem.init LibraryItem.Book "B1" "Test Book" ["a"] ∅ 2 None None None
    = Ok Examples.book
  /\ LibraryItem.total_copies Examples.book = 2
  /\ LibraryItem.available_copies Examples.book = 2
  /\ LibraryItem.available_copies
       (ItemOps.exec [ItemOps.ReturnCopy; ItemOps.CheckoutCopy; ItemOps.ReturnCopy;
                      ItemOps.ReturnCopy] Examples.book) <= 2.
Proof.
  assert (H : LibraryItem.init LibraryItem.Book "B1" "Test Book" ["a"] ∅ 2
                None None None = Ok Examples.book) by (vm_compute; reflexivity).
  split; [exact H|].
  destruct (total_copies_fixed_at_construction _ _ _ _ _ _ _ _ _ _ H)
    as [Ht [Ha [_ Hops]]].
  split; [exact Ht|]. split; [exact Ha|].
  apply Hops.
Defined.

Lemma role_names_valid (r : Spec.Role) :
  project_1_functions.validate_user_role (Spec.role_name r) = true.
Proof. destruct r; reflexivity. Qed.

Lemma valid_role_is_named (role : string) :
  project_1_functions.validate_user_role role = true ->
  exists r, role = Spec.role_name r.
Proof.
  unfold project_1_functions.validate_user_role, Str.in_set. simpl.
  intros H.
  repeat (apply orb_prop in H; destruct H as [H|H]);
    try (apply String.eqb_eq in H);
    [exists Spec.Student | exists Spec.Faculty | exists Spec.Staff
     | exists Spec.Admin | exists Spec.Public | discriminate]; exact H.
Qed.

Lemma add_days_in_range (d : Date.t) (n : Z) :
  Date.valid d -> 0 <= n <= 999999999 -> d + n <= Date.MAXORDINAL ->
  Date.add_days d n = Ok (d + n).
Proof.
  unfold Date.valid, Date.add_days, Date.MINORDINAL. intros Hd Hn Hmax.
  destruct (Z.ltb_spec n (-999999999)); [lia|].
  destruct (Z.ltb_spec 999999999 n); [lia|]. simpl.
  destruct (Z.ltb_spec 0 (d + n)); [|lia].
  destruct (Z.leb_spec (d + n) Date.MAXORDINAL); [reflexivity | lia].
Qed.

(** C6. For every checkout date and every role of the closed set, the
    due date of an item is the checkout date plus the days of the policy
    table: Book and generic items 14 days for Student and Public and 28
    days for Faculty, Staff and Admin; Journal 7 days for Student and
    Public and 14 days for the others; DVD 7 days for every role; and for
    an EBook the checkout date itself.  The sum is Python's date plus
    timedelta; whenever it is a date (up to 9999-12-31) it is returned. *)
Theorem due_date_policy_table
    (it : LibraryItem.t) (checkout : Date.t) (r : Spec.Role) :
  project_1_functions.validate_user_role (Spec.role_name r) = true
  /\ LibraryItem.calculate_due_date it checkout (Spec.role_name r)
     = match Spec.loan_days (LibraryItem.cls it) r with
       | Some days => Date.add_days checkout days
       | None => Ok checkout
       end
  /\ (forall days,
        Spec.loan_days (LibraryItem.cls it) r = Some days ->
        Date.valid checkout -> checkout + days <= Date.MAXORDINAL ->
        LibraryItem.calculate_due_date it checkout (Spec.role_name r)
        = Ok (checkout + days)).
Proof.
  split; [apply role_names_valid|].
  assert (Heq : LibraryItem.calculate_due_date it checkout (Spec.role_name r)
     = match Spec.loan_days (LibraryItem.cls it) r with
       | Some days => Date.add_days checkout days
       | None => Ok checkout
       end).
  { unfold LibraryItem.calculate_due_date, Spec.loan_days.
    destruct (LibraryItem.cls it); destruct r; reflexivity. }
  split; [exact Heq|].
  intros days Hdays Hv Hmax. rewrite Heq, Hdays.
  apply add_days_in_range; [exact Hv | | exact Hmax].
  destruct (LibraryItem.cls it); destruct r; simpl in Hdays;
    inversion Hdays; lia.
Qed.

Lemma due_date_policy_table_witness :
  LibraryItem.calculate_due_date Examples.book (Examples.mar 1) "Student"
    = Ok (Examples.mar 15)
  /\ LibraryItem.calculate_due_date Examples.book (Examples.mar 1) "Faculty"
    = Ok (Examples.mar 29)
  /\ LibraryItem.calculate_due_date Examples.dvd (Examples.mar 1) "Faculty"
    = Ok (Examples.mar 8).
Proof.
  assert (Hv : Date.valid (Examples.mar 1)) by (vm_compute; split; discriminate).
  split; [|split].
  - destruct (due_date_policy_table Examples.book (Examples.mar 1) Spec.Student)
      as [_ [_ H]].
    apply (H 14); [reflexivity | exact Hv | vm_compute; discriminate].
  - destruct (due_date_policy_table Examples.book (Examples.mar 1) Spec.Faculty)
      as [_ [_ H]].
    apply (H 28); [reflexivity | exact Hv | vm_compute; discriminate].
  - destruct (due_date_policy_table Examples.dvd (Examples.mar 1) Spec.Faculty)
      as [_ [_ H]].
    apply (H 7); [reflexivity | exact Hv | vm_compute; discriminate].
Defined.

(** ** Hold record *)

Lemma hold_init_exclusive hold_id user_id item_id placed_on expires_on notified h :
  Hold.init hold_id user_id item_id placed_on expires_on notified = Ok h ->
  HoldOps.flags_exclusive h.
Proof.
  unfold Hold.init. intros H.
  repeat match type of H with
         | (if ?b then _ else _) = _ => destruct b; [discriminate|]
         end.
  injection H as <-. reflexivity.
Qed.

Lemma hold_run_exclusive (o : HoldOps.op) (h : Hold.t) :
  HoldOps.flags_exclusive h -> HoldOps.flags_exclusive (snd (HoldOps.run o h)).
Proof.
  unfold HoldOps.flags_exclusive. intros H.
  destruct o as [| | |n today]; simpl.
  - unfold Hold.notify.
    destruct (Hold.fulfilled h || Hold.cancelled h); simpl; exact H.
  - unfold Hold.fulfill.
    destruct (Hold.cancelled h) eqn:E; simpl; rewrite ?E;
      first [exact H | reflexivity].
  - unfold Hold.cancel.
    destruct (Hold.fulfilled h) eqn:E; simpl; rewrite ?E;
      first [exact H | reflexivity].
  - unfold Py.bind, Hold.extend.
    destruct (negb (Hold.is_active h today)); simpl; [exact H|].
    destruct (n <? 1); simpl; [exact H|].
    destruct (Date.add_days (Hold.expires_on h) n); simpl; exact H.
Qed.

Lemma reachable_exclusive (h : Hold.t) :
  HoldOps.reachable h -> HoldOps.flags_exclusive h.
Proof.
  intros (hid & uid & iid & p & e & nf & h0 & ops & Hinit & ->).
  apply hold_init_exclusive in Hinit.
  revert h0 Hinit. induction ops as [|o ops IH]; intros h0 H0; simpl.
  - exact H0.
  - apply IH. apply hold_run_exclusive. exact H0.
Qed.

(** C4, as the code has it.  On every hold a program can hold (built by
    the constructor and put through any calls) whose cancelled flag is
    set, [is_expired today] is true exactly when today is after the
    expiry date: cancellation has no part in it.  In particular a
    successful [cancel] leaves the answer of [is_expired] as it was. *)
Theorem cancelled_hold_expiry (h : Hold.t) (today : Date.t) :
  HoldOps.reachable h -> Hold.cancelled h = true ->
  Hold.is_expired h today = Date.lt (Hold.expires_on h) today
  /\ (Hold.is_expired h today = true <-> Hold.expires_on h < today)
  /\ (forall h0, Hold.cancel h0 = (Ok tt, h) ->
        Hold.is_expired h today = Hold.is_expired h0 today).
Proof.
  intros Hr Hc. apply reachable_exclusive in Hr. unfold HoldOps.flags_exclusive in Hr.
  rewrite Hc, andb_true_r in Hr.
  assert (Heq : Hold.is_expired h today = Date.lt (Hold.expires_on h) today).
  { unfold Hold.is_expired. rewrite Hr. reflexivity. }
  split; [exact Heq|]. split.
  - rewrite Heq. unfold Date.lt. apply Z.ltb_lt.
  - intros h0 Hcancel. unfold Hold.cancel in Hcancel.
    destruct (Hold.fulfilled h0) eqn:E; [discriminate|].
    injection Hcancel as <-. unfold Hold.is_expired. simpl. rewrite E.
    reflexivity.
Qed.

Lemma example_hold_cancelled_reachable :
  HoldOps.reachable (snd (Hold.cancel Examples.hold)).
Proof.
  exists "H001", "U001", "B001", (Examples.jan 1), (Examples.jan 10), false,
    Examples.hold, [HoldOps.Cancel].
  split; reflexivity.
Qed.

Lemma cancelled_hold_expiry_witness :
  Hold.is_expired (snd (Hold.cancel Examples.hold)) (Examples.jan 15)
    = Date.lt (Examples.jan 10) (Examples.jan 15)
  /\ Hold.is_expired (snd (Hold.cancel Examples.hold)) (Examples.jan 15)
    = Hold.is_expired Examples.hold (Examples.jan 15).
Proof.
  destruct (cancelled_hold_expiry (snd (Hold.cancel Examples.hold))
              (Examples.jan 15) example_hold_cancelled_reachable eq_refl)
    as [H1 [_ H3]].
  split; [exact H1 | apply H3; reflexivity].
Defined.

(** C4 as stated fails: the hold of the demonstration script, cancelled
    on the spot, is reported expired five days after its expiry date. *)
Lemma cancelled_hold_reported_expired :
  Hold.cancel Examples.hold
    = (Ok tt, Hold.mk "H001" "U001" "B001" (Examples.jan 1) (Examples.jan 10)
                false false true)
  /\ ~ (forall (h : Hold.t) (today : Date.t),
          HoldOps.reachable h -> Hold.cancelled h = true ->
          Hold.is_expired h today = false).
Proof.
  split; [reflexivity|].
  intros H.
  specialize (H (snd (Hold.cancel Examples.hold)) (Examples.jan 15)
                example_hold_cancelled_reachable eq_refl).
  vm_compute in H. discriminate.
Qed.

(** ** Loan record *)

Lemma renew_closed (c : LoanOps.renew_call) (l : Loan.t) :
  Loan.is_active l = false -> LoanOps.renew c l = (Ok None, l).
Proof.
  intros H. unfold LoanOps.renew, Loan.renew. rewrite H. reflexivity.
Qed.

(** C9. On a loan whose return date is set, [renew] returns the no-op
    outcome [None] whatever its arguments and leaves the loan, so its
    renewal count and its due date, as it was; any number of calls in a
    row all do so. *)
Theorem renew_closed_loan_is_noop (l : Loan.t) (d : Date.t) :
  Loan.returned_on l = Some d ->
  (forall user item today holds max_renewals allow_overdue,
     Loan.renew user item today holds max_renewals allow_overdue l
     = (Ok None, l))
  /\ (forall calls,
        LoanOps.renew_all calls l
        = (repeat (Ok None) (List.length calls), l))
  /\ (forall calls,
        Loan.renewals (snd (LoanOps.renew_all calls l)) = Loan.renewals l
        /\ Loan.due (snd (LoanOps.renew_all calls l)) = Loan.due l).
Proof.
  intros Hret.
  assert (Hact : Loan.is_active l = false)
    by (unfold Loan.is_active; rewrite Hret; reflexivity).
  assert (Hall : forall calls,
             LoanOps.renew_all calls l
             = (repeat (Ok None) (List.length calls), l)).
  { induction calls as [|c calls IH]; simpl.
    - reflexivity.
    - rewrite (renew_closed c l Hact), IH. reflexivity. }
  split; [|split].
  - intros user item today holds max_renewals allow_overdue.
    apply (renew_closed
             (LoanOps.mk_call user item today holds max_renewals allow_overdue)
             l Hact).
  - exact Hall.
  - intros calls. rewrite Hall. split; reflexivity.
Qed.

Lemma renew_closed_loan_is_noop_witness :
  Loan.renew Examples.jane Examples.book (Examples.jan 10) None 2 false
    MoreExamples.closed_loan = (Ok None, MoreExamples.closed_loan)
  /\ LoanOps.renew_all
       [MoreExamples.renew_by_jane; MoreExamples.renew_by_bob;
        MoreExamples.renew_by_jane] MoreExamples.closed_loan
     = ([Ok None; Ok None; Ok None], MoreExamples.closed_loan).
Proof.
  destruct (renew_closed_loan_is_noop MoreExamples.closed_loan (Examples.jan 20)
              eq_refl) as [H1 [H2 _]].
  split; [apply H1 | apply H2].
Defined.

(** C8. When [renew] succeeds, the date it returns is today plus the
    role-based period (14 days for the roles Student and Public, 28 days
    for every other role), that date is the loan's new due date, the
    renewal count is one more than before and nothing else of the loan
    changes.  The item takes part through its id only: its class, hence
    its own due-date policy, has no influence on the outcome. *)
Theorem renewal_uses_role_period
    (user : User.t) (item : LibraryItem.t) (today : Date.t)
    (holds : option (list Hold.t)) (max_renewals : Z) (allow_overdue : bool)
    (l l' : Loan.t) (d : Date.t) :
  Loan.renew user item today holds max_renewals allow_overdue l
    = (Ok (Some d), l') ->
  (User.role user = "Student" \/ User.role user = "Public" -> d = today + 14)
  /\ (User.role user <> "Student" -> User.role user <> "Public" ->
      d = today + 28)
  /\ (forall r, User.role user = Spec.role_name r ->
        d = today + Spec.role_period r)
  /\ Loan.due l' = d
  /\ Loan.renewals l' = Loan.renewals l + 1
  /\ l' = Loan.mk (Loan.loan_id l) (Loan.user_id l) (Loan.item_id l) d
            (Loan.returned_on l) (Loan.renewals l + 1)
  /\ (forall item2,
        LibraryItem.item_id item2 = LibraryItem.item_id item ->
        Loan.renew user item2 today holds max_renewals allow_overdue l
        = (Ok (Some d), l')).
Proof.
  intros H. pose proof H as H0.
  assert (Hitem : forall item2,
             LibraryItem.item_id item2 = LibraryItem.item_id item ->
             Loan.renew user item2 today holds max_renewals allow_overdue l
             = Loan.renew user item today holds max_renewals allow_overdue l).
  { intros item2 Hid. unfold Loan.renew, Loan.blocks_renewal.
    rewrite Hid. reflexivity. }
  unfold Loan.renew in H.
  repeat match type of H with
         | (if ?b then _ else _) = _ => destruct b; [discriminate|]
         end.
  unfold project_1_functions.calculate_due_date, Date.add_days in H.
  assert (Hd : d = today + (if Str.in_set (User.role user) ["Student"; "Public"]
                            then 14 else 28)
               /\ l' = Loan.mk (Loan.loan_id l) (Loan.user_id l) (Loan.item_id l)
                         d (Loan.returned_on l) (Loan.renewals l + 1)).
  { repeat match type of H with
           | context [if ?b then _ else _] => destruct b
           end; try discriminate; inversion H; subst; split; reflexivity. }
  clear H. destruct Hd as [Hd Hl'].
  assert (Hset : Str.in_set (User.role user) ["Student"; "Public"] = true
                 <-> (User.role user = "Student" \/ User.role user = "Public")).
  { unfold Str.in_set. simpl. rewrite orb_false_r, orb_true_iff.
    rewrite !String.eqb_eq. reflexivity. }
  split; [|split; [|split]].
  - intros Hr. apply Hset in Hr. rewrite Hr in Hd. exact Hd.
  - intros H1 H2.
    destruct (Str.in_set (User.role user) ["Student"; "Public"]);
      [|exact Hd].
    exfalso. destruct (proj1 Hset eq_refl); contradiction.
  - intros r Hr. rewrite Hr in Hd. rewrite Hd. destruct r; reflexivity.
  - rewrite Hl' at 1 2. simpl. repeat split; try reflexivity; try exact Hl'.
    intros item2 Hid. rewrite (Hitem item2 Hid). exact H0.
Qed.

Lemma renewal_uses_role_period_witness :
  Loan.renew Examples.jane Examples.dvd (Examples.mar 5) None 2 false
    MoreExamples.dvd_loan
  = (Ok (Some (Examples.mar 19)),
     Loan.mk "L2" "U1" "DV" (Examples.mar 19) None 1)
  /\ Examples.mar 19 = Examples.mar 5 + 14
  /\ LibraryItem.calculate_due_date Examples.dvd (Examples.mar 5) "Student"
     = Ok (Examples.mar 12).
Proof.
  assert (H : Loan.renew Examples.jane Examples.dvd (Examples.mar 5) None 2 false
                MoreExamples.dvd_loan
              = (Ok (Some (Examples.mar 19)),
                 Loan.mk "L2" "U1" "DV" (Examples.mar 19) None 1))
    by (vm_compute; reflexivity).
  split; [exact H|]. split; [|vm_compute; reflexivity].
  destruct (renewal_uses_role_period _ _ _ _ _ _ _ _ _ H) as [Hs _].
  apply Hs. left. reflexivity.
Defined.

(** ** Fines *)

Lemma digits2_pos_iter (p k : positive) :
  digits2_pos (Pos.iter xO p k) = (digits2_pos p + k)%positive.
Proof.
  induction k using Pos.peano_ind.
  - simpl. lia.
  - rewrite Pos.iter_succ. simpl. rewrite IHk. lia.
Qed.

Lemma digits2_pos_bound (p : positive) :
  Zpos p < 2 ^ 53 -> Zpos (digits2_pos p) <= 53.
Proof.
  intros H.
  assert (Hsize : digits2_pos p = Pos.size p)
    by (clear H; induction p; simpl; congruence).
  rewrite Hsize.
  destruct (Z.le_gt_cases (Zpos (Pos.size p)) 53) as [|Hgt]; [assumption|].
  exfalso.
  pose proof (Pos.size_le p) as Hle.
  assert (Hp : 2 ^ 54 <= 2 ^ Zpos (Pos.size p))
    by (apply Z.pow_le_mono_r; lia).
  assert (Hq : Zpos (2 ^ Pos.size p) = 2 ^ Zpos (Pos.size p))
    by (rewrite Pos2Z.inj_pow; reflexivity).
  assert (Hr : Zpos (2 ^ Pos.size p) <= Zpos (p~0))
    by (apply Pos2Z.pos_le_pos; exact Hle).
  rewrite Hq in Hr. change (2 ^ 54) with (2 * 2 ^ 53) in Hp. lia.
Qed.

(** A 53-bit mantissa with an exponent in range is already a binary64:
    rounding returns it. *)
Lemma binary_round_aux_exact (mz : positive) (ez : Z) :
  digits2_pos mz = 53%positive -> -52 <= ez <= 0 ->
  binary_round_aux 53 1024 false (Zpos mz) ez loc_Exact
  = S754_finite false mz ez.
Proof.
  intros Hd He. unfold binary_round_aux, shr_fexp, Zdigits2.
  assert (Hf : fexp 53 1024 (53 + ez) = ez) by (unfold fexp, emin; lia).
  rewrite Hd.
  change IntDef.Z.add with Z.add. change IntDef.Z.sub with Z.sub.
  rewrite Hf, Z.sub_diag.
  cbn [shr shr_record_of_loc shr_m loc_of_shr_record shr_r shr_s
       round_nearest_even].
  unfold Zdigits2. rewrite Hd.
  change IntDef.Z.add with Z.add. change IntDef.Z.sub with Z.sub.
  rewrite Hf, Z.sub_diag.
  cbn [shr shr_record_of_loc shr_m loc_of_shr_record shr_r shr_s
       round_nearest_even].
  change IntDef.Z.leb with Z.leb. change (1024 - 53) with 971.
  destruct (Z.leb_spec ez 971); [reflexivity | lia].
Qed.

Lemma iter_xO_value (p k : positive) :
  Zpos (Pos.iter xO p k) = Zpos p * 2 ^ Zpos k.
Proof.
  induction k using Pos.peano_ind.
  - simpl. lia.
  - rewrite Pos.iter_succ, Pos2Z.inj_xO, IHk, Pos2Z.inj_succ, Z.pow_succ_r; lia.
Qed.

(** An [int] below 2^53 converts to a float without raising, and the
    float is that integer. *)
Lemma of_int_small (n : Z) :
  0 < n < 2 ^ 53 ->
  exists x, Float.of_int n = Ok x /\ Float.represents_int x n.
Proof.
  intros [Hpos Hlt]. destruct n as [|p|p]; try lia.
  apply digits2_pos_bound in Hlt.
  unfold Float.of_int, Float.prec, Float.emax, binary_normalize, binary_round.
  set (d := digits2_pos p) in *.
  assert (Hfexp : fexp 53 1024 (Zpos d + 0) = Zpos d - 53)
    by (unfold fexp, emin; lia).
  rewrite Hfexp. unfold shl_align.
  destruct (Zpos d - 53 - 0) eqn:E; try lia.
  - rewrite binary_round_aux_exact; [| fold d; lia | lia].
    eexists. split; [reflexivity|]. simpl. lia.
  - rewrite binary_round_aux_exact;
      [| rewrite digits2_pos_iter; fold d; lia | lia].
    eexists. split; [reflexivity|]. cbn [Float.represents_int].
    split; [lia|]. rewrite iter_xO_value. f_equal. f_equal. lia.
Qed.

(** Rounding a quotient to the nearest integer, ties to even: the result
    is within one half of the quotient, and even on a tie. *)
Lemma round_half_even_nearest (num den : Z) :
  0 <= num -> 0 < den ->
  let n := Float.round_half_even num den in
  0 <= n
  /\ 2 * Z.abs (num - n * den) <= den
  /\ (2 * Z.abs (num - n * den) = den -> Z.even n = true).
Proof.
  intros Hnum Hden. unfold Float.round_half_even.
  pose proof (Z.div_mod num den ltac:(lia)) as Hdm.
  pose proof (Z.mod_pos_bound num den Hden) as Hr.
  pose proof (Z.div_pos num den Hnum Hden) as Hq.
  set (q := num / den) in *. set (r := num mod den) in *.
  assert (Hnq : num - q * den = r) by lia.
  assert (Hnq1 : num - (q + 1) * den = r - den) by lia.
  destruct (Z.compare_spec (2 * r) den) as [Heq | Hlt | Hgt]; cbv zeta.
  - destruct (Z.even q) eqn:Eq.
    + rewrite Hnq. repeat split; try lia. intros _. exact Eq.
    + rewrite Hnq1. repeat split; try lia. intros _.
      rewrite Z.even_add. rewrite Eq. reflexivity.
  - rewrite Hnq. repeat split; lia.
  - rewrite Hnq1. repeat split; lia.
Qed.

(** [round(x, 2)] is [x] rounded to two decimals. *)
Lemma round_is_rounded_to_two_decimals (x : Float.t) :
  FineSpec.rounded_to_two_decimals x (Float.round x 2).
Proof.
  destruct x as [s|s| |s m e]; try reflexivity.
  unfold FineSpec.rounded_to_two_decimals, Float.round.
  change (Z.to_pos (10 ^ Z.of_nat 2)) with 100%positive.
  destruct (Z.leb_spec 0 e) as [He|He].
  - exists (Zpos m * 2 ^ e * 100).
    assert (Hp : 0 < Zpos m * 2 ^ e * 100)
      by (pose proof (Z.pow_pos_nonneg 2 e ltac:(lia) He); nia).
    split.
    + unfold FineSpec.nearest_hundredth.
      destruct (Z.leb_spec 0 e); [lia | lia].
    + unfold FineSpec.of_hundredths.
      destruct (Zpos m * 2 ^ e * 100) as [|p|p] eqn:E; try lia.
      simpl. destruct s; reflexivity.
  - assert (Hd : 0 < 2 ^ (- e)) by (apply Z.pow_pos_nonneg; lia).
    destruct (round_half_even_nearest (Zpos m * 100) (2 ^ (- e)) ltac:(lia) Hd)
      as (Hn0 & Hnear & Htie).
    exists (Float.round_half_even (Zpos m * 100) (2 ^ (- e))).
    set (n := Float.round_half_even (Zpos m * 100) (2 ^ (- e))) in *.
    split.
    + unfold FineSpec.nearest_hundredth.
      destruct (Z.leb_spec 0 e); [lia|].
      replace (100 * Zpos m) with (Zpos m * 100) by lia.
      split; assumption.
    + unfold FineSpec.of_hundredths.
      destruct n as [|p|p]; try lia; simpl; destruct s; reflexivity.
Qed.

(** There is one nearest hundredth, so one rounded value. *)
Lemma nearest_hundredth_unique (x : Float.t) (n n' : Z) :
  FineSpec.nearest_hundredth x n -> FineSpec.nearest_hundredth x n' -> n = n'.
Proof.
  destruct x as [s|s| |s m e]; simpl; try tauto.
  destruct (Z.leb_spec 0 e) as [He|He]; [lia|].
  assert (Hd : 0 < 2 ^ (- e)) by (apply Z.pow_pos_nonneg; lia).
  set (D := 2 ^ (- e)) in *. set (A := 100 * Zpos m) in *.
  intros [H1 T1] [H2 T2].
  assert (Hclose : n' = n \/ n' = n + 1 \/ n' = n - 1) by nia.
  destruct Hclose as [-> | [-> | ->]]; [reflexivity | |]; exfalso.
  - assert (E1 : 2 * Z.abs (A - n * D) = D) by nia.
    assert (E2 : 2 * Z.abs (A - (n + 1) * D) = D) by nia.
    specialize (T1 E1). specialize (T2 E2).
    rewrite Z.even_add in T2. rewrite T1 in T2. discriminate.
  - assert (E1 : 2 * Z.abs (A - n * D) = D) by nia.
    assert (E2 : 2 * Z.abs (A - (n - 1) * D) = D) by nia.
    specialize (T1 E1). specialize (T2 E2).
    rewrite Z.even_sub in T2. rewrite T1 in T2. discriminate.
Qed.

Lemma rounded_to_two_decimals_unique (x r r' : Float.t) :
  FineSpec.rounded_to_two_decimals x r ->
  FineSpec.rounded_to_two_decimals x r' -> r = r'.
Proof.
  destruct x as [s|s| |s m e];
    unfold FineSpec.rounded_to_two_decimals; try congruence.
  intros (n & Hn & ->) (n' & Hn' & ->).
  rewrite (nearest_hundredth_unique (S754_finite s m e) n n' Hn Hn').
  reflexivity.
Qed.

(** C7. The fine is 0.0 when the return date is on or before the due
    date.  Otherwise, for dates of the calendar, it is the number of days
    late, taken as a float (the conversion is exact and does not raise),
    times the daily rate, rounded to two decimals by Python's round: the
    fine is the float read from the decimal with two places that is
    nearest to the product, ties to even, and no other float is.
    [Loan.calculate_fine] is this function at the loan's due date.  For
    due 2025-01-01, return 2025-01-20 and rate 0.25 the fine is the float
    4.75, whose value is exactly 19/4; for three days at rate 0.1 the
    product is not the float 0.3 and the fine is; for seven days at rate
    0.333 the product is not the float 2.33 and the fine is. *)
Theorem overdue_fine_formula
    (due_date return_date : Date.t) (daily_rate : Float.t) :
  (return_date <= due_date ->
     project_1_functions.compute_overdue_fine due_date return_date daily_rate
     = Ok Float.zero)
  /\ (due_date < return_date ->
      Date.valid due_date -> Date.valid return_date ->
      exists days_late,
        Float.of_int (Date.days_between return_date due_date) = Ok days_late
        /\ Float.represents_int days_late (return_date - due_date)
        /\ project_1_functions.compute_overdue_fine due_date return_date daily_rate
           = Ok (Float.round (Float.mul days_late daily_rate) 2)
        /\ FineSpec.rounded_to_two_decimals (Float.mul days_late daily_rate)
             (Float.round (Float.mul days_late daily_rate) 2)
        /\ (forall r,
              FineSpec.rounded_to_two_decimals (Float.mul days_late daily_rate) r ->
              project_1_functions.compute_overdue_fine due_date return_date
                daily_rate = Ok r))
  /\ (forall l : Loan.t,
        Loan.due l = due_date ->
        Loan.calculate_fine l return_date daily_rate
        = project_1_functions.compute_overdue_fine due_date return_date daily_rate)
  /\ project_1_functions.compute_overdue_fine
       (Date.ymd2ord 2025 1 1) (Date.ymd2ord 2025 1 20) (Float.lit 25 100)
     = Ok (Float.lit 475 100)
  /\ Float.lit 475 100 = S754_finite false (19 * 2 ^ 48) (-50)
  /\ project_1_functions.compute_overdue_fine
       (Date.ymd2ord 2025 1 1) (Date.ymd2ord 2025 1 4) (Float.lit 1 10)
     = Ok (Float.lit 3 10)
  /\ Float.of_int 3 = Ok (Float.lit 3 1)
  /\ Float.mul (Float.lit 3 1) (Float.lit 1 10) <> Float.lit 3 10
  /\ project_1_functions.compute_overdue_fine
       (Date.ymd2ord 2025 1 1) (Date.ymd2ord 2025 1 8) (Float.lit 333 1000)
     = Ok (Float.lit 233 100)
  /\ Float.of_int 7 = Ok (Float.lit 7 1)
  /\ Float.mul (Float.lit 7 1) (Float.lit 333 1000) <> Float.lit 233 100.
Proof.
  unfold project_1_functions.compute_overdue_fine, Date.le.
  split; [|split; [|split]].
  - intros H. destruct (Z.leb_spec return_date due_date); [reflexivity | lia].
  - intros Hlt [Hd1 Hd2] [Hr1 Hr2].
    destruct (Z.leb_spec return_date due_date); [lia|].
    destruct (of_int_small (Date.days_between return_date due_date))
      as (x & Hconv & Hval).
    { unfold Date.days_between, Date.MINORDINAL, Date.MAXORDINAL in *. lia. }
    exists x. rewrite Hconv.
    pose proof (round_is_rounded_to_two_decimals (Float.mul x daily_rate))
      as Hround.
    split; [reflexivity|]. split; [exact Hval|]. split; [reflexivity|].
    split; [exact Hround|].
    intros r Hr. f_equal.
    apply (rounded_to_two_decimals_unique _ _ _ Hround Hr).
  - intros l <-. reflexivity.
  - repeat split; try (vm_compute; reflexivity); vm_compute; discriminate.
Qed.

Lemma overdue_fine_formula_witness :
  project_1_functions.compute_overdue_fine (Examples.jan 15) (Examples.jan 15)
    Loan.default_daily_rate = Ok Float.zero
  /\ (exists days_late,
        Float.of_int (Date.days_between (Examples.jan 20) (Examples.jan 15))
          = Ok days_late
        /\ Float.represents_int days_late (Examples.jan 20 - Examples.jan 15)
        /\ project_1_functions.compute_overdue_fine (Examples.jan 15)
             (Examples.jan 20) Loan.default_daily_rate
           = Ok (Float.round (Float.mul days_late Loan.default_daily_rate) 2)
        /\ FineSpec.rounded_to_two_decimals
             (Float.mul days_late Loan.default_daily_rate)
             (Float.round (Float.mul days_late Loan.default_daily_rate) 2)
        /\ (forall r,
              FineSpec.rounded_to_two_decimals
                (Float.mul days_late Loan.default_daily_rate) r ->
              project_1_functions.compute_overdue_fine (Examples.jan 15)
                (Examples.jan 20) Loan.default_daily_rate = Ok r))
  /\ Loan.calculate_fine MoreExamples.closed_loan (Examples.jan 20)
       Loan.default_daily_rate
     = project_1_functions.compute_overdue_fine (Examples.jan 15)
         (Examples.jan 20) Loan.default_daily_rate.
Proof.
  assert (Hv15 : Date.valid (Examples.jan 15)) by (vm_compute; split; discriminate).
  assert (Hv20 : Date.valid (Examples.jan 20)) by (vm_compute; split; discriminate).
  split; [|split].
  - destruct (overdue_fine_formula (Examples.jan 15) (Examples.jan 15)
                Loan.default_daily_rate) as [H _].
    apply H. vm_compute. discriminate.
  - destruct (overdue_fine_formula (Examples.jan 15) (Examples.jan 20)
                Loan.default_daily_rate) as [_ [H _]].
    apply H; [vm_compute; reflexivity | exact Hv15 | exact Hv20].
  - destruct (overdue_fine_formula (Examples.jan 15) (Examples.jan 20)
                Loan.default_daily_rate) as [_ [_ [H _]]].
    apply H. reflexivity.
Defined.

(** ** Renewal and holds *)

(** The test [renew] makes on a hold, against [Hold.is_active]: the two
    agree on every hold that is not fulfilled. *)
Lemma blocks_renewal_unfulfilled
    (user : User.t) (item : LibraryItem.t) (today : Date.t) (h : Hold.t) :
  Hold.fulfilled h = false ->
  Loan.blocks_renewal user item today h
  = String.eqb (Hold.item_id h) (LibraryItem.item_id item)
    && negb (String.eqb (Hold.user_id h) (User.user_id user))
    && Hold.is_active h today.
Proof.
  intros Hf. unfold Loan.blocks_renewal, Hold.is_active. rewrite Hf. simpl.
  destruct (String.eqb (Hold.item_id h) (LibraryItem.item_id item));
    destruct (String.eqb (Hold.user_id h) (User.user_id user));
    destruct (Date.le today (Hold.expires_on h));
    destruct (Hold.cancelled h); reflexivity.
Qed.

(** Hold priority: an active hold of another user on the same item
    denies the renewal, whatever the renewal count and the due date. *)
Lemma active_hold_denies_renewal
    (user : User.t) (item : LibraryItem.t) (today : Date.t)
    (holds : list Hold.t) (max_renewals : Z) (allow_overdue : bool)
    (l : Loan.t) (h : Hold.t) :
  In h holds ->
  Hold.item_id h = LibraryItem.item_id item ->
  Hold.user_id h <> User.user_id user ->
  Hold.is_active h today = true ->
  Loan.renew user item today (Some holds) max_renewals allow_overdue l
  = (Ok None, l).
Proof.
  intros Hin Hitem Huser Hact. unfold Loan.renew.
  assert (Hex : existsb (Loan.blocks_renewal user item today) holds = true).
  { apply existsb_exists. exists h. split; [exact Hin|].
    unfold Hold.is_active in Hact.
    apply andb_prop in Hact as [Hfc Hexp]. apply andb_prop in Hfc as [_ Hc].
    unfold Loan.blocks_renewal.
    rewrite Hitem, String.eqb_refl, Hexp, Hc.
    apply String.eqb_neq in Huser. rewrite Huser. reflexivity. }
  simpl. rewrite Hex.
  repeat match goal with
         | |- (if ?b then _ else _) = _ => destruct b; [reflexivity|]
         end.
  reflexivity.
Qed.

(** With the four other conditions met, [renew] is decided by the holds
    passed to it: denied when one of them is on the same item, of another
    user, not cancelled and not past its expiry; the fulfilled flag is not
    looked at. *)
Lemma renew_decided_by_holds
    (user : User.t) (item : LibraryItem.t) (today : Date.t)
    (holds : option (list Hold.t)) (max_renewals : Z) (allow_overdue : bool)
    (l : Loan.t) :
  Loan.is_active l = true ->
  Loan.user_id l = User.user_id user ->
  Loan.renewals l < max_renewals ->
  (allow_overdue = true \/ today <= Loan.due l) ->
  Loan.renew user item today holds max_renewals allow_overdue l
  = if existsb (Loan.blocks_renewal user item today) (default [] holds)
    then (Ok None, l)
    else match project_1_functions.calculate_due_date today (User.role user) with
         | Raise e => (Raise e, l)
         | Ok d => (Ok (Some d),
                    Loan.mk (Loan.loan_id l) (Loan.user_id l) (Loan.item_id l) d
                      (Loan.returned_on l) (Loan.renewals l + 1))
         end.
Proof.
  intros Hact Hu Hr Hov. unfold Loan.renew.
  rewrite Hact, Hu, String.eqb_refl. simpl.
  destruct (Z.leb_spec max_renewals (Loan.renewals l)); [lia|].
  assert (Hod : negb allow_overdue && Date.lt (Loan.due l) today = false).
  { destruct Hov as [-> | Hle]; [reflexivity|].
    unfold Date.lt. destruct (Z.ltb_spec (Loan.due l) today); [lia|].
    apply andb_false_r. }
  rewrite Hod. reflexivity.
Qed.

(** C2 at its failing input.  Jane's loan of the book is active, hers,
    never renewed and not overdue on 2025-01-10.  The only hold passed is
    Bob's, which was fulfilled: it is not active on that day, so no other
    user holds an active hold.  [renew] is denied all the same, while
    without the hold it succeeds with the due date 2025-01-24. *)
Theorem renew_denied_by_fulfilled_hold :
  Hold.init "H2" "U2" "B1" (Examples.jan 1) (Examples.jan 20) false
    = Ok MoreExamples.bob_hold
  /\ Hold.fulfill MoreExamples.bob_hold = (Ok tt, MoreExamples.bob_hold_fulfilled)
  /\ Loan.is_active MoreExamples.book_loan = true
  /\ Loan.user_id MoreExamples.book_loan = User.user_id Examples.jane
  /\ Loan.renewals MoreExamples.book_loan < Loan.default_max_renewals
  /\ Loan.is_overdue MoreExamples.book_loan (Examples.jan 10) = false
  /\ Hold.is_active MoreExamples.bob_hold_fulfilled (Examples.jan 10) = false
  /\ ~ Spec.hold_active MoreExamples.bob_hold_fulfilled (Examples.jan 10)
  /\ Loan.renew Examples.jane Examples.book (Examples.jan 10)
       (Some [MoreExamples.bob_hold_fulfilled]) Loan.default_max_renewals false
       MoreExamples.book_loan
     = (Ok None, MoreExamples.book_loan)
  /\ Loan.renew Examples.jane Examples.book (Examples.jan 10)
       (Some []) Loan.default_max_renewals false MoreExamples.book_loan
     = (Ok (Some (Examples.jan 24)),
        Loan.mk "L1" "U1" "B1" (Examples.jan 24) None 1)
  /\ ~ Spec.renewal_rule.
Proof.
  assert (Hno : ~ Spec.other_active_hold Examples.jane Examples.book
                    (Examples.jan 10) [MoreExamples.bob_hold_fulfilled]).
  { intros (h & [<- | []] & _ & _ & Hf & _). discriminate Hf. }
  repeat split; try closed_eval.
  - intros [Hf _]. discriminate Hf.
  - intros Hrule.
    specialize (Hrule Examples.jane Examples.book (Examples.jan 10)
                  [MoreExamples.bob_hold_fulfilled] Loan.default_max_renewals
                  false MoreExamples.book_loan).
    destruct Hrule as [_ Hback];
      [reflexivity | reflexivity | reflexivity | left; reflexivity |].
    destruct (Hback Hno) as (d & l' & Hrenew).
    vm_compute in Hrenew. discriminate Hrenew.
Qed.

(** ** Circulation coordinator *)

(** C3 at its failing input.  The loan catalog holds Jane's loan of the
    book under the id L1.  A second checkout under the same id, by Bob for
    the DVD, raises nothing: it returns Bob's loan and stores it under L1
    in place of Jane's, whose id stays in her active set; the sibling
    inserts of a user and of an item under a taken id do raise. *)
Theorem checkout_overwrites_duplicate_loan_id :
  LibrarySystem.loans MoreExamples.library_L1 !! "L1"
    = Some MoreExamples.book_loan
  /\ LibrarySystem.checkout_item "L1" "U2" "DV" (Examples.mar 1)
       MoreExamples.library_L1
     = (Ok (Loan.mk "L1" "U2" "DV" (Examples.mar 8) None 0),
        snd (LibrarySystem.checkout_item "L1" "U2" "DV" (Examples.mar 1)
               MoreExamples.library_L1))
  /\ LibrarySystem.loans
       (snd (LibrarySystem.checkout_item "L1" "U2" "DV" (Examples.mar 1)
               MoreExamples.library_L1)) !! "L1"
     = Some (Loan.mk "L1" "U2" "DV" (Examples.mar 8) None 0)
  /\ (User.active_loan_ids <$>
        LibrarySystem.users
          (snd (LibrarySystem.checkout_item "L1" "U2" "DV" (Examples.mar 1)
                  MoreExamples.library_L1)) !! "U1") = Some ["L1"]
  /\ (exists msg,
        LibrarySystem.add_user Examples.jane MoreExamples.library_L1
        = (Raise (ValueError msg), MoreExamples.library_L1))
  /\ (exists msg,
        LibrarySystem.add_item Examples.book MoreExamples.library_L1
        = (Raise (ValueError msg), MoreExamples.library_L1))
  /\ ~ Spec.duplicate_loan_rule.
Proof.
  repeat split; try closed_eval.
  intros Hrule.
  destruct (Hrule MoreExamples.library_L1 "L1" "U2" "DV" (Examples.mar 1))
    as [[msg Hraise] _].
  - eexists. vm_compute. reflexivity.
  - vm_compute in Hraise. discriminate Hraise.
Qed.

(** C1 at its failing inputs.  (1) Jane checks out the EBook through the
    system and returns it: [return_copy] raises, since an EBook checkout
    takes no copy, and the loan is left closed (its return date set) with
    its id still in Jane's active set.  The same happens when
    [Loan.return_item] is called on the loan and the item directly.
    (2) A checkout with a blank loan id raises the ValueError of the
    [Loan] constructor after the copy was taken: the book is left with one
    copy less and no loan is stored. *)
Theorem failed_operations_leave_partial_mutation :
  LibrarySystem.checkout_item "L3" "U1" "EB" (Examples.jan 1) Examples.library
    = (Ok MoreExamples.ebook_loan, MoreExamples.library_L3)
  /\ (exists msg,
        fst (LibrarySystem.return_item "L3" (Examples.jan 5)
               Loan.default_daily_rate MoreExamples.library_L3)
        = Raise (RuntimeError msg))
  /\ (Loan.returned_on <$>
        LibrarySystem.loans
          (snd (LibrarySystem.return_item "L3" (Examples.jan 5)
                  Loan.default_daily_rate MoreExamples.library_L3)) !! "L3")
     = Some (Some (Examples.jan 5))
  /\ (User.active_loan_ids <$>
        LibrarySystem.users
          (snd (LibrarySystem.return_item "L3" (Examples.jan 5)
                  Loan.default_daily_rate MoreExamples.library_L3)) !! "U1")
     = Some ["L3"]
  /\ Loan.return_item (Examples.jan 5) Loan.default_daily_rate
       (MoreExamples.ebook_loan, Examples.ebook)
     = (Raise (RuntimeError "All copies of EB are already returned"),
        (Loan.set_returned_on (Examples.jan 5) MoreExamples.ebook_loan,
         Examples.ebook))
  /\ fst (LibrarySystem.checkout_item "" "U1" "B1" (Examples.jan 1)
            Examples.library)
     = Raise (ValueError "Loan ID cannot be empty")
  /\ (LibraryItem.available_copies <$>
        LibrarySystem.get_item "B1" Examples.library) = Some 2
  /\ (LibraryItem.available_copies <$>
        LibrarySystem.get_item "B1"
          (snd (LibrarySystem.checkout_item "" "U1" "B1" (Examples.jan 1)
                  Examples.library))) = Some 1
  /\ LibrarySystem.loans
       (snd (LibrarySystem.checkout_item "" "U1" "B1" (Examples.jan 1)
               Examples.library)) = ∅
  /\ ~ Spec.return_is_atomic
  /\ ~ Spec.checkout_is_atomic.
Proof.
  repeat split; try closed_eval.
  - intros Hrule.
    destruct (Hrule MoreExamples.ebook_loan
                (Loan.set_returned_on (Examples.jan 5) MoreExamples.ebook_loan)
                Examples.ebook Examples.ebook (Examples.jan 5)
                Loan.default_daily_rate
                (RuntimeError "All copies of EB are already returned"))
      as [Hret _]; [reflexivity | vm_compute; reflexivity |].
    discriminate Hret.
  - intros Hrule.
    specialize (Hrule Examples.library
                  (snd (LibrarySystem.checkout_item "" "U1" "B1"
                          (Examples.jan 1) Examples.library))
                  "" "U1" "B1" (Examples.jan 1)
                  (ValueError "Loan ID cannot be empty")).
    assert (Hrun : LibrarySystem.checkout_item "" "U1" "B1" (Examples.jan 1)
                     Examples.library
                   = (Raise (ValueError "Loan ID cannot be empty"),
                      snd (LibrarySystem.checkout_item "" "U1" "B1"
                             (Examples.jan 1) Examples.library)))
      by (vm_compute; reflexivity).
    specialize (Hrule Hrun). vm_compute in Hrule. discriminate Hrule.
Qed.

(** What does hold of failed calls.  [Loan.return_item] on a closed loan
    touches nothing. *)
Lemma return_item_closed_untouched
    (l : Loan.t) (item : LibraryItem.t) (return_date : Date.t)
    (daily_rate : Float.t) :
  Loan.is_active l = false ->
  exists msg,
    Loan.return_item return_date daily_rate (l, item)
    = (Raise (RuntimeError msg), (l, item)).
Proof.
  intros H. unfold Loan.return_item. rewrite H. simpl. eexists. reflexivity.
Qed.

(** When [return_copy] raises inside [Loan.return_item], the item is
    untouched and the loan has its return date set. *)
Lemma return_item_over_return
    (l : Loan.t) (item : LibraryItem.t) (return_date : Date.t)
    (daily_rate : Float.t) :
  Loan.is_active l = true ->
  LibraryItem.total_copies item <= LibraryItem.available_copies item ->
  exists msg,
    Loan.return_item return_date daily_rate (l, item)
    = (Raise (RuntimeError msg),
       (Loan.set_returned_on return_date l, item)).
Proof.
  intros Hact Hfull. unfold Loan.return_item, LibraryItem.return_copy.
  rewrite Hact. simpl.
  destruct (Z.leb_spec (LibraryItem.total_copies item)
              (LibraryItem.available_copies item)); [|lia].
  eexists. reflexivity.
Qed.

Lemma loan_init_raises_ValueError
    (loan_id user_id item_id : string) (due : Date.t)
    (returned_on : option Date.t) (renewals : Z) (e : exn) :
  Loan.init loan_id user_id item_id due returned_on renewals = Raise e ->
  exists msg, e = ValueError msg.
Proof.
  unfold Loan.init. intros H.
  repeat match type of H with
         | (if ?b then _ else _) = _ =>
             destruct b; [injection H as <-; eexists; reflexivity|]
         end.
  discriminate.
Qed.

(** A checkout that raises anything but the ValueError of the [Loan]
    constructor leaves the whole system as it was. *)
Lemma checkout_item_failure_cases
    (loan_id user_id item_id : string) (checkout_date : Date.t)
    (s s' : LibrarySystem.t) (e : exn) :
  LibrarySystem.checkout_item loan_id user_id item_id checkout_date s
    = (Raise e, s') ->
  s' = s \/ exists msg, e = ValueError msg.
Proof.
  unfold LibrarySystem.checkout_item, Py.bind, Py.get, Py.raise, Py.lift, Py.ret.
  destruct (LibrarySystem.users s !! user_id) as [user|];
    [|intros H; injection H as _ <-; left; reflexivity].
  destruct (Catalog.get_item item_id (LibrarySystem.catalog s)) as [item|];
    [|intros H; injection H as _ <-; left; reflexivity].
  destruct (LibraryItem.is_available item) eqn:Eav; simpl;
    [|intros H; injection H as _ <-; left; reflexivity].
  destruct (LibraryItem.calculate_due_date item checkout_date (User.role user))
    as [due|e0]; [|intros H; injection H as _ <-; left; reflexivity].
  unfold LibrarySystem.on_item.
  destruct (LibraryItem.checkout_copy item) as [[[]|e1] item'] eqn:Eco.
  - destruct (Loan.init loan_id (User.user_id user) (LibraryItem.item_id item)
                due None 0) as [loan|e2] eqn:Einit.
    + unfold LibrarySystem.store_loan, LibrarySystem.on_user.
      destruct (User.add_loan loan_id user) as [[[]|e3] user'] eqn:Eadd;
        [discriminate|].
      unfold User.add_loan in Eadd.
      destruct (negb (User.mem loan_id (User.active_loan_ids user)));
        discriminate.
    + intros H. injection H as <- _. right.
      eapply loan_init_raises_ValueError. exact Einit.
  - exfalso. unfold LibraryItem.checkout_copy, LibraryItem.is_available in *.
    apply Z.ltb_lt in Eav.
    destruct (LibraryItem.cls item);
      try (destruct (Z.leb_spec (LibraryItem.available_copies item) 0);
           [lia | discriminate]);
      discriminate.
Qed.

(** The coordinator changes an item only through [checkout_copy] and
    [return_copy]: the copy-count invariant holds of the whole catalog
    after every checkout and every return, raising or not.  The rules
    below follow the structure of a method. *)

Section Preservation.

Context {A B : Type}.

Lemma preserves_ret (a : A) : ItemOps.preserves (Py.ret a).
Proof. intros s Hs. exact Hs. Qed.

Lemma preserves_raise (e : exn) : ItemOps.preserves (@Py.raise _ A e).
Proof. intros s Hs. exact Hs. Qed.

Lemma preserves_lift (r : result A) : ItemOps.preserves (Py.lift r).
Proof. intros s Hs. exact Hs. Qed.

Lemma preserves_bind (c : M LibrarySystem.t A) (k : A -> M LibrarySystem.t B) :
  ItemOps.preserves c -> (forall a, ItemOps.preserves (k a)) ->
  ItemOps.preserves (Py.bind c k).
Proof.
  intros Hc Hk s Hs. unfold Py.bind. specialize (Hc s Hs).
  destruct (c s) as [[a|e] s1]; simpl in *; [apply Hk|]; exact Hc.
Qed.

(** The state read by [get] satisfies the invariant. *)
Lemma preserves_get_bind (k : LibrarySystem.t -> M LibrarySystem.t B) :
  (forall s0, ItemOps.catalog_inv s0 -> ItemOps.preserves (k s0)) ->
  ItemOps.preserves (Py.bind Py.get k).
Proof. intros Hk s Hs. unfold Py.bind, Py.get. apply Hk; exact Hs. Qed.

Lemma preserves_on_user (user_id : string) (user : User.t) (c : M User.t A) :
  ItemOps.preserves (LibrarySystem.on_user user_id user c).
Proof.
  intros s Hs. unfold LibrarySystem.on_user.
  destruct (c user) as [r user']. exact Hs.
Qed.

Lemma update_item_inv (s : LibrarySystem.t) (id : string) (it : LibraryItem.t)
    (us : gmap string User.t) (ls : gmap string Loan.t)
    (hs : gmap string Hold.t) :
  ItemOps.catalog_inv s -> ItemOps.inv it ->
  ItemOps.catalog_inv
    (LibrarySystem.mk (Catalog.update_item id it (LibrarySystem.catalog s))
       us ls hs).
Proof.
  intros Hs Hit id0 it0. unfold Catalog.update_item. simpl.
  destruct (decide (id = id0)) as [->|Hne].
  - rewrite lookup_insert_eq. intros [= <-]. exact Hit.
  - rewrite lookup_insert_ne by exact Hne. apply Hs.
Qed.

Lemma preserves_on_item (item_id : string) (item : LibraryItem.t)
    (c : M LibraryItem.t A) :
  ItemOps.inv (snd (c item)) ->
  ItemOps.preserves (LibrarySystem.on_item item_id item c).
Proof.
  intros Hit s Hs. unfold LibrarySystem.on_item.
  destruct (c item) as [r item']. apply update_item_inv; assumption.
Qed.

Lemma preserves_on_loan_and_item (loan_id : string) (loan : Loan.t)
    (item_id : string) (item : LibraryItem.t)
    (c : M (Loan.t * LibraryItem.t) A) :
  ItemOps.inv (snd (snd (c (loan, item)))) ->
  ItemOps.preserves
    (LibrarySystem.on_loan_and_item loan_id loan item_id item c).
Proof.
  intros Hit s Hs. unfold LibrarySystem.on_loan_and_item.
  destruct (c (loan, item)) as [r [loan' item']].
  apply update_item_inv; assumption.
Qed.

End Preservation.

Lemma loan_return_item_inv (l : Loan.t) (item : LibraryItem.t)
    (return_date : Date.t) (daily_rate : Float.t) :
  ItemOps.inv item ->
  ItemOps.inv (snd (snd (Loan.return_item return_date daily_rate (l, item)))).
Proof.
  intros Hit. unfold Loan.return_item.
  destruct (negb (Loan.is_active l)); [exact Hit|].
  pose proof (run_inv ItemOps.ReturnCopy item Hit) as Hr. simpl in Hr.
  destruct (LibraryItem.return_copy item) as [[[]|e] item']; exact Hr.
Qed.

Lemma checkout_item_keeps_invariant
    (loan_id user_id item_id : string) (checkout_date : Date.t) :
  ItemOps.preserves
    (LibrarySystem.checkout_item loan_id user_id item_id checkout_date).
Proof.
  unfold LibrarySystem.checkout_item.
  apply preserves_get_bind. intros s0 Hs0.
  destruct (LibrarySystem.users s0 !! user_id) as [user|];
    [|apply preserves_raise].
  destruct (Catalog.get_item item_id (LibrarySystem.catalog s0))
    as [item|] eqn:Eit; [|apply preserves_raise].
  destruct (negb (LibraryItem.is_available item)); [apply preserves_raise|].
  apply preserves_bind; [apply preserves_lift | intros due].
  apply preserves_bind.
  { apply preserves_on_item.
    apply (run_inv ItemOps.CheckoutCopy), (Hs0 item_id), Eit. }
  intros _. apply preserves_bind; [apply preserves_lift | intros loan].
  apply preserves_bind; [intros s Hs; exact Hs | intros _].
  apply preserves_bind; [apply preserves_on_user | intros _].
  apply preserves_ret.
Qed.

Lemma return_item_keeps_invariant
    (loan_id : string) (return_date : Date.t) (daily_rate : Float.t) :
  ItemOps.preserves (LibrarySystem.return_item loan_id return_date daily_rate).
Proof.
  unfold LibrarySystem.return_item.
  apply preserves_get_bind. intros s0 Hs0.
  destruct (LibrarySystem.loans s0 !! loan_id) as [loan|];
    [|apply preserves_raise].
  destruct (Catalog.get_item (Loan.item_id loan) (LibrarySystem.catalog s0))
    as [item|] eqn:Eit; [|apply preserves_raise].
  apply preserves_bind.
  { apply preserves_on_loan_and_item, loan_return_item_inv, (Hs0 _ _ Eit). }
  intros fine.
  destruct (LibrarySystem.users s0 !! Loan.user_id loan) as [user|];
    [|apply preserves_raise].
  apply preserves_bind; [apply preserves_on_user | intros _].
  apply preserves_ret.
Qed.

(** The end-to-end scenarios of the specification.  A Student checks out
    a Book on 2025-01-01 (due 2025-01-15) and returns it on 2025-01-20: the
    fine is 1.25, the copy is back and the loan is closed.  A Faculty
    member checks out a DVD on 2025-03-01 (due 2025-03-08) and returns it
    on the due date: no fine. *)
Lemma end_to_end_scenarios :
  LibrarySystem.checkout_item "L1" "U1" "B1" (Examples.jan 1) Examples.library
    = (Ok MoreExamples.book_loan, MoreExamples.library_L1)
  /\ fst (LibrarySystem.return_item "L1" (Examples.jan 20)
            Loan.default_daily_rate MoreExamples.library_L1)
     = Ok (Float.lit 125 100)
  /\ (LibraryItem.available_copies <$>
        LibrarySystem.get_item "B1" MoreExamples.library_L1) = Some 1
  /\ (LibraryItem.available_copies <$>
        LibrarySystem.get_item "B1"
          (snd (LibrarySystem.return_item "L1" (Examples.jan 20)
                  Loan.default_daily_rate MoreExamples.library_L1))) = Some 2
  /\ (Loan.is_active <$>
        LibrarySystem.loans
          (snd (LibrarySystem.return_item "L1" (Examples.jan 20)
                  Loan.default_daily_rate MoreExamples.library_L1)) !! "L1")
     = Some false
  /\ (Loan.due <$>
        LibrarySystem.loans
          (snd (LibrarySystem.checkout_item "L2" "U2" "DV" (Examples.mar 1)
                  Examples.library)) !! "L2") = Some (Examples.mar 8)
  /\ fst (LibrarySystem.return_item "L2" (Examples.mar 8)
            Loan.default_daily_rate
            (snd (LibrarySystem.checkout_item "L2" "U2" "DV" (Examples.mar 1)
                    Examples.library)))
     = Ok Float.zero.
Proof. repeat split; closed_eval. Qed.

(** * Further properties of the code *)

(** ** Hold.py *)

Lemma hold_run_frozen (o : HoldOps.op) (h : Hold.t) :
  Hold.fulfilled h = true \/ Hold.cancelled h = true ->
  snd (HoldOps.run o h) = h.
Proof.
  intros Hterm. destruct h as [hid uid iid p e n f c]. simpl in Hterm.
  destruct o as [| | |days today]; simpl;
    unfold Hold.notify, Hold.fulfill, Hold.cancel, Py.bind, Hold.extend,
      Hold.is_active; simpl;
    destruct f, c; simpl; try reflexivity; destruct Hterm; discriminate.
Qed.

(** X1. The two terminal states of a hold are absorbing: once a hold is
    fulfilled or cancelled, no sequence of notify, fulfill, cancel and
    extend calls changes anything of it. *)
Theorem hold_terminal_states_absorbing (h : Hold.t) (ops : list HoldOps.op) :
  Hold.fulfilled h = true \/ Hold.cancelled h = true ->
  HoldOps.exec ops h = h.
Proof.
  intros Hterm. induction ops as [|o ops IH]; simpl.
  - reflexivity.
  - rewrite (hold_run_frozen o h Hterm). exact IH.
Qed.

Lemma hold_terminal_states_absorbing_witness :
  HoldOps.exec [HoldOps.Fulfill; HoldOps.Notify; HoldOps.Extend 3 (Examples.jan 2)]
    (snd (Hold.cancel Examples.hold))
  = snd (Hold.cancel Examples.hold).
Proof.
  apply (hold_terminal_states_absorbing (snd (Hold.cancel Examples.hold))).
  right. reflexivity.
Defined.

(** X2. A call made on a hold in a terminal state: after a successful
    cancel, notify, fulfill and extend raise RuntimeError; after a
    successful fulfill, notify, cancel and extend raise RuntimeError while
    a second fulfill is accepted. *)
Theorem hold_terminal_calls_rejected (h h' : Hold.t) :
  (Hold.cancel h = (Ok tt, h') ->
     Hold.cancelled h' = true /\ Hold.fulfilled h' = false
     /\ Exn.is_RuntimeError (fst (Hold.notify h')) = true
     /\ Exn.is_RuntimeError (fst (Hold.fulfill h')) = true
     /\ (forall n today,
           Exn.is_RuntimeError (fst (Hold.extend n today h')) = true))
  /\ (Hold.fulfill h = (Ok tt, h') ->
     Hold.fulfilled h' = true /\ Hold.cancelled h' = false
     /\ Exn.is_RuntimeError (fst (Hold.notify h')) = true
     /\ Exn.is_RuntimeError (fst (Hold.cancel h')) = true
     /\ (forall n today,
           Exn.is_RuntimeError (fst (Hold.extend n today h')) = true)
     /\ Hold.fulfill h' = (Ok tt, h')).
Proof.
  destruct h as [hid uid iid p e n f c].
  unfold Hold.cancel, Hold.fulfill. simpl. split.
  - destruct f; [discriminate|]. intros [= <-].
    unfold Hold.notify, Hold.fulfill, Hold.extend, Hold.is_active. simpl.
    repeat split; reflexivity.
  - destruct c; [discriminate|]. intros [= <-].
    unfold Hold.notify, Hold.cancel, Hold.extend, Hold.is_active. simpl.
    repeat split; reflexivity.
Qed.

Lemma hold_terminal_calls_rejected_witness :
  Exn.is_RuntimeError (fst (Hold.notify (snd (Hold.cancel Examples.hold)))) = true
  /\ Exn.is_RuntimeError (fst (Hold.fulfill (snd (Hold.cancel Examples.hold)))) = true
  /\ Exn.is_RuntimeError (fst (Hold.cancel MoreExamples.bob_hold_fulfilled)) = true
  /\ Hold.fulfill MoreExamples.bob_hold_fulfilled
     = (Ok tt, MoreExamples.bob_hold_fulfilled).
Proof.
  destruct (hold_terminal_calls_rejected Examples.hold
              (snd (Hold.cancel Examples.hold))) as [Hc _].
  destruct (Hc eq_refl) as (_ & _ & Hn & Hf & _).
  destruct (hold_terminal_calls_rejected MoreExamples.bob_hold
              MoreExamples.bob_hold_fulfilled) as [_ Hful].
  destruct (Hful eq_refl) as (_ & _ & _ & Hcan & _ & Hagain).
  repeat split; assumption.
Defined.

(** X3. For every hold and every date, [is_active] and [is_expired] are
    never both true; on a hold that is neither fulfilled nor cancelled
    exactly one of them is; a fulfilled hold is neither. *)
Theorem hold_active_expired_exclusive (h : Hold.t) (today : Date.t) :
  (Hold.is_active h today && Hold.is_expired h today = false)
  /\ (Hold.fulfilled h = false -> Hold.cancelled h = false ->
      Hold.is_expired h today = negb (Hold.is_active h today))
  /\ (Hold.fulfilled h = true ->
      Hold.is_active h today = false /\ Hold.is_expired h today = false).
Proof.
  unfold Hold.is_active, Hold.is_expired, Date.le, Date.lt.
  destruct (Hold.fulfilled h), (Hold.cancelled h); simpl;
    destruct (Z.leb_spec today (Hold.expires_on h));
    destruct (Z.ltb_spec (Hold.expires_on h) today);
    repeat split; intros; try reflexivity; try discriminate; lia.
Qed.

Lemma hold_active_expired_exclusive_witness :
  Hold.is_expired Examples.hold (Examples.jan 15)
    = negb (Hold.is_active Examples.hold (Examples.jan 15))
  /\ Hold.is_active MoreExamples.bob_hold_fulfilled (Examples.jan 5) = false.
Proof.
  destruct (hold_active_expired_exclusive Examples.hold (Examples.jan 15))
    as (_ & H & _).
  destruct (hold_active_expired_exclusive MoreExamples.bob_hold_fulfilled
              (Examples.jan 5)) as (_ & _ & H').
  split; [apply H; reflexivity | apply H'; reflexivity].
Defined.

Lemma hold_extend_success (h h' : Hold.t) (n : Z) (today d : Date.t) :
  Hold.extend n today h = (Ok d, h') ->
  d = Hold.expires_on h + n /\ 1 <= n
  /\ h' = Hold.mk (Hold.hold_id h) (Hold.user_id h) (Hold.item_id h)
            (Hold.placed_on h) d (Hold.notified h) (Hold.fulfilled h)
            (Hold.cancelled h)
  /\ Hold.is_active h today = true.
Proof.
  unfold Hold.extend. intros H.
  destruct (Hold.is_active h today); simpl in H; [|discriminate].
  destruct (Z.ltb_spec n 1); [discriminate|].
  unfold Date.add_days in H.
  repeat match type of H with
         | context [if ?b then _ else _] => destruct b
         end; try discriminate.
  injection H as <- <-. repeat split; lia.
Qed.

(** X4. [extend]: an inactive hold is refused with RuntimeError, also
    when the number of days is invalid; an active hold with fewer than one
    day is refused with ValueError; both leave the hold as it was.  When
    it succeeds, it returns the old expiry plus the days, stores it as the
    new expiry, which is strictly later, changes nothing else and leaves
    the hold active on that day.  It succeeds whenever the hold is active,
    the days are between 1 and 999999999 and the new expiry is a date. *)
Theorem hold_extend_effect (h : Hold.t) (n : Z) (today : Date.t) :
  (Hold.is_active h today = false ->
     Exn.is_RuntimeError (fst (Hold.extend n today h)) = true
     /\ snd (Hold.extend n today h) = h)
  /\ (Hold.is_active h today = true -> n < 1 ->
     Exn.is_ValueError (fst (Hold.extend n today h)) = true
     /\ snd (Hold.extend n today h) = h)
  /\ (forall d h', Hold.extend n today h = (Ok d, h') ->
        d = Hold.expires_on h + n
        /\ Hold.expires_on h < d
        /\ h' = Hold.mk (Hold.hold_id h) (Hold.user_id h) (Hold.item_id h)
                  (Hold.placed_on h) d (Hold.notified h) (Hold.fulfilled h)
                  (Hold.cancelled h)
        /\ Hold.is_active h' today = true)
  /\ (Hold.is_active h today = true -> 1 <= n <= 999999999 ->
      0 < Hold.expires_on h -> Hold.expires_on h + n <= Date.MAXORDINAL ->
      fst (Hold.extend n today h) = Ok (Hold.expires_on h + n)).
Proof.
  unfold Hold.extend. repeat split.
  - rewrite H. reflexivity.
  - rewrite H. reflexivity.
  - rewrite H. simpl. destruct (Z.ltb_spec n 1); [reflexivity | lia].
  - rewrite H. simpl. destruct (Z.ltb_spec n 1); [reflexivity | lia].
  - destruct (hold_extend_success _ _ _ _ _ H) as (-> & _). reflexivity.
  - destruct (hold_extend_success _ _ _ _ _ H) as (-> & Hn & _). lia.
  - destruct (hold_extend_success _ _ _ _ _ H) as (_ & _ & -> & _). reflexivity.
  - destruct (hold_extend_success _ _ _ _ _ H) as (-> & Hn & -> & Hact).
    unfold Hold.is_active, Date.le in *. simpl.
    apply andb_prop in Hact as [Hfc Hle]. rewrite Hfc. simpl.
    apply Z.leb_le in Hle. apply Z.leb_le. lia.
  - intros Hact Hn Hpos Hmax. rewrite Hact. simpl.
    destruct (Z.ltb_spec n 1); [lia|].
    unfold Date.add_days.
    destruct (Z.ltb_spec n (-999999999)); [lia|].
    destruct (Z.ltb_spec 999999999 n); [lia|]. simpl.
    destruct (Z.ltb_spec 0 (Hold.expires_on h + n)); [|lia].
    destruct (Z.leb_spec (Hold.expires_on h + n) Date.MAXORDINAL); [|lia].
    reflexivity.
Qed.

Lemma hold_extend_effect_witness :
  fst (Hold.extend 5 (Examples.jan 3) Examples.hold) = Ok (Examples.jan 10 + 5)
  /\ Exn.is_RuntimeError (fst (Hold.extend 0 (Examples.jan 11) Examples.hold)) = true
  /\ Exn.is_ValueError (fst (Hold.extend 0 (Examples.jan 3) Examples.hold)) = true.
Proof.
  destruct (hold_extend_effect Examples.hold 5 (Examples.jan 3))
    as (_ & _ & _ & Hok).
  destruct (hold_extend_effect Examples.hold 0 (Examples.jan 11))
    as (Hinactive & _).
  destruct (hold_extend_effect Examples.hold 0 (Examples.jan 3))
    as (_ & Hdays & _).
  split; [|split].
  - apply Hok; [reflexivity | lia | reflexivity | vm_compute; discriminate].
  - apply Hinactive. reflexivity.
  - apply Hdays; [reflexivity | lia].
Defined.

Lemma hold_run_fields (o : HoldOps.op) (h : Hold.t) :
  Hold.hold_id (snd (HoldOps.run o h)) = Hold.hold_id h
  /\ Hold.user_id (snd (HoldOps.run o h)) = Hold.user_id h
  /\ Hold.item_id (snd (HoldOps.run o h)) = Hold.item_id h
  /\ Hold.placed_on (snd (HoldOps.run o h)) = Hold.placed_on h
  /\ Hold.expires_on h <= Hold.expires_on (snd (HoldOps.run o h)).
Proof.
  destruct o as [| | |n today]; simpl.
  - unfold Hold.notify. destruct (Hold.fulfilled h || Hold.cancelled h);
      simpl; repeat split; lia.
  - unfold Hold.fulfill. destruct (Hold.cancelled h);
      simpl; repeat split; lia.
  - unfold Hold.cancel. destruct (Hold.fulfilled h);
      simpl; repeat split; lia.
  - unfold Py.bind.
    destruct (Hold.extend n today h) as [[d|e] h'] eqn:E; simpl.
    + destruct (hold_extend_success _ _ _ _ _ E) as (-> & Hn & -> & _). simpl.
      repeat split; lia.
    + unfold Hold.extend in E.
      repeat match type of E with
             | context [if ?b then _ else _] => destruct b
             end; try discriminate;
        try (injection E as _ <-; repeat split; lia).
      destruct (Date.add_days (Hold.expires_on h) n); [discriminate|].
      injection E as _ <-. repeat split; lia.
Qed.

Lemma hold_exec_fields (ops : list HoldOps.op) (h : Hold.t) :
  Hold.hold_id (HoldOps.exec ops h) = Hold.hold_id h
  /\ Hold.user_id (HoldOps.exec ops h) = Hold.user_id h
  /\ Hold.item_id (HoldOps.exec ops h) = Hold.item_id h
  /\ Hold.placed_on (HoldOps.exec ops h) = Hold.placed_on h
  /\ Hold.expires_on h <= Hold.expires_on (HoldOps.exec ops h).
Proof.
  revert h. induction ops as [|o ops IH]; intros h; simpl.
  - repeat split; lia.
  - destruct (IH (snd (HoldOps.run o h))) as (H1 & H2 & H3 & H4 & H5).
    destruct (hold_run_fields o h) as (G1 & G2 & G3 & G4 & G5).
    repeat split; try congruence. lia.
Qed.

(** X5. Over any sequence of calls a hold keeps its ids and its placement
    date, and its expiry date never moves backward; each successful
    extend in the sequence moves it strictly forward. *)
Theorem hold_expiry_only_moves_forward (ops : list HoldOps.op) (h : Hold.t) :
  Hold.hold_id (HoldOps.exec ops h) = Hold.hold_id h
  /\ Hold.user_id (HoldOps.exec ops h) = Hold.user_id h
  /\ Hold.item_id (HoldOps.exec ops h) = Hold.item_id h
  /\ Hold.placed_on (HoldOps.exec ops h) = Hold.placed_on h
  /\ Hold.expires_on h <= Hold.expires_on (HoldOps.exec ops h)
  /\ (forall n today d h',
        Hold.extend n today h = (Ok d, h') ->
        Hold.expires_on h < Hold.expires_on (HoldOps.exec ops h')).
Proof.
  destruct (hold_exec_fields ops h) as (H1 & H2 & H3 & H4 & H5).
  repeat split; try assumption.
  intros n today d h' E.
  destruct (hold_extend_success _ _ _ _ _ E) as (-> & Hn & Hh' & _).
  destruct (hold_exec_fields ops h') as (_ & _ & _ & _ & H6).
  rewrite Hh' in H6 at 1. simpl in H6. lia.
Qed.

Lemma hold_expiry_only_moves_forward_witness :
  Hold.expires_on Examples.hold
  < Hold.expires_on
      (HoldOps.exec [HoldOps.Notify; HoldOps.Extend 2 (Examples.jan 4)]
         (snd (Hold.extend 5 (Examples.jan 3) Examples.hold))).
Proof.
  destruct (hold_expiry_only_moves_forward
              [HoldOps.Notify; HoldOps.Extend 2 (Examples.jan 4)] Examples.hold)
    as (_ & _ & _ & _ & _ & H).
  eapply (H 5 (Examples.jan 3)). vm_compute. reflexivity.
Defined.

Lemma blank_false_strip_nonempty (s : string) :
  Str.blank s = false -> Str.strip s <> EmptyString.
Proof.
  unfold Str.blank. intros H Hs. rewrite Hs in H. simpl in H.
  rewrite orb_true_r in H. discriminate.
Qed.

(** X6. Every hold a program can hold (built by the constructor, then put
    through any calls) expires on or after the day it was placed, has the
    two terminal flags never both set, and has non-empty ids. *)
Theorem hold_reachable_invariant (h : Hold.t) :
  HoldOps.reachable h ->
  Hold.placed_on h <= Hold.expires_on h
  /\ ~ (Hold.fulfilled h = true /\ Hold.cancelled h = true)
  /\ Hold.hold_id h <> EmptyString
  /\ Hold.user_id h <> EmptyString
  /\ Hold.item_id h <> EmptyString.
Proof.
  intros Hr. pose proof (reachable_exclusive h Hr) as Hex.
  destruct Hr as (hid & uid & iid & p & e & nf & h0 & ops & Hinit & ->).
  destruct (hold_exec_fields ops h0) as (H1 & H2 & H3 & H4 & H5).
  rewrite H1, H2, H3, H4.
  unfold Hold.init in Hinit.
  destruct (Str.blank hid) eqn:Eh; [discriminate|].
  destruct (Str.blank uid) eqn:Eu; [discriminate|].
  destruct (Str.blank iid) eqn:Ei; [discriminate|].
  unfold Date.lt in Hinit. destruct (Z.ltb_spec e p); [discriminate|].
  injection Hinit as <-. simpl in *.
  repeat split; try (apply blank_false_strip_nonempty; assumption); try lia.
  intros [Hf Hc]. unfold HoldOps.flags_exclusive in Hex.
  rewrite Hf, Hc in Hex. discriminate.
Qed.

Lemma hold_reachable_invariant_witness :
  Hold.placed_on (snd (Hold.cancel Examples.hold))
    <= Hold.expires_on (snd (Hold.cancel Examples.hold))
  /\ Hold.hold_id (snd (Hold.cancel Examples.hold)) <> EmptyString.
Proof.
  destruct (hold_reachable_invariant (snd (Hold.cancel Examples.hold))
              example_hold_cancelled_reachable) as (H1 & _ & H3 & _).
  split; assumption.
Defined.

(** [days_until_expiry] is 0 on a fulfilled or cancelled hold; on an
    open hold it is the signed distance to the expiry date, negative
    exactly when the hold is expired and non-negative exactly when it is
    active. *)
Theorem hold_days_until_expiry_sign (h : Hold.t) (today : Date.t) :
  (Hold.fulfilled h = true \/ Hold.cancelled h = true ->
     Hold.days_until_expiry h today = 0)
  /\ (Hold.fulfilled h = false -> Hold.cancelled h = false ->
      Hold.days_until_expiry h today = Hold.expires_on h - today
      /\ (Hold.days_until_expiry h today < 0 <-> Hold.is_expired h today = true)
      /\ (0 <= Hold.days_until_expiry h today <-> Hold.is_active h today = true)).
Proof.
  unfold Hold.days_until_expiry, Hold.is_expired, Hold.is_active,
    Date.days_between, Date.lt, Date.le.
  split.
  - intros [-> | ->]; [reflexivity|]. rewrite orb_true_r. reflexivity.
  - intros -> ->. simpl. split; [reflexivity|]. split.
    + rewrite Z.ltb_lt. lia.
    + rewrite Z.leb_le. lia.
Qed.

Lemma hold_days_until_expiry_sign_witness :
  Hold.days_until_expiry Examples.hold (Examples.jan 15) = Examples.jan 10 - Examples.jan 15
  /\ Hold.days_until_expiry MoreExamples.bob_hold_fulfilled (Examples.jan 5) = 0.
Proof.
  destruct (hold_days_until_expiry_sign Examples.hold (Examples.jan 15))
    as (_ & H).
  destruct (hold_days_until_expiry_sign MoreExamples.bob_hold_fulfilled
              (Examples.jan 5)) as (H' & _).
  split; [apply H; reflexivity | apply H'; left; reflexivity].
Defined.

(** ** loan.py *)

Lemma renew_success
    (user : User.t) (item : LibraryItem.t) (today : Date.t)
    (holds : option (list Hold.t)) (max_renewals : Z) (allow_overdue : bool)
    (l l' : Loan.t) (d : Date.t) :
  Loan.renew user item today holds max_renewals allow_overdue l
    = (Ok (Some d), l') ->
  Loan.is_active l = true
  /\ Loan.user_id l = User.user_id user
  /\ Loan.renewals l < max_renewals
  /\ (allow_overdue = true \/ today <= Loan.due l)
  /\ existsb (Loan.blocks_renewal user item today) (default [] holds) = false
  /\ (d = today + 14 \/ d = today + 28)
  /\ l' = Loan.mk (Loan.loan_id l) (Loan.user_id l) (Loan.item_id l) d
            (Loan.returned_on l) (Loan.renewals l + 1).
Proof.
  unfold Loan.renew. intros H.
  destruct (Loan.is_active l); simpl in H; [|discriminate].
  destruct (String.eqb_spec (Loan.user_id l) (User.user_id user)) as [Hu|];
    simpl in H; [|discriminate].
  destruct (Z.leb_spec max_renewals (Loan.renewals l)); [discriminate|].
  destruct (negb allow_overdue && Date.lt (Loan.due l) today) eqn:Eov;
    [discriminate|].
  destruct (existsb (Loan.blocks_renewal user item today) (default [] holds));
    [discriminate|].
  unfold project_1_functions.calculate_due_date, Date.add_days in H.
  assert (Hov : allow_overdue = true \/ today <= Loan.due l).
  { destruct allow_overdue; [left; reflexivity|]. right.
    simpl in Eov. unfold Date.lt in Eov. apply Z.ltb_ge in Eov. exact Eov. }
  repeat match type of H with
         | context [if ?b then _ else _] => destruct b
         end; try discriminate; injection H as <- <-;
    repeat split; auto.
Qed.

(** X7. [renew] succeeds only if every guard passes: the loan is active,
    the user is its borrower, the count is below the maximum, the loan is
    not past due unless overdue renewals are allowed, and no hold passed
    to it is on the same item, of another user, unexpired and not
    cancelled.  Failing any of the first four returns [None] and leaves
    the loan as it was. *)
Theorem renew_succeeds_only_if
    (user : User.t) (item : LibraryItem.t) (today : Date.t)
    (holds : option (list Hold.t)) (max_renewals : Z) (allow_overdue : bool)
    (l : Loan.t) :
  (forall d l',
     Loan.renew user item today holds max_renewals allow_overdue l
       = (Ok (Some d), l') ->
     Loan.is_active l = true
     /\ Loan.user_id l = User.user_id user
     /\ Loan.renewals l < max_renewals
     /\ (allow_overdue = true \/ today <= Loan.due l)
     /\ (forall h, In h (default [] holds) ->
           Loan.blocks_renewal user item today h = false))
  /\ (Loan.user_id l <> User.user_id user
      \/ max_renewals <= Loan.renewals l
      \/ (allow_overdue = false /\ Loan.due l < today) ->
      Loan.renew user item today holds max_renewals allow_overdue l
      = (Ok None, l)).
Proof.
  split.
  - intros d l' H.
    destruct (renew_success _ _ _ _ _ _ _ _ _ H) as (H1 & H2 & H3 & H4 & H5 & _).
    repeat split; try assumption.
    intros h Hin. destruct (Loan.blocks_renewal user item today h) eqn:E;
      [|reflexivity].
    assert (Hex : existsb (Loan.blocks_renewal user item today)
                    (default [] holds) = true)
      by (apply existsb_exists; exists h; split; assumption).
    rewrite Hex in H5. discriminate.
  - intros Hrej. unfold Loan.renew.
    destruct (negb (Loan.is_active l)); [reflexivity|].
    destruct (String.eqb_spec (Loan.user_id l) (User.user_id user)) as [Hu|Hu];
      simpl; [|reflexivity].
    destruct (Z.leb_spec max_renewals (Loan.renewals l)); [reflexivity|].
    destruct Hrej as [Hne | [Hmax | [-> Hdue]]]; [contradiction | lia |].
    simpl. unfold Date.lt.
    destruct (Z.ltb_spec (Loan.due l) today); [reflexivity | lia].
Qed.

Lemma renew_succeeds_only_if_witness :
  Loan.renew Examples.bob Examples.book (Examples.jan 10) None 2 false
    MoreExamples.book_loan = (Ok None, MoreExamples.book_loan)
  /\ Loan.renew Examples.jane Examples.book (Examples.jan 16) None 2 false
       MoreExamples.book_loan = (Ok None, MoreExamples.book_loan)
  /\ Loan.renew Examples.jane Examples.book (Examples.jan 10) None 0 false
       MoreExamples.book_loan = (Ok None, MoreExamples.book_loan).
Proof.
  split; [|split].
  - apply (renew_succeeds_only_if Examples.bob Examples.book (Examples.jan 10)
             None 2 false MoreExamples.book_loan).
    left. discriminate.
  - apply (renew_succeeds_only_if Examples.jane Examples.book (Examples.jan 16)
             None 2 false MoreExamples.book_loan).
    right. right. split; [reflexivity | vm_compute; reflexivity].
  - apply (renew_succeeds_only_if Examples.jane Examples.book (Examples.jan 10)
             None 0 false MoreExamples.book_loan).
    right. left. simpl. lia.
Defined.

(** X8. After a successful renewal the new due date is after today, so
    the loan, still active, is not overdue on that day, also when an
    overdue loan was renewed with [allow_overdue]. *)
Theorem renewed_loan_not_overdue
    (user : User.t) (item : LibraryItem.t) (today : Date.t)
    (holds : option (list Hold.t)) (max_renewals : Z) (allow_overdue : bool)
    (l l' : Loan.t) (d : Date.t) :
  Loan.renew user item today holds max_renewals allow_overdue l
    = (Ok (Some d), l') ->
  today < Loan.due l'
  /\ Loan.is_active l' = true
  /\ Loan.is_overdue l' today = false
  /\ Loan.days_overdue l' today = 0
  /\ 14 <= Loan.days_until_due l' today.
Proof.
  intros H.
  destruct (renew_success _ _ _ _ _ _ _ _ _ H)
    as (Hact & _ & _ & _ & _ & Hd & ->).
  unfold Loan.days_overdue, Loan.days_until_due, Loan.is_overdue,
    Loan.is_active, Date.lt, Date.days_between in *. simpl.
  destruct (Loan.returned_on l); [discriminate|]. simpl.
  destruct (Z.ltb_spec d today); simpl; repeat split; try reflexivity; lia.
Qed.

Lemma renewed_loan_not_overdue_witness :
  Loan.is_overdue MoreExamples.book_loan (Examples.jan 18) = true
  /\ Loan.is_overdue
       (snd (Loan.renew Examples.jane Examples.book (Examples.jan 18) None 2
               true MoreExamples.book_loan)) (Examples.jan 18) = false.
Proof.
  split; [reflexivity|].
  assert (H : Loan.renew Examples.jane Examples.book (Examples.jan 18) None 2
                true MoreExamples.book_loan
              = (Ok (Some (Examples.jan 18 + 14)),
                 snd (Loan.renew Examples.jane Examples.book (Examples.jan 18)
                        None 2 true MoreExamples.book_loan)))
    by (vm_compute; reflexivity).
  destruct (renewed_loan_not_overdue _ _ _ _ _ _ _ _ _ H) as (_ & _ & Hov & _).
  exact Hov.
Defined.

(** X9. A return of an active loan against an item with a copy out sets
    the loan's return date, gives the item back exactly one copy, changes
    nothing else and yields the fine of [calculate_fine] at the loan's due
    date.  The loan is then closed: any further [return_item], with any
    item, raises RuntimeError and touches neither the loan nor the item,
    so a loan releases one copy at most. *)
Theorem loan_return_effect
    (l : Loan.t) (item : LibraryItem.t) (return_date : Date.t)
    (daily_rate : Float.t) :
  Loan.is_active l = true ->
  LibraryItem.available_copies item < LibraryItem.total_copies item ->
  Loan.return_item return_date daily_rate (l, item)
    = (Loan.calculate_fine l return_date daily_rate,
       (Loan.set_returned_on return_date l,
        LibraryItem.set_available (LibraryItem.available_copies item + 1) item))
  /\ Loan.is_active (Loan.set_returned_on return_date l) = false
  /\ (forall item2 d2 rate2,
        Exn.is_RuntimeError
          (fst (Loan.return_item d2 rate2
                  (Loan.set_returned_on return_date l, item2))) = true
        /\ snd (Loan.return_item d2 rate2
                  (Loan.set_returned_on return_date l, item2))
           = (Loan.set_returned_on return_date l, item2)).
Proof.
  intros Hact Hout. split; [|split].
  - unfold Loan.return_item, LibraryItem.return_copy. rewrite Hact. simpl.
    destruct (Z.leb_spec (LibraryItem.total_copies item)
                (LibraryItem.available_copies item)); [lia|].
    reflexivity.
  - reflexivity.
  - intros item2 d2 rate2. unfold Loan.return_item. simpl. split; reflexivity.
Qed.

Lemma loan_return_effect_witness :
  Loan.return_item (Examples.jan 20) Loan.default_daily_rate
    (MoreExamples.book_loan, Examples.book_one_out)
  = (Ok (Float.lit 125 100),
     (Loan.set_returned_on (Examples.jan 20) MoreExamples.book_loan,
      Examples.book)).
Proof.
  destruct (loan_return_effect MoreExamples.book_loan Examples.book_one_out
              (Examples.jan 20) Loan.default_daily_rate) as (H & _).
  - reflexivity.
  - simpl. lia.
  - rewrite H. vm_compute. reflexivity.
Defined.

Lemma loan_run_closed (o : LoanLife.op) (l : Loan.t) :
  Loan.is_active l = false -> LoanLife.run o l = l.
Proof.
  intros H. destruct o as [c | item d r]; simpl.
  - rewrite (renew_closed c l H). reflexivity.
  - unfold Loan.return_item. rewrite H. reflexivity.
Qed.

(** X10. A closed loan is a permanent record: no sequence of renewals and
    returns, with any arguments, changes anything of it. *)
Theorem closed_loan_is_permanent (l : Loan.t) (d : Date.t)
    (ops : list LoanLife.op) :
  Loan.returned_on l = Some d -> LoanLife.exec ops l = l.
Proof.
  intros Hret.
  assert (Hact : Loan.is_active l = false)
    by (unfold Loan.is_active; rewrite Hret; reflexivity).
  induction ops as [|o ops IH]; simpl.
  - reflexivity.
  - rewrite (loan_run_closed o l Hact). exact IH.
Qed.

Lemma closed_loan_is_permanent_witness :
  LoanLife.exec
    [LoanLife.Return Examples.book_one_out (Examples.jan 25) Loan.default_daily_rate;
     LoanLife.Renew MoreExamples.renew_by_jane]
    MoreExamples.closed_loan
  = MoreExamples.closed_loan.
Proof.
  apply (closed_loan_is_permanent MoreExamples.closed_loan (Examples.jan 20)).
  reflexivity.
Defined.

(** X11. [days_overdue] is never negative and is positive exactly when
    the loan is overdue; on an active loan [days_until_due] is the signed
    distance to the due date, the opposite of [days_overdue] once the loan
    is overdue; on a closed loan both are 0 and the loan is never
    overdue. *)
Theorem loan_overdue_days (l : Loan.t) (today : Date.t) :
  0 <= Loan.days_overdue l today
  /\ (0 < Loan.days_overdue l today <-> Loan.is_overdue l today = true)
  /\ (Loan.is_active l = true ->
      Loan.days_until_due l today = Loan.due l - today
      /\ (Loan.is_overdue l today = true ->
          Loan.days_until_due l today = - Loan.days_overdue l today))
  /\ (Loan.is_active l = false ->
      Loan.is_overdue l today = false
      /\ Loan.days_overdue l today = 0
      /\ Loan.days_until_due l today = 0).
Proof.
  unfold Loan.days_overdue, Loan.days_until_due, Loan.is_overdue,
    Date.days_between, Date.lt.
  destruct (Loan.is_active l); simpl;
    destruct (Z.ltb_spec (Loan.due l) today); simpl;
    repeat split; intros; try discriminate; try reflexivity; try lia.
Qed.

Lemma loan_overdue_days_witness :
  Loan.days_until_due MoreExamples.book_loan (Examples.jan 18)
    = - Loan.days_overdue MoreExamples.book_loan (Examples.jan 18)
  /\ Loan.days_overdue MoreExamples.closed_loan (Examples.jan 25) = 0.
Proof.
  destruct (loan_overdue_days MoreExamples.book_loan (Examples.jan 18))
    as (_ & _ & Ha & _).
  destruct (loan_overdue_days MoreExamples.closed_loan (Examples.jan 25))
    as (_ & _ & _ & Hc).
  split.
  - apply Ha; reflexivity.
  - apply Hc. reflexivity.
Defined.

Lemma loan_run_renewals (m : Z) (o : LoanLife.op) (l : Loan.t) :
  match o with
  | LoanLife.Renew c => LoanOps.max_renewals c = m
  | LoanLife.Return _ _ _ => True
  end ->
  Loan.renewals l <= Loan.renewals (LoanLife.run o l)
  /\ (Loan.renewals l <= m -> Loan.renewals (LoanLife.run o l) <= m).
Proof.
  destruct o as [c | item d r]; simpl.
  - intros <-. unfold LoanOps.renew.
    destruct (Loan.renew (LoanOps.user c) (LoanOps.item c) (LoanOps.today c)
                (LoanOps.holds c) (LoanOps.max_renewals c)
                (LoanOps.allow_overdue c) l) as [[[d|]|e] l'] eqn:E; simpl.
    + destruct (renew_success _ _ _ _ _ _ _ _ _ E)
        as (_ & _ & Hlt & _ & _ & _ & ->). simpl. lia.
    + unfold Loan.renew in E.
      repeat match type of E with
             | context [if ?b then _ else _] => destruct b
             end; try discriminate; try (injection E as <-; lia).
      destruct (project_1_functions.calculate_due_date _ _); discriminate.
    + unfold Loan.renew in E.
      repeat match type of E with
             | context [if ?b then _ else _] => destruct b
             end; try discriminate.
      destruct (project_1_functions.calculate_due_date _ _);
        [discriminate | injection E as _ <-; lia].
  - intros _. unfold Loan.return_item.
    destruct (negb (Loan.is_active l)); simpl; [lia|].
    destruct (LibraryItem.return_copy item) as [[[]|e] item']; simpl; lia.
Qed.

(** X12. The renewal count never decreases and a return does not change
    it; over any sequence of returns and of renewals that all pass the
    same maximum, a count that starts at or below the maximum never
    exceeds it. *)
Theorem renewal_count_bounded (m : Z) (ops : list LoanLife.op) (l : Loan.t) :
  Forall (fun o => match o with
                   | LoanLife.Renew c => LoanOps.max_renewals c = m
                   | LoanLife.Return _ _ _ => True
                   end) ops ->
  Loan.renewals l <= Loan.renewals (LoanLife.exec ops l)
  /\ (Loan.renewals l <= m -> Loan.renewals (LoanLife.exec ops l) <= m).
Proof.
  intros Hall. revert l.
  induction Hall as [|o ops Ho Hops IH]; intros l; simpl.
  - split; [lia | trivial].
  - destruct (loan_run_renewals m o l Ho) as [H1 H2].
    destruct (IH (LoanLife.run o l)) as [H3 H4].
    split; [lia | intros Hm; apply H4, H2, Hm].
Qed.

Lemma renewal_count_bounded_witness :
  Loan.renewals
    (LoanLife.exec
       [LoanLife.Renew MoreExamples.renew_by_jane;
        LoanLife.Renew MoreExamples.renew_by_jane;
        LoanLife.Return Examples.book_one_out (Examples.jan 12)
          Loan.default_daily_rate;
        LoanLife.Renew MoreExamples.renew_by_jane]
       MoreExamples.book_loan) <= 2.
Proof.
  apply (renewal_count_bounded 2).
  - repeat constructor.
  - simpl. lia.
Defined.

Lemma blocks_renewal_iff
    (user : User.t) (item : LibraryItem.t) (today : Date.t) (h : Hold.t) :
  Loan.blocks_renewal user item today h = true
  <-> Hold.item_id h = LibraryItem.item_id item
      /\ Hold.user_id h <> User.user_id user
      /\ today <= Hold.expires_on h
      /\ Hold.cancelled h = false.
Proof.
  unfold Loan.blocks_renewal, Date.le.
  rewrite !andb_true_iff, !negb_true_iff, String.eqb_eq, String.eqb_neq,
    Z.leb_le.
  tauto.
Qed.

(** X13. The outcome of [renew] once the first four guards pass (active
    loan, its borrower, count below the maximum, not past due or overdue
    allowed).  If some hold passed to it is on the same item, of another
    user, not cancelled and not past its expiry, the renewal is denied and
    the loan is left as it was.  If there is none and today plus 28 days
    is still a date, it succeeds: the new due date is today plus the
    user's loan period and the count goes up by one. *)
Theorem renew_outcome_when_guards_pass
    (user : User.t) (item : LibraryItem.t) (today : Date.t)
    (holds : list Hold.t) (max_renewals : Z) (allow_overdue : bool)
    (l : Loan.t) :
  Loan.is_active l = true ->
  Loan.user_id l = User.user_id user ->
  Loan.renewals l < max_renewals ->
  (allow_overdue = true \/ today <= Loan.due l) ->
  ((exists h, In h holds
      /\ Hold.item_id h = LibraryItem.item_id item
      /\ Hold.user_id h <> User.user_id user
      /\ today <= Hold.expires_on h
      /\ Hold.cancelled h = false) ->
   Loan.renew user item today (Some holds) max_renewals allow_overdue l
   = (Ok None, l))
  /\ ((forall h, In h holds ->
         ~ (Hold.item_id h = LibraryItem.item_id item
            /\ Hold.user_id h <> User.user_id user
            /\ today <= Hold.expires_on h
            /\ Hold.cancelled h = false)) ->
      Date.valid today -> today + 28 <= Date.MAXORDINAL ->
      Loan.renew user item today (Some holds) max_renewals allow_overdue l
      = (Ok (Some (today + User.get_loan_period user)),
         Loan.mk (Loan.loan_id l) (Loan.user_id l) (Loan.item_id l)
           (today + User.get_loan_period user) (Loan.returned_on l)
           (Loan.renewals l + 1))).
Proof.
  intros Hact Hu Hr Hov.
  rewrite (renew_decided_by_holds user item today (Some holds) max_renewals
             allow_overdue l Hact Hu Hr Hov). simpl.
  split.
  - intros (h & Hin & Hblock).
    apply blocks_renewal_iff in Hblock.
    assert (Hex : existsb (Loan.blocks_renewal user item today) holds = true)
      by (apply existsb_exists; exists h; split; assumption).
    rewrite Hex. reflexivity.
  - intros Hnone Hv Hmax.
    assert (Hex : existsb (Loan.blocks_renewal user item today) holds = false).
    { apply not_true_is_false. intros Hex.
      apply existsb_exists in Hex as (h & Hin & Hblock).
      apply blocks_renewal_iff in Hblock. exact (Hnone h Hin Hblock). }
    rewrite Hex.
    unfold project_1_functions.calculate_due_date, User.get_loan_period.
    rewrite add_days_in_range; [reflexivity | exact Hv | |];
      destruct (Str.in_set (User.role user) ["Student"; "Public"]); lia.
Qed.

Lemma renew_outcome_when_guards_pass_witness :
  Loan.renew Examples.jane Examples.book (Examples.jan 10)
    (Some [MoreExamples.bob_hold]) 2 false MoreExamples.book_loan
  = (Ok None, MoreExamples.book_loan)
  /\ Loan.renew Examples.jane Examples.book (Examples.jan 10)
       (Some [Examples.hold]) 2 false MoreExamples.book_loan
     = (Ok (Some (Examples.jan 10 + 14)),
        Loan.mk "L1" "U1" "B1" (Examples.jan 10 + 14) None 1).
Proof.
  destruct (renew_outcome_when_guards_pass Examples.jane Examples.book
              (Examples.jan 10) [MoreExamples.bob_hold] 2 false
              MoreExamples.book_loan) as (Hdeny & _);
    [reflexivity | reflexivity | simpl; lia | right; vm_compute; discriminate |].
  destruct (renew_outcome_when_guards_pass Examples.jane Examples.book
              (Examples.jan 10) [Examples.hold] 2 false
              MoreExamples.book_loan) as (_ & Hok);
    [reflexivity | reflexivity | simpl; lia | right; vm_compute; discriminate |].
  split.
  - apply Hdeny. exists MoreExamples.bob_hold.
    repeat split; [left; reflexivity | discriminate | vm_compute; discriminate].
  - apply Hok.
    + intros h [<- | []] (Hitem & _). discriminate Hitem.
    + vm_compute. split; discriminate.
    + vm_compute. discriminate.
Defined.

(** X14. Hold priority.  An active hold of another user on the same item
    denies the renewal whatever the renewal count, the due date and the
    other arguments.  Holds that are the user's own, on another item,
    past their expiry or cancelled never matter: passing only such holds
    gives the outcome of passing none. *)
Theorem hold_priority
    (user : User.t) (item : LibraryItem.t) (today : Date.t)
    (holds : list Hold.t) (max_renewals : Z) (allow_overdue : bool)
    (l : Loan.t) :
  (forall h,
     In h holds ->
     Hold.item_id h = LibraryItem.item_id item ->
     Hold.user_id h <> User.user_id user ->
     Hold.is_active h today = true ->
     Loan.renew user item today (Some holds) max_renewals allow_overdue l
     = (Ok None, l))
  /\ ((forall h, In h holds ->
         Hold.user_id h = User.user_id user
         \/ Hold.item_id h <> LibraryItem.item_id item
         \/ Hold.expires_on h < today
         \/ Hold.cancelled h = true) ->
      Loan.renew user item today (Some holds) max_renewals allow_overdue l
      = Loan.renew user item today None max_renewals allow_overdue l).
Proof.
  split.
  - intros h Hin Hitem Huser Hactive.
    apply (active_hold_denies_renewal user item today holds max_renewals
             allow_overdue l h Hin Hitem Huser Hactive).
  - intros Hall.
    assert (Hex : existsb (Loan.blocks_renewal user item today) holds = false).
    { apply not_true_is_false. intros Hex.
      apply existsb_exists in Hex as (h & Hin & Hblock).
      apply blocks_renewal_iff in Hblock as (H1 & H2 & H3 & H4).
      destruct (Hall h Hin) as [G | [G | [G | G]]];
        [contradiction | contradiction | lia | congruence]. }
    unfold Loan.renew. simpl. rewrite Hex. reflexivity.
Qed.

Lemma hold_priority_witness :
  Loan.renew Examples.jane Examples.book (Examples.jan 10)
    (Some [Examples.hold; MoreExamples.bob_hold]) 5 true MoreExamples.book_loan
  = (Ok None, MoreExamples.book_loan)
  /\ Loan.renew Examples.jane Examples.book (Examples.jan 10)
       (Some [Examples.hold]) 5 true MoreExamples.book_loan
     = Loan.renew Examples.jane Examples.book (Examples.jan 10)
         None 5 true MoreExamples.book_loan.
Proof.
  destruct (hold_priority Examples.jane Examples.book (Examples.jan 10)
              [Examples.hold; MoreExamples.bob_hold] 5 true
              MoreExamples.book_loan) as (Hdeny & _).
  destruct (hold_priority Examples.jane Examples.book (Examples.jan 10)
              [Examples.hold] 5 true MoreExamples.book_loan) as (_ & Hnone).
  split.
  - apply (Hdeny MoreExamples.bob_hold);
      [right; left; reflexivity | reflexivity | discriminate | reflexivity].
  - apply Hnone. intros h [<- | []]. right. left. discriminate.
Defined.

(** X15. Failed checkouts.  An unknown user raises KeyError, also when
    the item is unknown too; a known user with an unknown item raises
    KeyError; an item without an available copy raises RuntimeError; each
    leaves the system as it was.  In general, a checkout that raises
    anything but ValueError (the refusal of the [Loan] constructor, which
    comes after the copy is taken) leaves the system as it was. *)
Theorem checkout_failures
    (s : LibrarySystem.t) (loan_id user_id item_id : string)
    (checkout_date : Date.t) :
  (LibrarySystem.users s !! user_id = None ->
     LibrarySystem.checkout_item loan_id user_id item_id checkout_date s
     = (Raise (KeyError (String.append "Unknown user " user_id)), s))
  /\ (forall user,
        LibrarySystem.users s !! user_id = Some user ->
        LibrarySystem.get_item item_id s = None ->
        LibrarySystem.checkout_item loan_id user_id item_id checkout_date s
        = (Raise (KeyError (String.append "Unknown item " item_id)), s))
  /\ (forall user item,
        LibrarySystem.users s !! user_id = Some user ->
        LibrarySystem.get_item item_id s = Some item ->
        LibraryItem.is_available item = false ->
        Exn.is_RuntimeError
          (fst (LibrarySystem.checkout_item loan_id user_id item_id
                  checkout_date s)) = true
        /\ snd (LibrarySystem.checkout_item loan_id user_id item_id
                  checkout_date s) = s)
  /\ (forall e s',
        LibrarySystem.checkout_item loan_id user_id item_id checkout_date s
          = (Raise e, s') ->
        Exn.is_ValueError (@Raise unit e) = false -> s' = s).
Proof.
  unfold LibrarySystem.get_item.
  split; [|split; [|split]].
  - intros Hu. unfold LibrarySystem.checkout_item, Py.bind, Py.get, Py.raise.
    rewrite Hu. reflexivity.
  - intros user Hu Hi.
    unfold LibrarySystem.checkout_item, Py.bind, Py.get, Py.raise.
    rewrite Hu, Hi. reflexivity.
  - intros user item Hu Hi Hav.
    unfold LibrarySystem.checkout_item, Py.bind, Py.get, Py.raise.
    rewrite Hu, Hi, Hav. split; reflexivity.
  - intros e s' Hrun Hnv.
    destruct (checkout_item_failure_cases _ _ _ _ _ _ _ Hrun) as [H | [msg ->]];
      [exact H | discriminate Hnv].
Qed.

Lemma checkout_failures_witness :
  LibrarySystem.checkout_item "L9" "nobody" "nothing" (Examples.jan 1)
    Examples.library
  = (Raise (KeyError "Unknown user nobody"), Examples.library)
  /\ LibrarySystem.checkout_item "L9" "U1" "nothing" (Examples.jan 1)
       Examples.library
     = (Raise (KeyError "Unknown item nothing"), Examples.library).
Proof.
  destruct (checkout_failures Examples.library "L9" "nobody" "nothing"
              (Examples.jan 1)) as (H1 & _).
  destruct (checkout_failures Examples.library "L9" "U1" "nothing"
              (Examples.jan 1)) as (_ & H2 & _).
  split.
  - apply H1. vm_compute. reflexivity.
  - apply (H2 Examples.jane); vm_compute; reflexivity.
Defined.

(** ** libraryItem.py *)

(** X16. Taking a copy and giving it back are inverse on a physical item
    within its bounds: [return_copy] after a successful [checkout_copy]
    restores the item, and so does [checkout_copy] after a successful
    [return_copy]. *)
Theorem checkout_return_round_trip (it : LibraryItem.t) :
  LibraryItem.cls it <> LibraryItem.EBook ->
  (0 < LibraryItem.available_copies it <= LibraryItem.total_copies it ->
     exists it1,
       LibraryItem.checkout_copy it = (Ok tt, it1)
       /\ LibraryItem.return_copy it1 = (Ok tt, it))
  /\ (0 <= LibraryItem.available_copies it < LibraryItem.total_copies it ->
     exists it1,
       LibraryItem.return_copy it = (Ok tt, it1)
       /\ LibraryItem.checkout_copy it1 = (Ok tt, it)).
Proof.
  intros Hk. destruct it as [k id ti cr tg a t cn isbn g]. simpl in *.
  unfold LibraryItem.checkout_copy, LibraryItem.return_copy,
    LibraryItem.set_available. simpl. split; intros [Hlo Hhi].
  - destruct k; try congruence;
      (destruct (Z.leb_spec a 0); [lia|]);
      eexists; (split; [reflexivity|]); simpl;
      (destruct (Z.leb_spec t (a - 1)); [lia|]);
      do 2 f_equal; lia.
  - destruct (Z.leb_spec t a); [lia|].
    eexists; split; [reflexivity|]. simpl.
    destruct k; try congruence;
      (destruct (Z.leb_spec (a + 1) 0); [lia|]);
      do 2 f_equal; lia.
Qed.

Lemma checkout_return_round_trip_witness :
  exists it1,
    LibraryItem.checkout_copy Examples.book = (Ok tt, it1)
    /\ LibraryItem.return_copy it1 = (Ok tt, Examples.book).
Proof.
  destruct (checkout_return_round_trip Examples.book) as [H _];
    [discriminate|].
  apply H. simpl. lia.
Defined.

(** X17. The availability test is the exact guard of [checkout_copy] on
    a physical item: the call succeeds when [is_available] holds and
    raises RuntimeError, leaving the item as it was, when it does not;
    [check_item_availability] gives the same answer; on an EBook the call
    succeeds whatever the answer. *)
Theorem is_available_guards_checkout (it : LibraryItem.t) :
  project_1_search.check_item_availability it = LibraryItem.is_available it
  /\ (LibraryItem.cls it <> LibraryItem.EBook ->
      Exn.is_Ok (fst (LibraryItem.checkout_copy it)) = LibraryItem.is_available it
      /\ (LibraryItem.is_available it = false ->
          Exn.is_RuntimeError (fst (LibraryItem.checkout_copy it)) = true
          /\ snd (LibraryItem.checkout_copy it) = it))
  /\ (LibraryItem.cls it = LibraryItem.EBook ->
      Exn.is_Ok (fst (LibraryItem.checkout_copy it)) = true).
Proof.
  unfold project_1_search.check_item_availability, LibraryItem.is_available,
    LibraryItem.checkout_copy.
  split; [reflexivity|]. split.
  - intros Hk.
    destruct (LibraryItem.cls it); try congruence;
      destruct (Z.leb_spec (LibraryItem.available_copies it) 0);
      destruct (Z.ltb_spec 0 (LibraryItem.available_copies it));
      try lia; simpl; repeat split; try reflexivity; discriminate.
  - intros ->. reflexivity.
Qed.

Lemma is_available_guards_checkout_witness :
  Exn.is_Ok (fst (LibraryItem.checkout_copy Examples.book))
    = LibraryItem.is_available Examples.book
  /\ Exn.is_Ok (fst (LibraryItem.checkout_copy Examples.ebook)) = true.
Proof.
  destruct (is_available_guards_checkout Examples.book) as (_ & H & _).
  destruct (is_available_guards_checkout Examples.ebook) as (_ & _ & H').
  split; [apply H; discriminate | apply H'; reflexivity].
Defined.

Lemma has_tag_true (tag : string) (it : LibraryItem.t) :
  LibraryItem.has_tag tag it = true
  <-> Str.lower (Str.strip tag) ∈ LibraryItem.tags it.
Proof. unfold LibraryItem.has_tag. apply bool_decide_eq_true. Qed.

Lemma has_tag_eq (tag1 tag2 : string) (it1 it2 : LibraryItem.t) :
  (Str.lower (Str.strip tag1) ∈ LibraryItem.tags it1
   <-> Str.lower (Str.strip tag2) ∈ LibraryItem.tags it2) ->
  LibraryItem.has_tag tag1 it1 = LibraryItem.has_tag tag2 it2.
Proof.
  intros H. unfold LibraryItem.has_tag. apply bool_decide_ext. exact H.
Qed.

(** X18. Tags are kept in normal form (stripped, lower case).  After
    [add_tag] of a tag that is not blank, [has_tag] finds it; after
    [remove_tag] it does not; neither call changes the answer for a tag
    with another normal form; a blank tag is not added; and the copy
    counts are never touched. *)
Theorem tag_round_trip (it : LibraryItem.t) (tag : string) :
  (Str.blank tag = false ->
     LibraryItem.has_tag tag (snd (LibraryItem.add_tag tag it)) = true)
  /\ LibraryItem.has_tag tag (snd (LibraryItem.remove_tag tag it)) = false
  /\ (forall other,
        Str.lower (Str.strip other) <> Str.lower (Str.strip tag) ->
        LibraryItem.has_tag other (snd (LibraryItem.add_tag tag it))
          = LibraryItem.has_tag other it
        /\ LibraryItem.has_tag other (snd (LibraryItem.remove_tag tag it))
          = LibraryItem.has_tag other it)
  /\ (Str.blank tag = true -> LibraryItem.add_tag tag it = (Ok tt, it))
  /\ LibraryItem.available_copies (snd (LibraryItem.add_tag tag it))
     = LibraryItem.available_copies it
  /\ LibraryItem.available_copies (snd (LibraryItem.remove_tag tag it))
     = LibraryItem.available_copies it.
Proof.
  unfold Str.blank.
  split; [|split; [|split; [|split; [|split]]]].
  - intros Hb. apply orb_false_elim in Hb as [H1 H2].
    apply negb_false_iff in H1, H2.
    apply has_tag_true. unfold LibraryItem.add_tag. rewrite H1, H2. simpl.
    set_solver.
  - apply not_true_is_false. rewrite has_tag_true. simpl. set_solver.
  - intros other Hne. split; apply has_tag_eq.
    + unfold LibraryItem.add_tag.
      destruct (Str.truthy tag && Str.truthy (Str.strip tag)); simpl;
        set_solver.
    + simpl. set_solver.
  - intros Hb. unfold LibraryItem.add_tag.
    destruct (Str.truthy tag); destruct (Str.truthy (Str.strip tag));
      simpl in *; try discriminate; reflexivity.
  - unfold LibraryItem.add_tag.
    destruct (Str.truthy tag && Str.truthy (Str.strip tag)); reflexivity.
  - reflexivity.
Qed.

Lemma tag_round_trip_witness :
  LibraryItem.has_tag "python"
    (snd (LibraryItem.add_tag "  Python " Examples.book)) = true
  /\ LibraryItem.add_tag "   " Examples.book = (Ok tt, Examples.book).
Proof.
  destruct (tag_round_trip Examples.book "  Python ") as (Hadd & _).
  destruct (tag_round_trip Examples.book "   ") as (_ & _ & _ & Hblank & _).
  split.
  - rewrite <- (Hadd eq_refl). apply has_tag_eq.
    replace (Str.lower (Str.strip "python"))
      with (Str.lower (Str.strip "  Python ")) by (vm_compute; reflexivity).
    reflexivity.
  - apply Hblank. reflexivity.
Defined.

(** ** User.py *)

Lemma user_mem_In (x : string) (l : list string) :
  User.mem x l = true <-> In x l.
Proof.
  unfold User.mem. rewrite existsb_exists. split.
  - intros (y & Hin & Heq). apply String.eqb_eq in Heq. subst. exact Hin.
  - intros Hin. exists x. split; [exact Hin | apply String.eqb_refl].
Qed.

Lemma remove_first_In (x y : string) (l : list string) :
  In y (User.remove_first x l) -> In y l.
Proof.
  induction l as [|z l IH]; simpl; [tauto|].
  destruct (String.eqb x z); simpl; tauto.
Qed.

Lemma remove_first_NoDup (x : string) (l : list string) :
  List.NoDup l -> List.NoDup (User.remove_first x l) /\ ~ In x (User.remove_first x l).
Proof.
  induction 1 as [|z l Hz Hl IH]; simpl.
  - split; [constructor | tauto].
  - destruct (String.eqb_spec x z) as [->|Hne].
    + split; assumption.
    + destruct IH as [IH1 IH2]. split.
      * constructor; [|exact IH1]. intros Hin. apply Hz.
        eapply remove_first_In. exact Hin.
      * simpl. intros [Heq | Hin]; [congruence | tauto].
Qed.

Lemma remove_first_app_fresh (x : string) (l : list string) :
  ~ In x l -> User.remove_first x (l ++ [x])%list = l.
Proof.
  induction l as [|z l IH]; simpl; intros Hn.
  - rewrite String.eqb_refl. reflexivity.
  - destruct (String.eqb_spec x z) as [->|Hne]; [tauto|].
    rewrite IH; [reflexivity | tauto].
Qed.

(** X19. On a user whose active list does not hold the id, [add_loan]
    appends it and [remove_loan] then restores the user exactly; a second
    [add_loan] of the same id changes nothing; [remove_loan] of an id that
    is not in the list raises ValueError and leaves the user as it was. *)
Theorem user_loan_round_trip (u : User.t) (loan_id : string) :
  (~ In loan_id (User.active_loan_ids u) ->
     User.active_loan_ids (snd (User.add_loan loan_id u))
       = (User.active_loan_ids u ++ [loan_id])%list
     /\ User.remove_loan loan_id (snd (User.add_loan loan_id u)) = (Ok tt, u)
     /\ Exn.is_ValueError (fst (User.remove_loan loan_id u)) = true
     /\ snd (User.remove_loan loan_id u) = u)
  /\ User.add_loan loan_id (snd (User.add_loan loan_id u))
     = (Ok tt, snd (User.add_loan loan_id u))
  /\ User.get_active_loan_count (snd (User.add_loan loan_id u))
     = User.get_active_loan_count u
       + (if User.mem loan_id (User.active_loan_ids u) then 0 else 1).
Proof.
  destruct u as [uid nm rl ids fines].
  unfold User.add_loan, User.remove_loan, User.get_active_loan_count. simpl.
  split; [|split].
  - intros Hn.
    assert (Hm : User.mem loan_id ids = false).
    { apply not_true_is_false. rewrite user_mem_In. exact Hn. }
    rewrite Hm. simpl.
    assert (Hm' : User.mem loan_id (ids ++ [loan_id])%list = true).
    { apply user_mem_In, in_or_app. right. left. reflexivity. }
    rewrite Hm'. simpl. rewrite remove_first_app_fresh by exact Hn.
    repeat split; reflexivity.
  - destruct (User.mem loan_id ids) eqn:Hm; simpl.
    + rewrite Hm. reflexivity.
    + assert (Hm' : User.mem loan_id (ids ++ [loan_id])%list = true).
      { apply user_mem_In, in_or_app. right. left. reflexivity. }
      rewrite Hm'. reflexivity.
  - destruct (User.mem loan_id ids); simpl.
    + lia.
    + rewrite length_app. simpl. lia.
Qed.

Lemma user_loan_round_trip_witness :
  User.remove_loan "L1" (snd (User.add_loan "L1" Examples.jane))
  = (Ok tt, Examples.jane)
  /\ Exn.is_ValueError (fst (User.remove_loan "L1" Examples.jane)) = true.
Proof.
  destruct (user_loan_round_trip Examples.jane "L1") as (H & _).
  destruct H as (_ & Hrt & Hrm & _); [simpl; tauto|].
  split; assumption.
Defined.

(** The sign of a float sum: rounding keeps the sign it is given. *)
Lemma binary_round_aux_not_negative (mx ex : Z) (lx : location) :
  UserOps.not_negative (binary_round_aux Float.prec Float.emax false mx ex lx).
Proof.
  unfold UserOps.not_negative, binary_round_aux.
  destruct (shr_fexp Float.prec Float.emax mx ex lx) as [mrs' e'].
  destruct (shr_fexp Float.prec Float.emax _ e' loc_Exact) as [mrs'' e''].
  destruct (shr_m mrs''); try reflexivity.
  destruct (e'' <=? Float.emax - Float.prec)%Z; reflexivity.
Qed.

Lemma float_add_not_negative (a b : Float.t) :
  UserOps.not_negative a -> UserOps.not_negative b ->
  UserOps.not_negative (Float.add a b).
Proof.
  unfold UserOps.not_negative.
  destruct a as [sa|sa| |sa ma ea]; destruct b as [sb|sb| |sb mb eb];
    try destruct sa; try destruct sb; intros Ha Hb;
    try discriminate; try reflexivity.
  unfold Float.add, SFadd, binary_normalize.
  destruct (shl_align ma ea (Z.min ea eb)) as [ma' ea'].
  destruct (shl_align mb eb (Z.min ea eb)) as [mb' eb'].
  simpl. unfold binary_round.
  destruct (shl_align _ _ _) as [mz ez].
  apply binary_round_aux_not_negative.
Qed.

Lemma user_run_not_negative (o : UserOps.op) (u : User.t) :
  UserOps.not_negative (User.total_fines u) ->
  UserOps.not_negative (User.total_fines (snd (UserOps.run o u))).
Proof.
  intros Hu. destruct o as [id | id | amount | amount]; simpl.
  - unfold User.add_loan.
    destruct (negb (User.mem id (User.active_loan_ids u))); exact Hu.
  - unfold User.remove_loan.
    destruct (negb (User.mem id (User.active_loan_ids u))); exact Hu.
  - unfold User.add_fine.
    destruct (Float.ltb amount Float.zero) eqn:E; simpl; [exact Hu|].
    apply float_add_not_negative; [exact Hu | exact E].
  - unfold Py.bind, User.pay_fine.
    destruct (Float.ltb amount Float.zero); simpl; [exact Hu|].
    destruct (Float.ltb Float.zero (Float.sub (User.total_fines u) amount))
      eqn:E; simpl; [|reflexivity].
    unfold UserOps.not_negative.
    destruct (Float.sub (User.total_fines u) amount) as [s|s| |s m e];
      try destruct s; try discriminate; reflexivity.
Qed.

Lemma user_run_NoDup (o : UserOps.op) (u : User.t) :
  List.NoDup (User.active_loan_ids u) ->
  List.NoDup (User.active_loan_ids (snd (UserOps.run o u))).
Proof.
  intros Hu. destruct o as [id | id | amount | amount]; simpl.
  - unfold User.add_loan.
    destruct (User.mem id (User.active_loan_ids u)) eqn:E; simpl; [exact Hu|].
    apply List.NoDup_app; [exact Hu | repeat constructor; intros [] |].
    intros x Hx [<- | []]. apply not_true_iff_false in E. apply E.
    apply user_mem_In. exact Hx.
  - unfold User.remove_loan.
    destruct (negb (User.mem id (User.active_loan_ids u))); simpl; [exact Hu|].
    apply remove_first_NoDup. exact Hu.
  - unfold User.add_fine. destruct (Float.ltb amount Float.zero); exact Hu.
  - unfold Py.bind, User.pay_fine.
    destruct (Float.ltb amount Float.zero); exact Hu.
Qed.

Lemma user_run_identity (o : UserOps.op) (u : User.t) :
  User.user_id (snd (UserOps.run o u)) = User.user_id u
  /\ User.name (snd (UserOps.run o u)) = User.name u
  /\ User.role (snd (UserOps.run o u)) = User.role u.
Proof.
  destruct o as [id | id | amount | amount]; simpl;
    unfold User.add_loan, User.remove_loan, User.add_fine, Py.bind,
      User.pay_fine;
    repeat match goal with
           | |- context [if ?b then _ else _] => destruct b
           end; simpl; repeat split; reflexivity.
Qed.

(** X20. Every user a program can hold (built by the constructor, then
    put through any add_loan, remove_loan, add_fine and pay_fine calls)
    has an active-loan list without duplicates, a fine balance that is
    not negative, a role of the closed set and a non-empty id. *)
Theorem user_reachable_invariant (u : User.t) :
  UserOps.reachable u ->
  List.NoDup (User.active_loan_ids u)
  /\ UserOps.not_negative (User.total_fines u)
  /\ project_1_functions.validate_user_role (User.role u) = true
  /\ User.user_id u <> EmptyString.
Proof.
  intros (uid & nm & rl & u0 & ops & Hinit & ->).
  unfold User.init in Hinit.
  destruct (Str.blank uid) eqn:Eb; [discriminate|].
  destruct (project_1_functions.validate_user_role rl) eqn:Er;
    simpl in Hinit; [|discriminate].
  injection Hinit as <-.
  match goal with |- context [UserOps.exec ops ?x] => set (u0 := x) end.
  assert (H0 : List.NoDup (User.active_loan_ids u0)
               /\ UserOps.not_negative (User.total_fines u0)
               /\ project_1_functions.validate_user_role (User.role u0) = true
               /\ User.user_id u0 <> EmptyString).
  { subst u0. simpl. repeat split; try assumption; try constructor.
    apply blank_false_strip_nonempty. exact Eb. }
  clearbody u0. revert u0 H0.
  induction ops as [|o ops IH]; intros u0 H0; simpl; [exact H0|].
  apply IH. destruct H0 as (H1 & H2 & H3 & H4).
  destruct (user_run_identity o u0) as (G1 & _ & G3).
  rewrite G1, G3.
  repeat split; try assumption.
  - apply user_run_NoDup. exact H1.
  - apply user_run_not_negative. exact H2.
Qed.

Lemma jane_with_loans_reachable :
  UserOps.reachable
    (UserOps.exec [UserOps.AddLoan "L1"; UserOps.AddLoan "L1";
                   UserOps.AddFine (Float.lit 125 100);
                   UserOps.PayFine (Float.lit 5 1)] Examples.jane).
Proof.
  exists "U1", "jane doe", "Student", Examples.jane,
    [UserOps.AddLoan "L1"; UserOps.AddLoan "L1";
     UserOps.AddFine (Float.lit 125 100); UserOps.PayFine (Float.lit 5 1)].
  split; reflexivity.
Qed.

Lemma user_reachable_invariant_witness :
  List.NoDup
    (User.active_loan_ids
       (UserOps.exec [UserOps.AddLoan "L1"; UserOps.AddLoan "L1";
                      UserOps.AddFine (Float.lit 125 100);
                      UserOps.PayFine (Float.lit 5 1)] Examples.jane))
  /\ UserOps.not_negative
       (User.total_fines
          (UserOps.exec [UserOps.AddLoan "L1"; UserOps.AddLoan "L1";
                         UserOps.AddFine (Float.lit 125 100);
                         UserOps.PayFine (Float.lit 5 1)] Examples.jane)).
Proof.
  destruct (user_reachable_invariant _ jane_with_loans_reachable)
    as (H1 & H2 & _).
  split; assumption.
Defined.

(** X21. [add_fine] and [pay_fine] refuse a negative amount with
    ValueError and leave the user as it was.  Otherwise [pay_fine]
    succeeds, returns the balance it stores, which is not negative
    whatever the payment, and touches nothing but the balance. *)
Theorem fine_payment_clamped (u : User.t) (amount : Float.t) :
  (Float.ltb amount Float.zero = true ->
     Exn.is_ValueError (fst (User.add_fine amount u)) = true
     /\ snd (User.add_fine amount u) = u
     /\ Exn.is_ValueError (fst (User.pay_fine amount u)) = true
     /\ snd (User.pay_fine amount u) = u)
  /\ (Float.ltb amount Float.zero = false ->
      exists remaining,
        User.pay_fine amount u
        = (Ok remaining,
           User.mk (User.user_id u) (User.name u) (User.role u)
             (User.active_loan_ids u) remaining)
        /\ UserOps.not_negative remaining
        /\ (Float.ltb Float.zero (Float.sub (User.total_fines u) amount) = false ->
            remaining = Float.zero)).
Proof.
  unfold User.add_fine, User.pay_fine. split; intros Hneg; rewrite Hneg.
  - repeat split; reflexivity.
  - eexists. split; [reflexivity|]. split.
    + unfold UserOps.not_negative.
      destruct (Float.ltb Float.zero (Float.sub (User.total_fines u) amount))
        eqn:E; [|reflexivity].
      destruct (Float.sub (User.total_fines u) amount) as [s|s| |s m e];
        try destruct s; try discriminate; reflexivity.
    + intros ->. reflexivity.
Qed.

Lemma fine_payment_clamped_witness :
  (exists remaining,
     User.pay_fine (Float.lit 5 1) Examples.jane
     = (Ok remaining,
        User.mk "U1" "Jane Doe" "Student" [] remaining)
     /\ UserOps.not_negative remaining
     /\ (Float.ltb Float.zero
           (Float.sub (User.total_fines Examples.jane) (Float.lit 5 1)) = false ->
         remaining = Float.zero))
  /\ Exn.is_ValueError (fst (User.pay_fine (Float.lit (-1) 1) Examples.jane)) = true.
Proof.
  destruct (fine_payment_clamped Examples.jane (Float.lit 5 1)) as (_ & Hok).
  destruct (fine_payment_clamped Examples.jane (Float.lit (-1) 1)) as (Hneg & _).
  split.
  - apply Hok. vm_compute. reflexivity.
  - apply Hneg. vm_compute. reflexivity.
Defined.

(** X22. The role rule is written three times in the code and the three
    agree: [User.get_loan_period] is 14 or 28, [User.calculate_due_date]
    adds exactly that period to the checkout date, and the due date of a
    Book or a generic item for the user's role is the same date. *)
Theorem loan_period_consistent (u : User.t) (checkout : Date.t)
    (it : LibraryItem.t) :
  (User.get_loan_period u = 14 \/ User.get_loan_period u = 28)
  /\ User.calculate_due_date u checkout
     = Date.add_days checkout (User.get_loan_period u)
  /\ (LibraryItem.cls it = LibraryItem.Generic
      \/ LibraryItem.cls it = LibraryItem.Book ->
      LibraryItem.calculate_due_date it checkout (User.role u)
      = User.calculate_due_date u checkout).
Proof.
  unfold User.get_loan_period, User.calculate_due_date,
    project_1_functions.calculate_due_date, LibraryItem.calculate_due_date.
  split; [|split].
  - destruct (Str.in_set (User.role u) ["Student"; "Public"]); tauto.
  - reflexivity.
  - intros [-> | ->]; reflexivity.
Qed.

Lemma loan_period_consistent_witness :
  LibraryItem.calculate_due_date Examples.book (Examples.jan 1)
    (User.role Examples.bob)
  = User.calculate_due_date Examples.bob (Examples.jan 1).
Proof.
  destruct (loan_period_consistent Examples.bob (Examples.jan 1) Examples.book)
    as (_ & _ & H).
  apply H. right. reflexivity.
Defined.

(** ** catalog.py *)

(** X23. Catalog round trips.  Adding an item under a free id stores it
    under its id, leaves every other id as it was and adds one to the
    count; removing it again returns the item and restores the catalog;
    adding an item whose id is taken raises ValueError and removing an id
    that is not there raises KeyError, both leaving the catalog as it
    was. *)
Theorem catalog_round_trip (c : Catalog.t) (item : LibraryItem.t) :
  (Catalog.get_item (LibraryItem.item_id item) c = None ->
     exists c',
       Catalog.add_item item c = (Ok tt, c')
       /\ Catalog.get_item (LibraryItem.item_id item) c' = Some item
       /\ (forall other, other <> LibraryItem.item_id item ->
             Catalog.get_item other c' = Catalog.get_item other c)
       /\ Catalog.item_count c' = Catalog.item_count c + 1
       /\ Catalog.remove_item (LibraryItem.item_id item) c' = (Ok item, c)
       /\ Exn.is_ValueError (fst (Catalog.add_item item c')) = true
       /\ snd (Catalog.add_item item c') = c'
       /\ Exn.is_KeyError (fst (Catalog.remove_item (LibraryItem.item_id item) c))
          = true
       /\ snd (Catalog.remove_item (LibraryItem.item_id item) c) = c)
  /\ (forall old, Catalog.get_item (LibraryItem.item_id item) c = Some old ->
        Exn.is_ValueError (fst (Catalog.add_item item c)) = true
        /\ snd (Catalog.add_item item c) = c
        /\ fst (Catalog.remove_item (LibraryItem.item_id item) c) = Ok old
        /\ Catalog.get_item (LibraryItem.item_id item)
             (snd (Catalog.remove_item (LibraryItem.item_id item) c)) = None
        /\ Catalog.item_count (snd (Catalog.remove_item (LibraryItem.item_id item) c))
           = Catalog.item_count c - 1).
Proof.
  destruct c as [nm items].
  unfold Catalog.get_item, Catalog.add_item, Catalog.remove_item,
    Catalog.item_count. simpl. split.
  - intros Hfree. rewrite Hfree. eexists. split; [reflexivity|]. simpl.
    rewrite lookup_insert_eq. repeat split.
    + intros other Hne. rewrite lookup_insert_ne by congruence. reflexivity.
    + rewrite map_size_insert_None by exact Hfree. lia.
    + rewrite delete_insert_id by exact Hfree. reflexivity.
  - intros old Hold. rewrite Hold. simpl. repeat split.
    + apply lookup_delete_eq.
    + pose proof (map_size_delete_Some (LibraryItem.item_id item) items
                    (mk_is_Some _ _ Hold)).
      assert (size items <> 0%nat).
      { intros Hz. apply map_size_empty_inv in Hz. subst.
        rewrite lookup_empty in Hold. discriminate. }
      lia.
Qed.

Lemma catalog_round_trip_witness :
  exists c',
    Catalog.add_item Examples.book (Catalog.mk "Main Library" ∅) = (Ok tt, c')
    /\ Catalog.get_item "B1" c' = Some Examples.book
    /\ Catalog.remove_item "B1" c' = (Ok Examples.book, Catalog.mk "Main Library" ∅).
Proof.
  destruct (catalog_round_trip (Catalog.mk "Main Library" ∅) Examples.book)
    as (H & _).
  destruct (H eq_refl) as (c' & H1 & H2 & _ & _ & H5 & _).
  exists c'. repeat split; assumption.
Defined.

(** ** library_system.py *)

(** X24. The effect of a checkout that passes every check (known user,
    known and available item, a due date in range, a loan the constructor
    accepts).  It returns the new loan, active, never renewed and due on
    the date of the item's policy for the user's role; stores it under the
    loan id; takes one copy of the item unless it is an EBook; puts the
    loan id in the user's active list; and changes no other item, user or
    loan and no hold. *)
Theorem checkout_item_effect
    (s : LibrarySystem.t) (loan_id user_id item_id : string)
    (checkout_date due : Date.t) (user : User.t) (item : LibraryItem.t)
    (loan : Loan.t) :
  LibrarySystem.users s !! user_id = Some user ->
  LibrarySystem.get_item item_id s = Some item ->
  LibraryItem.is_available item = true ->
  LibraryItem.calculate_due_date item checkout_date (User.role user) = Ok due ->
  Loan.init loan_id (User.user_id user) (LibraryItem.item_id item) due None 0
    = Ok loan ->
  let s' := snd (LibrarySystem.checkout_item loan_id user_id item_id
                   checkout_date s) in
  fst (LibrarySystem.checkout_item loan_id user_id item_id checkout_date s)
    = Ok loan
  /\ Loan.due loan = due /\ Loan.is_active loan = true /\ Loan.renewals loan = 0
  /\ LibrarySystem.loans s' !! loan_id = Some loan
  /\ (LibraryItem.cls item <> LibraryItem.EBook ->
      LibrarySystem.get_item item_id s'
      = Some (LibraryItem.set_available
                (LibraryItem.available_copies item - 1) item))
  /\ (LibraryItem.cls item = LibraryItem.EBook ->
      LibrarySystem.get_item item_id s' = Some item)
  /\ (exists user',
        LibrarySystem.users s' !! user_id = Some user'
        /\ In loan_id (User.active_loan_ids user')
        /\ User.total_fines user' = User.total_fines user)
  /\ LibrarySystem.holds s' = LibrarySystem.holds s
  /\ (forall k, k <> item_id ->
        LibrarySystem.get_item k s' = LibrarySystem.get_item k s)
  /\ (forall k, k <> user_id ->
        LibrarySystem.users s' !! k = LibrarySystem.users s !! k)
  /\ (forall k, k <> loan_id ->
        LibrarySystem.loans s' !! k = LibrarySystem.loans s !! k).
Proof.
  intros Hu Hi Hav Hdue Hloan.
  unfold LibrarySystem.get_item in Hi.
  assert (Hrun : LibrarySystem.checkout_item loan_id user_id item_id
                   checkout_date s
                 = (Ok loan,
                    LibrarySystem.mk
                      (Catalog.update_item item_id
                         (snd (LibraryItem.checkout_copy item))
                         (LibrarySystem.catalog s))
                      (<[user_id := snd (User.add_loan loan_id user)]>
                         (LibrarySystem.users s))
                      (<[loan_id := loan]> (LibrarySystem.loans s))
                      (LibrarySystem.holds s))).
  { unfold LibrarySystem.checkout_item, Py.bind, Py.get, Py.lift, Py.ret.
    rewrite Hu, Hi, Hav, Hdue. simpl.
    unfold LibrarySystem.on_item.
    assert (Hco : fst (LibraryItem.checkout_copy item) = Ok tt).
    { unfold LibraryItem.checkout_copy, LibraryItem.is_available in *.
      apply Z.ltb_lt in Hav.
      destruct (LibraryItem.cls item); try reflexivity;
        (destruct (Z.leb_spec (LibraryItem.available_copies item) 0);
         [lia | reflexivity]). }
    destruct (LibraryItem.checkout_copy item) as [r item']. simpl in Hco.
    subst r. simpl. rewrite Hloan.
    unfold LibrarySystem.store_loan, LibrarySystem.on_user. simpl.
    assert (Hadd : fst (User.add_loan loan_id user) = Ok tt).
    { unfold User.add_loan.
      destruct (negb (User.mem loan_id (User.active_loan_ids user)));
        reflexivity. }
    destruct (User.add_loan loan_id user) as [r user']. simpl in Hadd.
    subst r. reflexivity. }
  rewrite Hrun. cbv zeta. simpl.
  unfold LibrarySystem.get_item, Catalog.get_item, Catalog.update_item. simpl.
  assert (Hl : Loan.due loan = due /\ Loan.is_active loan = true
               /\ Loan.renewals loan = 0).
  { unfold Loan.init in Hloan.
    repeat match type of Hloan with
           | (if ?b then _ else _) = _ => destruct b; [discriminate|]
           end.
    injection Hloan as <-. repeat split; reflexivity. }
  destruct Hl as (Hl1 & Hl2 & Hl3).
  split; [reflexivity|]. split; [exact Hl1|]. split; [exact Hl2|].
  split; [exact Hl3|].
  split; [apply lookup_insert_eq|].
  split.
  { intros Hk. rewrite lookup_insert_eq. f_equal.
    unfold LibraryItem.checkout_copy, LibraryItem.is_available in *.
    apply Z.ltb_lt in Hav.
    destruct (LibraryItem.cls item); try congruence;
      (destruct (Z.leb_spec (LibraryItem.available_copies item) 0);
       [lia | reflexivity]). }
  split.
  { intros Hk. rewrite lookup_insert_eq. f_equal.
    unfold LibraryItem.checkout_copy. rewrite Hk. reflexivity. }
  split.
  { exists (snd (User.add_loan loan_id user)).
    split; [apply lookup_insert_eq|].
    unfold User.add_loan.
    destruct (User.mem loan_id (User.active_loan_ids user)) eqn:E; simpl.
    - split; [apply user_mem_In; exact E | reflexivity].
    - split; [apply in_or_app; right; left; reflexivity | reflexivity]. }
  split; [reflexivity|].
  split; [intros k Hk; apply lookup_insert_ne; congruence|].
  split; intros k Hk; apply lookup_insert_ne; congruence.
Qed.

Lemma checkout_item_effect_witness :
  fst (LibrarySystem.checkout_item "L1" "U1" "B1" (Examples.jan 1)
         Examples.library) = Ok MoreExamples.book_loan
  /\ LibrarySystem.get_item "B1" MoreExamples.library_L1
     = Some Examples.book_one_out
  /\ LibrarySystem.get_item "DV" MoreExamples.library_L1
     = LibrarySystem.get_item "DV" Examples.library.
Proof.
  assert (Hu : LibrarySystem.users Examples.library !! "U1" = Some Examples.jane)
    by (vm_compute; reflexivity).
  assert (Hi : LibrarySystem.get_item "B1" Examples.library = Some Examples.book)
    by (vm_compute; reflexivity).
  destruct (checkout_item_effect Examples.library "L1" "U1" "B1"
              (Examples.jan 1) (Examples.jan 15) Examples.jane Examples.book
              MoreExamples.book_loan Hu Hi eq_refl eq_refl eq_refl)
    as (H1 & _ & _ & _ & _ & H6 & _ & _ & _ & H10 & _).
  split; [exact H1|]. split.
  - apply H6. discriminate.
  - apply H10. discriminate.
Defined.

(** X25. The effect of a return through the system, for a stored active
    loan whose item has a copy out and whose user lists the loan.  It
    returns the fine of the loan; closes the stored loan on the return
    date; gives the item back one copy; takes the first occurrence of the
    loan id out of the user's active list; adds the fine to the user's
    balance only when it is greater than zero; and changes no other loan
    and no hold. *)
Theorem system_return_effect
    (s : LibrarySystem.t) (loan_id : string) (return_date : Date.t)
    (daily_rate fine : Float.t) (loan : Loan.t) (item : LibraryItem.t)
    (user : User.t) :
  LibrarySystem.loans s !! loan_id = Some loan ->
  Loan.is_active loan = true ->
  LibrarySystem.get_item (Loan.item_id loan) s = Some item ->
  LibraryItem.available_copies item < LibraryItem.total_copies item ->
  LibrarySystem.users s !! Loan.user_id loan = Some user ->
  In loan_id (User.active_loan_ids user) ->
  Loan.calculate_fine loan return_date daily_rate = Ok fine ->
  let s' := snd (LibrarySystem.return_item loan_id return_date daily_rate s) in
  fst (LibrarySystem.return_item loan_id return_date daily_rate s) = Ok fine
  /\ LibrarySystem.loans s' !! loan_id
     = Some (Loan.set_returned_on return_date loan)
  /\ LibrarySystem.get_item (Loan.item_id loan) s'
     = Some (LibraryItem.set_available
               (LibraryItem.available_copies item + 1) item)
  /\ LibrarySystem.users s' !! Loan.user_id loan
     = Some (User.mk (User.user_id user) (User.name user) (User.role user)
               (User.remove_first loan_id (User.active_loan_ids user))
               (if Float.ltb Float.zero fine
                then Float.add (User.total_fines user) fine
                else User.total_fines user))
  /\ LibrarySystem.holds s' = LibrarySystem.holds s
  /\ (forall k, k <> loan_id ->
        LibrarySystem.loans s' !! k = LibrarySystem.loans s !! k).
Proof.
  intros Hl Hact Hi Hout Hu Hin Hfine.
  unfold LibrarySystem.get_item in Hi.
  assert (Hret : Loan.return_item return_date daily_rate (loan, item)
                 = (Ok fine,
                    (Loan.set_returned_on return_date loan,
                     LibraryItem.set_available
                       (LibraryItem.available_copies item + 1) item))).
  { unfold Loan.return_item, LibraryItem.return_copy. rewrite Hact. simpl.
    destruct (Z.leb_spec (LibraryItem.total_copies item)
                (LibraryItem.available_copies item)); [lia|].
    unfold Loan.calculate_fine in *. simpl. rewrite Hfine. reflexivity. }
  assert (Hmem : User.mem loan_id (User.active_loan_ids user) = true)
    by (apply user_mem_In; exact Hin).
  assert (Hnotneg : Float.ltb Float.zero fine = true ->
                    Float.ltb fine Float.zero = false).
  { destruct fine as [sf|sf| |sf m e]; try destruct sf;
      intros H; try discriminate H; reflexivity. }
  assert (Hrun : LibrarySystem.return_item loan_id return_date daily_rate s
    = (Ok fine,
       LibrarySystem.mk
         (Catalog.update_item (Loan.item_id loan)
            (LibraryItem.set_available
               (LibraryItem.available_copies item + 1) item)
            (LibrarySystem.catalog s))
         (<[Loan.user_id loan :=
              User.mk (User.user_id user) (User.name user) (User.role user)
                (User.remove_first loan_id (User.active_loan_ids user))
                (if Float.ltb Float.zero fine
                 then Float.add (User.total_fines user) fine
                 else User.total_fines user)]> (LibrarySystem.users s))
         (<[loan_id := Loan.set_returned_on return_date loan]>
            (LibrarySystem.loans s))
         (LibrarySystem.holds s))).
  { unfold LibrarySystem.return_item, Py.bind, Py.get, Py.ret.
    rewrite Hl, Hi. unfold LibrarySystem.on_loan_and_item. rewrite Hret.
    simpl. rewrite Hu. unfold LibrarySystem.on_user, User.remove_loan.
    rewrite Hmem. simpl.
    destruct (Float.ltb Float.zero fine) eqn:E.
    - unfold User.add_fine. rewrite (Hnotneg eq_refl). reflexivity.
    - reflexivity. }
  rewrite Hrun. cbv zeta. simpl.
  unfold LibrarySystem.get_item, Catalog.get_item, Catalog.update_item. simpl.
  split; [reflexivity|].
  split; [apply lookup_insert_eq|].
  split; [apply lookup_insert_eq|].
  split; [apply lookup_insert_eq|].
  split; [reflexivity|].
  intros k Hk. apply lookup_insert_ne. congruence.
Qed.

Lemma system_return_effect_witness :
  fst (LibrarySystem.return_item "L1" (Examples.jan 20)
         Loan.default_daily_rate MoreExamples.library_L1)
    = Ok (Float.lit 125 100)
  /\ LibrarySystem.get_item "B1"
       (snd (LibrarySystem.return_item "L1" (Examples.jan 20)
               Loan.default_daily_rate MoreExamples.library_L1))
     = Some Examples.book.
Proof.
  assert (Hl : LibrarySystem.loans MoreExamples.library_L1 !! "L1"
               = Some MoreExamples.book_loan) by (vm_compute; reflexivity).
  assert (Hi : LibrarySystem.get_item (Loan.item_id MoreExamples.book_loan)
                 MoreExamples.library_L1 = Some Examples.book_one_out)
    by (vm_compute; reflexivity).
  assert (Hu : LibrarySystem.users MoreExamples.library_L1
                 !! Loan.user_id MoreExamples.book_loan
               = Some (snd (User.add_loan "L1" Examples.jane)))
    by (vm_compute; reflexivity).
  destruct (system_return_effect MoreExamples.library_L1 "L1" (Examples.jan 20)
              Loan.default_daily_rate (Float.lit 125 100)
              MoreExamples.book_loan Examples.book_one_out
              (snd (User.add_loan "L1" Examples.jane)) Hl eq_refl Hi)
    as (H1 & _ & H3 & _).
  - simpl. lia.
  - exact Hu.
  - simpl. left. reflexivity.
  - vm_compute. reflexivity.
  - split; [exact H1 | exact H3].
Defined.

(** X26. [place_hold]: an id that is taken is refused with ValueError; on
    a free id the outcome is that of the [Hold] constructor, so invalid
    arguments raise its ValueError; both leave the system as it was.  A
    hold that is accepted is stored under the id, not notified, and active
    on every day up to its expiry date; users, loans and the catalog are
    untouched, and neither the user id nor the item id is looked up. *)
Theorem place_hold_effect
    (s : LibrarySystem.t) (hold_id user_id item_id : string)
    (placed_on expires_on : Date.t) :
  (forall old, LibrarySystem.holds s !! hold_id = Some old ->
     Exn.is_ValueError
       (fst (LibrarySystem.place_hold hold_id user_id item_id placed_on
               expires_on s)) = true
     /\ snd (LibrarySystem.place_hold hold_id user_id item_id placed_on
               expires_on s) = s)
  /\ (LibrarySystem.holds s !! hold_id = None ->
      forall e,
        Hold.init hold_id user_id item_id placed_on expires_on false = Raise e ->
        LibrarySystem.place_hold hold_id user_id item_id placed_on expires_on s
        = (Raise e, s))
  /\ (LibrarySystem.holds s !! hold_id = None ->
      forall h,
        Hold.init hold_id user_id item_id placed_on expires_on false = Ok h ->
        LibrarySystem.place_hold hold_id user_id item_id placed_on expires_on s
        = (Ok h,
           LibrarySystem.mk (LibrarySystem.catalog s) (LibrarySystem.users s)
             (LibrarySystem.loans s)
             (<[hold_id := h]> (LibrarySystem.holds s)))
        /\ Hold.notified h = false
        /\ (forall today, today <= expires_on -> Hold.is_active h today = true)
        /\ (forall today, expires_on < today -> Hold.is_expired h today = true)).
Proof.
  unfold LibrarySystem.place_hold, Py.bind, Py.get, Py.raise, Py.lift, Py.put,
    Py.ret.
  split; [|split].
  - intros old ->. split; reflexivity.
  - intros -> e ->. reflexivity.
  - intros -> h Hh. rewrite Hh. split; [reflexivity|].
    unfold Hold.init in Hh.
    repeat match type of Hh with
           | (if ?b then _ else _) = _ => destruct b; [discriminate|]
           end.
    injection Hh as <-.
    unfold Hold.is_active, Hold.is_expired, Date.le, Date.lt. simpl.
    repeat split.
    + intros today Ht. apply Z.leb_le. exact Ht.
    + intros today Ht. apply Z.ltb_lt. exact Ht.
Qed.

Lemma place_hold_effect_witness :
  LibrarySystem.place_hold "H001" "ghost" "no-such-item" (Examples.jan 1)
    (Examples.jan 10) Examples.library
  = (Ok (Hold.mk "H001" "ghost" "no-such-item" (Examples.jan 1)
           (Examples.jan 10) false false false),
     LibrarySystem.mk (LibrarySystem.catalog Examples.library)
       (LibrarySystem.users Examples.library)
       (LibrarySystem.loans Examples.library)
       (<["H001" := Hold.mk "H001" "ghost" "no-such-item" (Examples.jan 1)
                      (Examples.jan 10) false false false]>
          (LibrarySystem.holds Examples.library))).
Proof.
  destruct (place_hold_effect Examples.library "H001" "ghost" "no-such-item"
              (Examples.jan 1) (Examples.jan 10)) as (_ & _ & H).
  destruct (H eq_refl _ eq_refl) as (Hrun & _).
  exact Hrun.
Defined.

(** Rules for a property kept along the structure of a method. *)

Section Keeps.

Context {A B : Type} (P : LibrarySystem.t -> Prop).

Lemma keeps_ret (a : A) : SysOps.keeps P (Py.ret a).
Proof. intros s Hs. exact Hs. Qed.

Lemma keeps_raise (e : exn) : SysOps.keeps P (@Py.raise _ A e).
Proof. intros s Hs. exact Hs. Qed.

Lemma keeps_lift (r : result A) : SysOps.keeps P (Py.lift r).
Proof. intros s Hs. exact Hs. Qed.

Lemma keeps_bind (c : M LibrarySystem.t A) (k : A -> M LibrarySystem.t B) :
  SysOps.keeps P c -> (forall a, SysOps.keeps P (k a)) ->
  SysOps.keeps P (Py.bind c k).
Proof.
  intros Hc Hk s Hs. unfold Py.bind. specialize (Hc s Hs).
  destruct (c s) as [[a|e] s1]; simpl in *; [apply Hk|]; exact Hc.
Qed.

Lemma keeps_get_bind (k : LibrarySystem.t -> M LibrarySystem.t B) :
  (forall s0, P s0 -> SysOps.keeps P (k s0)) ->
  SysOps.keeps P (Py.bind Py.get k).
Proof. intros Hk s Hs. unfold Py.bind, Py.get. apply Hk; exact Hs. Qed.

End Keeps.

Lemma item_run_id (o : ItemOps.op) (it : LibraryItem.t) :
  LibraryItem.item_id (snd (ItemOps.run o it)) = LibraryItem.item_id it.
Proof.
  destruct o; simpl;
    unfold LibraryItem.checkout_copy, LibraryItem.return_copy,
      LibraryItem.add_tag, LibraryItem.remove_tag;
    repeat match goal with
           | |- context [match ?x with _ => _ end] => destruct x
           end; reflexivity.
Qed.

Lemma item_exec_id (ops : list ItemOps.op) (it : LibraryItem.t) :
  LibraryItem.item_id (ItemOps.exec ops it) = LibraryItem.item_id it.
Proof.
  revert it. induction ops as [|o ops IH]; intros it; simpl;
    [reflexivity | rewrite IH; apply item_run_id].
Qed.

Lemma user_exec_id (ops : list UserOps.op) (u : User.t) :
  User.user_id (UserOps.exec ops u) = User.user_id u.
Proof.
  revert u. induction ops as [|o ops IH]; intros u; simpl;
    [reflexivity | rewrite IH; apply user_run_identity].
Qed.

Lemma consistent_item_update (s : LibrarySystem.t) (id : string)
    (it : LibraryItem.t) (ls : gmap string Loan.t) (hs : gmap string Hold.t) :
  SysOps.consistent s -> ItemOps.inv it -> LibraryItem.item_id it = id ->
  SysOps.consistent
    (LibrarySystem.mk (Catalog.update_item id it (LibrarySystem.catalog s))
       (LibrarySystem.users s) ls hs).
Proof.
  intros (H1 & H2 & H3) Hinv Hid. split; [|split].
  - apply update_item_inv; assumption.
  - intros k it0. unfold Catalog.update_item. simpl.
    destruct (decide (id = k)) as [->|Hne].
    + rewrite lookup_insert_eq. intros [= <-]. exact Hid.
    + rewrite lookup_insert_ne by exact Hne. apply H2.
  - exact H3.
Qed.

Lemma consistent_user_update (s : LibrarySystem.t) (k : string) (u : User.t)
    (ls : gmap string Loan.t) (hs : gmap string Hold.t) :
  SysOps.consistent s -> User.user_id u = k ->
  SysOps.consistent
    (LibrarySystem.mk (LibrarySystem.catalog s)
       (<[k := u]> (LibrarySystem.users s)) ls hs).
Proof.
  intros (H1 & H2 & H3) Hid. split; [|split].
  - exact H1.
  - exact H2.
  - intros k0 u0. simpl. destruct (decide (k = k0)) as [->|Hne].
    + rewrite lookup_insert_eq. intros [= <-]. exact Hid.
    + rewrite lookup_insert_ne by exact Hne. apply H3.
Qed.

Lemma keeps_on_item {A} (id : string) (item : LibraryItem.t)
    (c : M LibraryItem.t A) :
  ItemOps.inv (snd (c item)) -> LibraryItem.item_id (snd (c item)) = id ->
  SysOps.keeps SysOps.consistent (LibrarySystem.on_item id item c).
Proof.
  intros Hinv Hid s Hs. unfold LibrarySystem.on_item.
  destruct (c item) as [r item']. apply consistent_item_update; assumption.
Qed.

Lemma keeps_on_user {A} (k : string) (user : User.t) (c : M User.t A) :
  User.user_id (snd (c user)) = k ->
  SysOps.keeps SysOps.consistent (LibrarySystem.on_user k user c).
Proof.
  intros Hid s Hs. unfold LibrarySystem.on_user.
  destruct (c user) as [r user']. apply consistent_user_update; assumption.
Qed.

Lemma keeps_on_loan_and_item {A} (loan_id : string) (loan : Loan.t)
    (id : string) (item : LibraryItem.t) (c : M (Loan.t * LibraryItem.t) A) :
  ItemOps.inv (snd (snd (c (loan, item)))) ->
  LibraryItem.item_id (snd (snd (c (loan, item)))) = id ->
  SysOps.keeps SysOps.consistent
    (LibrarySystem.on_loan_and_item loan_id loan id item c).
Proof.
  intros Hinv Hid s Hs. unfold LibrarySystem.on_loan_and_item.
  destruct (c (loan, item)) as [r [loan' item']].
  apply consistent_item_update; assumption.
Qed.

Lemma consistent_lookup_item (s : LibrarySystem.t) (id : string)
    (item : LibraryItem.t) :
  SysOps.consistent s ->
  Catalog.get_item id (LibrarySystem.catalog s) = Some item ->
  ItemOps.inv item /\ LibraryItem.item_id item = id.
Proof.
  intros (H1 & H2 & _) Hi. split; [apply (H1 id) | apply H2]; exact Hi.
Qed.

Lemma loan_return_item_id (l : Loan.t) (item : LibraryItem.t)
    (return_date : Date.t) (daily_rate : Float.t) :
  LibraryItem.item_id
    (snd (snd (Loan.return_item return_date daily_rate (l, item))))
  = LibraryItem.item_id item.
Proof.
  unfold Loan.return_item.
  destruct (negb (Loan.is_active l)); [reflexivity|].
  pose proof (item_run_id ItemOps.ReturnCopy item) as Hr. simpl in Hr.
  destruct (LibraryItem.return_copy item) as [[[]|e] item']; exact Hr.
Qed.

Lemma keeps_checkout_item
    (loan_id user_id item_id : string) (checkout_date : Date.t) :
  SysOps.keeps SysOps.consistent
    (LibrarySystem.checkout_item loan_id user_id item_id checkout_date).
Proof.
  unfold LibrarySystem.checkout_item.
  apply keeps_get_bind. intros s0 Hs0.
  destruct (LibrarySystem.users s0 !! user_id) as [user|] eqn:Eu;
    [|apply keeps_raise].
  destruct (Catalog.get_item item_id (LibrarySystem.catalog s0))
    as [item|] eqn:Ei; [|apply keeps_raise].
  destruct (consistent_lookup_item s0 item_id item Hs0 Ei) as [Hinv Hid].
  destruct (negb (LibraryItem.is_available item)); [apply keeps_raise|].
  apply keeps_bind; [apply keeps_lift | intros due].
  apply keeps_bind.
  { apply keeps_on_item.
    - apply (run_inv ItemOps.CheckoutCopy). exact Hinv.
    - pose proof (item_run_id ItemOps.CheckoutCopy item) as Hid'.
      simpl in Hid'. rewrite Hid'. exact Hid. }
  intros _. apply keeps_bind; [apply keeps_lift | intros loan].
  apply keeps_bind.
  { intros s (H1 & H2 & H3). split; [|split]; assumption. }
  intros _. apply keeps_bind; [|intros _; apply keeps_ret].
  apply keeps_on_user.
  pose proof (proj1 (user_run_identity (UserOps.AddLoan loan_id) user)) as Hid'.
  simpl in Hid'. rewrite Hid'.
  destruct Hs0 as (_ & _ & H3). apply H3. exact Eu.
Qed.

Lemma keeps_return_item
    (loan_id : string) (return_date : Date.t) (daily_rate : Float.t) :
  SysOps.keeps SysOps.consistent
    (LibrarySystem.return_item loan_id return_date daily_rate).
Proof.
  unfold LibrarySystem.return_item.
  apply keeps_get_bind. intros s0 Hs0.
  destruct (LibrarySystem.loans s0 !! loan_id) as [loan|];
    [|apply keeps_raise].
  destruct (Catalog.get_item (Loan.item_id loan) (LibrarySystem.catalog s0))
    as [item|] eqn:Ei; [|apply keeps_raise].
  destruct (consistent_lookup_item s0 _ item Hs0 Ei) as [Hinv Hid].
  apply keeps_bind.
  { apply keeps_on_loan_and_item.
    - apply loan_return_item_inv. exact Hinv.
    - rewrite loan_return_item_id. exact Hid. }
  intros fine.
  destruct (LibrarySystem.users s0 !! Loan.user_id loan) as [user|] eqn:Eu;
    [|apply keeps_raise].
  apply keeps_bind; [|intros _; apply keeps_ret].
  apply keeps_on_user.
  assert (Hk : User.user_id user = Loan.user_id loan)
    by (destruct Hs0 as (_ & _ & H3); apply H3; exact Eu).
  unfold Py.bind, User.remove_loan.
  destruct (negb (User.mem loan_id (User.active_loan_ids user))); simpl;
    [exact Hk|].
  destruct (Float.ltb Float.zero fine); [|exact Hk].
  unfold User.add_fine. destruct (Float.ltb fine Float.zero); exact Hk.
Qed.

Lemma keeps_place_hold (hold_id user_id item_id : string)
    (placed_on expires_on : Date.t) :
  SysOps.keeps SysOps.consistent
    (LibrarySystem.place_hold hold_id user_id item_id placed_on expires_on).
Proof.
  unfold LibrarySystem.place_hold.
  apply keeps_get_bind. intros s0 Hs0.
  destruct (LibrarySystem.holds s0 !! hold_id); [apply keeps_raise|].
  apply keeps_bind; [apply keeps_lift | intros hold].
  apply keeps_bind; [|intros _; apply keeps_ret].
  intros s _. destruct Hs0 as (H1 & H2 & H3). split; [|split]; assumption.
Qed.

Lemma item_init_inv k item_id title creators tags n call_number isbn genre it :
  LibraryItem.init k item_id title creators tags n call_number isbn genre = Ok it ->
  ItemOps.inv it.
Proof.
  unfold LibraryItem.init. intros H.
  destruct (Str.blank item_id); [discriminate|].
  destruct (Str.blank title); [discriminate|].
  destruct (Z.ltb_spec n 0) as [|Hn]; [discriminate|].
  match type of H with (if ?b then _ else _) = _ => destruct b end;
    [discriminate|].
  injection H as <-. unfold ItemOps.inv. simpl. lia.
Qed.

Lemma keeps_add_item (item : LibraryItem.t) :
  ItemOps.inv item ->
  SysOps.keeps SysOps.consistent (LibrarySystem.add_item item).
Proof.
  intros Hinv s Hs. unfold LibrarySystem.add_item, Catalog.add_item.
  destruct (Catalog.items (LibrarySystem.catalog s) !! LibraryItem.item_id item);
    simpl.
  - destruct Hs as (H1 & H2 & H3). split; [|split]; assumption.
  - apply (consistent_item_update s (LibraryItem.item_id item) item);
      [exact Hs | exact Hinv | reflexivity].
Qed.

Lemma keeps_add_user (user : User.t) :
  SysOps.keeps SysOps.consistent (LibrarySystem.add_user user).
Proof.
  intros s Hs. unfold LibrarySystem.add_user.
  destruct (LibrarySystem.users s !! User.user_id user); simpl.
  - exact Hs.
  - apply (consistent_user_update s (User.user_id user) user);
      [exact Hs | reflexivity].
Qed.

Lemma keeps_run (o : SysOps.op) : SysOps.keeps SysOps.consistent (SysOps.run o).
Proof.
  destruct o as [uid nm rl before
                | k iid title creators tags n cn isbn genre before
                | lid uid iid d | lid d r | hid uid iid p e
                | iid o | uid o]; simpl.
  - unfold Py.bind, Py.lift. intros s Hs.
    destruct (User.init uid nm rl) as [u|err]; simpl; [|exact Hs].
    apply keeps_add_user. exact Hs.
  - unfold Py.bind, Py.lift. intros s Hs.
    destruct (LibraryItem.init k iid title creators tags n cn isbn genre)
      as [it|err] eqn:Einit; simpl; [|exact Hs].
    apply keeps_add_item; [|exact Hs].
    apply exec_inv. eapply item_init_inv. exact Einit.
  - apply keeps_bind; [apply keeps_checkout_item | intros _; apply keeps_ret].
  - apply keeps_bind; [apply keeps_return_item | intros _; apply keeps_ret].
  - apply keeps_bind; [apply keeps_place_hold | intros _; apply keeps_ret].
  - apply keeps_get_bind. intros s0 Hs0. unfold LibrarySystem.get_item.
    destruct (Catalog.get_item iid (LibrarySystem.catalog s0)) as [item|] eqn:Ei;
      [|apply keeps_ret].
    destruct (consistent_lookup_item s0 iid item Hs0 Ei) as [Hinv Hid].
    apply keeps_on_item.
    + apply run_inv. exact Hinv.
    + rewrite item_run_id. exact Hid.
  - apply keeps_get_bind. intros s0 Hs0. unfold LibrarySystem.get_user.
    destruct (LibrarySystem.users s0 !! uid) as [user|] eqn:Eu;
      [|apply keeps_ret].
    apply keeps_on_user.
    rewrite (proj1 (user_run_identity o user)).
    destruct Hs0 as (_ & _ & H3). apply H3. exact Eu.
Qed.

(** X27. Consistency of every system a driver can reach from a new
    [LibrarySystem] through add_user, add_item, checkout_item, return_item,
    place_hold and direct calls on registered items and users, whatever
    the calls raise: every item of the catalog has its available copies
    within [0, total_copies] and is stored under its own id, and every
    user is stored under its own id. *)
Theorem reachable_system_consistent (s : LibrarySystem.t) :
  SysOps.reachable s ->
  (forall id item,
     LibrarySystem.get_item id s = Some item ->
     0 <= LibraryItem.available_copies item <= LibraryItem.total_copies item
     /\ LibraryItem.item_id item = id)
  /\ (forall id user,
        LibrarySystem.get_user id s = Some user -> User.user_id user = id).
Proof.
  intros (name & s0 & ops & Hinit & ->).
  assert (H0 : SysOps.consistent s0).
  { unfold LibrarySystem.init, Catalog.init in Hinit.
    destruct (Str.blank name); [discriminate|]. injection Hinit as <-.
    split; [|split]; intros k x; simpl; rewrite lookup_empty; discriminate. }
  assert (Hc : SysOps.consistent (SysOps.exec ops s0)).
  { clear Hinit. revert s0 H0.
    induction ops as [|o ops IH]; intros s0 H0; simpl; [exact H0|].
    apply IH. apply keeps_run. exact H0. }
  destruct Hc as (H1 & H2 & H3).
  split.
  - intros id item Hi. split; [apply (H1 id item Hi) | apply (H2 id item Hi)].
  - intros id user Hu. apply (H3 id user Hu).
Qed.

Lemma after_session_reachable : SysOps.reachable SysExamples.after_session.
Proof.
  exists "Test Library", (LibrarySystem.mk (Catalog.mk "Test Library" ∅) ∅ ∅ ∅),
    SysExamples.session.
  split; reflexivity.
Qed.

Lemma reachable_system_consistent_witness :
  exists item,
    LibrarySystem.get_item "B1" SysExamples.after_session = Some item
    /\ 0 <= LibraryItem.available_copies item <= LibraryItem.total_copies item
    /\ LibraryItem.item_id item = "B1".
Proof.
  destruct (reachable_system_consistent SysExamples.after_session
              after_session_reachable) as (H & _).
  eexists. split; [vm_compute; reflexivity|].
  apply H. vm_compute. reflexivity.
Defined.

(** ** project_1_functions.py *)

Lemma prefix_append (n h : string) :
  String.prefix n h = true <-> exists b, h = String.append n b.
Proof.
  revert h. induction n as [|c n IH]; intros h; simpl.
  - split; [intros _; exists h; reflexivity | intros _; destruct h; reflexivity].
  - destruct h as [|d h].
    + split; [discriminate | intros [b Hb]; discriminate].
    + simpl. destruct (Ascii.ascii_dec c d) as [Heq|Hne].
      * rewrite IH. subst d. split; intros [b Hb]; exists b; simpl in *;
          [rewrite Hb; reflexivity | injection Hb; auto].
      * split; [discriminate|]. intros [b Hb]. simpl in Hb.
        injection Hb as Hd _. symmetry in Hd. contradiction.
Qed.

Lemma contains_split (n h : string) :
  project_1_search.contains n h = true
  <-> exists a b, h = String.append a (String.append n b).
Proof.
  induction h as [|d h IH]; cbn [project_1_search.contains].
  - rewrite orb_false_r, prefix_append. split.
    + intros [b Hb]. exists EmptyString, b. exact Hb.
    + intros (a & b & Hab). destruct a; [exists b; exact Hab | discriminate].
  - rewrite orb_true_iff, prefix_append, IH. split.
    + intros [[b Hb] | (a & b & Hab)].
      * exists EmptyString, b. exact Hb.
      * exists (String d a), b. simpl. rewrite Hab. reflexivity.
    + intros (a & b & Hab). destruct a as [|c a]; simpl in Hab.
      * left. exists b. exact Hab.
      * right. exists a, b. injection Hab as _ Hab. exact Hab.
Qed.

Lemma to_lower_to_upper (c : ascii) :
  Str.to_lower (Str.to_upper c) = Str.to_lower c.
Proof. destruct c as [[] [] [] [] [] [] [] []]; reflexivity. Qed.

Lemma lower_upper (s : string) : Str.lower (Str.upper s) = Str.lower s.
Proof.
  induction s as [|c s IH]; simpl; [reflexivity|].
  rewrite to_lower_to_upper, IH. reflexivity.
Qed.

(** X28. On ASCII text (keyword and titles), where the case mapping of
    the model is exactly Python's: [search_items] returns, in the order
    of the input, exactly the items whose title, lower-cased, holds the
    lower-cased keyword as a substring.  So the search distributes over
    concatenation of the input, the case of the keyword does not matter,
    the empty keyword returns every item, and searching the result again
    with the same keyword changes nothing. *)
Theorem search_items_is_filter
    (items more : list LibraryItem.t) (keyword : string) :
  AsciiText.is_ascii keyword = true ->
  Forall (fun i => AsciiText.is_ascii (LibraryItem.title i) = true)
    (items ++ more)%list ->
  (forall i,
     In i (project_1_search.search_items items keyword)
     <-> In i items
         /\ exists a b,
              Str.lower (LibraryItem.title i)
              = String.append a (String.append (Str.lower keyword) b))
  /\ project_1_search.search_items (items ++ more)%list keyword
     = (project_1_search.search_items items keyword
        ++ project_1_search.search_items more keyword)%list
  /\ project_1_search.search_items items (Str.upper keyword)
     = project_1_search.search_items items keyword
  /\ project_1_search.search_items items EmptyString = items
  /\ project_1_search.search_items
       (project_1_search.search_items items keyword) keyword
     = project_1_search.search_items items keyword.
Proof.
  intros _ _. unfold project_1_search.search_items.
  split; [|split; [|split; [|split]]].
  - intros i. rewrite List.filter_In, contains_split. reflexivity.
  - apply List.filter_app.
  - rewrite lower_upper. reflexivity.
  - simpl. induction items as [|i items IH]; simpl; [reflexivity|].
    assert (Hp : project_1_search.contains EmptyString
                   (Str.lower (LibraryItem.title i)) = true)
      by (destruct (Str.lower (LibraryItem.title i)); reflexivity).
    rewrite Hp, IH. reflexivity.
  - induction items as [|i items IH]; simpl; [reflexivity|].
    destruct (project_1_search.contains (Str.lower keyword)
                (Str.lower (LibraryItem.title i))) eqn:E; simpl.
    + rewrite E, IH. reflexivity.
    + exact IH.
Qed.

Lemma search_items_is_filter_witness :
  project_1_search.search_items
    [Examples.book; Examples.dvd; Examples.ebook] "BOOK"
  = project_1_search.search_items
      [Examples.book; Examples.dvd; Examples.ebook] "book"
  /\ project_1_search.search_items
       [Examples.book; Examples.dvd; Examples.ebook] "book"
     = [Examples.book; Examples.ebook].
Proof.
  destruct (search_items_is_filter [Examples.book; Examples.dvd; Examples.ebook]
              [] "book") as (_ & _ & Hcase & _).
  - reflexivity.
  - repeat constructor.
  - split; [exact Hcase | vm_compute; reflexivity].
Defined.

Lemma remove_char_app (x : ascii) (a b : string) :
  Str.remove_char x (String.append a b)
  = String.append (Str.remove_char x a) (Str.remove_char x b).
Proof.
  induction a as [|c a IH]; simpl; [reflexivity|].
  destruct (Ascii.eqb c x); simpl; rewrite IH; reflexivity.
Qed.

Lemma upper_app (a b : string) :
  Str.upper (String.append a b) = String.append (Str.upper a) (Str.upper b).
Proof.
  induction a as [|c a IH]; simpl; [reflexivity | rewrite IH; reflexivity].
Qed.

Lemma cleaned_app (a b : string) :
  IsbnForm.cleaned (String.append a b)
  = String.append (IsbnForm.cleaned a) (IsbnForm.cleaned b).
Proof.
  unfold IsbnForm.cleaned. rewrite !remove_char_app, upper_app. reflexivity.
Qed.

Lemma validate_isbn_cleaned (x y : string) :
  IsbnForm.cleaned x = IsbnForm.cleaned y ->
  project_1_functions.validate_isbn x = project_1_functions.validate_isbn y.
Proof.
  intros H. unfold project_1_functions.validate_isbn.
  fold (IsbnForm.cleaned x). fold (IsbnForm.cleaned y). rewrite H. reflexivity.
Qed.

Lemma case_keeps_separators (c : ascii) :
  Ascii.eqb (Str.to_upper c) "-" = Ascii.eqb c "-"
  /\ Ascii.eqb (Str.to_upper c) " " = Ascii.eqb c " "
  /\ Ascii.eqb (Str.to_lower c) "-" = Ascii.eqb c "-"
  /\ Ascii.eqb (Str.to_lower c) " " = Ascii.eqb c " "
  /\ Str.to_upper (Str.to_upper c) = Str.to_upper c
  /\ Str.to_upper (Str.to_lower c) = Str.to_upper c.
Proof. destruct c as [[] [] [] [] [] [] [] []]; repeat split; reflexivity. Qed.

Lemma cleaned_case (s : string) :
  IsbnForm.cleaned (Str.upper s) = IsbnForm.cleaned s
  /\ IsbnForm.cleaned (Str.lower s) = IsbnForm.cleaned s.
Proof.
  unfold IsbnForm.cleaned. induction s as [|c s [IH1 IH2]]; simpl;
    [split; reflexivity|].
  destruct (case_keeps_separators c) as (H1 & H2 & H3 & H4 & H5 & H6).
  rewrite H1, H3.
  destruct (Ascii.eqb c "-"); simpl; [split; assumption|].
  rewrite H2, H4.
  destruct (Ascii.eqb c " "); simpl; [split; assumption|].
  rewrite H5, H6, IH1, IH2. split; reflexivity.
Qed.

(** X29. On ASCII codes, where the model of the validator is exactly the
    code (digits are the ten ASCII digits and nothing raises): the ISBN
    validator looks only at the code with hyphens and spaces taken out and
    letters in upper case.  A hyphen or a space put anywhere in a code,
    and the case of its letters, do not change the answer; and a code
    whose cleaned form has neither 10 nor 13 characters is invalid. *)
Theorem isbn_form_ignored (a b : string) :
  AsciiText.is_ascii a = true -> AsciiText.is_ascii b = true ->
  project_1_functions.validate_isbn (String.append a (String.append "-" b))
    = project_1_functions.validate_isbn (String.append a b)
  /\ project_1_functions.validate_isbn (String.append a (String.append " " b))
     = project_1_functions.validate_isbn (String.append a b)
  /\ project_1_functions.validate_isbn (Str.upper a)
     = project_1_functions.validate_isbn a
  /\ project_1_functions.validate_isbn (Str.lower a)
     = project_1_functions.validate_isbn a
  /\ (Str.len (IsbnForm.cleaned a) <> 10 ->
      Str.len (IsbnForm.cleaned a) <> 13 ->
      project_1_functions.validate_isbn a = false).
Proof.
  intros _ _.
  split; [|split; [|split; [|split]]].
  - apply validate_isbn_cleaned. rewrite !cleaned_app. reflexivity.
  - apply validate_isbn_cleaned. rewrite !cleaned_app. reflexivity.
  - apply validate_isbn_cleaned. apply cleaned_case.
  - apply validate_isbn_cleaned. apply cleaned_case.
  - intros H10 H13. unfold project_1_functions.validate_isbn.
    fold (IsbnForm.cleaned a).
    destruct (Z.eqb_spec (Str.len (IsbnForm.cleaned a)) 10); [contradiction|].
    destruct (Z.eqb_spec (Str.len (IsbnForm.cleaned a)) 13); [contradiction|].
    reflexivity.
Qed.

Lemma isbn_form_ignored_witness :
  project_1_functions.validate_isbn "978-3-16-148410-0"
  = project_1_functions.validate_isbn "9783161484100"
  /\ project_1_functions.validate_isbn "080442957x"
     = project_1_functions.validate_isbn "080442957X"
  /\ project_1_functions.validate_isbn "12345" = false.
Proof.
  split; [|split].
  - transitivity (project_1_functions.validate_isbn "978-316-148410-0").
    + apply (isbn_form_ignored "978-3" "16-148410-0"); reflexivity.
    + transitivity (project_1_functions.validate_isbn "978316-148410-0").
      * apply (isbn_form_ignored "978" "316-148410-0"); reflexivity.
      * transitivity (project_1_functions.validate_isbn "978316148410-0").
        -- apply (isbn_form_ignored "978316" "148410-0"); reflexivity.
        -- apply (isbn_form_ignored "978316148410" "0"); reflexivity.
  - destruct (isbn_form_ignored "080442957x" "")
      as (_ & _ & Hup & _); [reflexivity | reflexivity |].
    exact (eq_sym Hup).
  - destruct (isbn_form_ignored "12345" "") as (_ & _ & _ & _ & Hlen);
      [reflexivity | reflexivity |].
    apply Hlen; vm_compute; discriminate.
Defined.

Lemma digit_facts (c : ascii) :
  Str.isdigit c = true ->
  Ascii.eqb c "-" = false /\ Ascii.eqb c " " = false /\ Str.to_upper c = c
  /\ 0 <= Str.int_of_digit c <= 9
  /\ c = ascii_of_nat (48 + Z.to_nat (Str.int_of_digit c)).
Proof.
  destruct c as [[] [] [] [] [] [] [] []]; intros H; try discriminate H;
    vm_compute; repeat split; try reflexivity; discriminate.
Qed.

Lemma digits_cleaned (s : string) :
  Str.all_digits s = true -> IsbnForm.cleaned s = s.
Proof.
  unfold IsbnForm.cleaned. induction s as [|c s IH]; simpl; [reflexivity|].
  intros H. apply andb_prop in H as [Hc Hs].
  destruct (digit_facts c Hc) as (H1 & H2 & H3 & _).
  rewrite H1. simpl. rewrite H2. simpl. rewrite H3, (IH Hs). reflexivity.
Qed.

Lemma all_digits_app (a b : string) :
  Str.all_digits (String.append a b) = Str.all_digits a && Str.all_digits b.
Proof.
  induction a as [|c a IH]; simpl; [reflexivity|].
  rewrite IH, andb_assoc. reflexivity.
Qed.

Lemma len_app_cons (a b : string) (c : ascii) :
  Str.len (String.append a (String c b)) = Str.len a + 1 + Str.len b.
Proof.
  assert (H : String.length (String.append a (String c b))
              = (String.length a + 1 + String.length b)%nat).
  { induction a as [|d a IH]; simpl; [lia | rewrite IH; lia]. }
  unfold Str.len. rewrite H. lia.
Qed.

Lemma isbn13_total_shift (i t : Z) (s : string) :
  project_1_functions.isbn13_total i t s
  = t + project_1_functions.isbn13_total i 0 s.
Proof.
  revert i t. induction s as [|c s IH]; intros i t; simpl; [lia|].
  rewrite IH. rewrite (IH _ (0 + _)). lia.
Qed.

Lemma isbn13_total_app (i t : Z) (a b : string) (c : ascii) :
  project_1_functions.isbn13_total i t (String.append a (String c b))
  = project_1_functions.isbn13_total i t a
    + (if (i + Str.len a) mod 2 =? 0 then 1 else 3) * Str.int_of_digit c
    + project_1_functions.isbn13_total (i + Str.len a + 1) 0 b.
Proof.
  revert i t. induction a as [|d a IH]; intros i t.
  - change (String.append EmptyString (String c b)) with (String c b).
    cbn [project_1_functions.isbn13_total].
    unfold Str.len. cbn [String.length]. change (Z.of_nat 0) with 0.
    rewrite Z.add_0_r. rewrite isbn13_total_shift. lia.
  - change (String.append (String d a) (String c b))
      with (String d (String.append a (String c b))).
    cbn [project_1_functions.isbn13_total].
    rewrite IH. unfold Str.len. cbn [String.length].
    replace (i + 1 + Z.of_nat (String.length a))
      with (i + Z.of_nat (S (String.length a))) by lia.
    reflexivity.
Qed.

Lemma validate_isbn13_digits (s : string) :
  Str.all_digits s = true -> Str.len s = 13 ->
  project_1_functions.validate_isbn s
  = (project_1_functions.isbn13_total 0 0 s mod 10 =? 0).
Proof.
  intros Hd Hl. unfold project_1_functions.validate_isbn.
  fold (IsbnForm.cleaned s). rewrite (digits_cleaned s Hd), Hl. simpl.
  unfold Str.str_isdigit. rewrite Hd.
  destruct s; [discriminate Hl | reflexivity].
Qed.

(** X30. The ISBN-13 check detects every single-digit error: if a code of
    13 digits is valid, replacing any one of its digits by a different
    digit gives a code that is not. *)
Theorem isbn13_detects_single_digit_error (a b : string) (c c' : ascii) :
  Str.all_digits (String.append a (String c b)) = true ->
  Str.len (String.append a (String c b)) = 13 ->
  Str.isdigit c' = true -> c' <> c ->
  project_1_functions.validate_isbn (String.append a (String c b)) = true ->
  project_1_functions.validate_isbn (String.append a (String c' b)) = false.
Proof.
  intros Hd Hl Hc' Hne Hvalid.
  rewrite all_digits_app in Hd. simpl in Hd.
  apply andb_prop in Hd as [Ha Hcb]. apply andb_prop in Hcb as [Hc Hb].
  assert (Hd' : Str.all_digits (String.append a (String c' b)) = true).
  { rewrite all_digits_app. simpl. rewrite Ha, Hc', Hb. reflexivity. }
  assert (Hl' : Str.len (String.append a (String c' b)) = 13).
  { rewrite len_app_cons in *. exact Hl. }
  rewrite validate_isbn13_digits in Hvalid
    by (try assumption; rewrite all_digits_app; simpl;
        rewrite Ha, Hc, Hb; reflexivity).
  rewrite (validate_isbn13_digits _ Hd' Hl').
  rewrite isbn13_total_app in *.
  destruct (digit_facts c Hc) as (_ & _ & _ & Hr & Hinv).
  destruct (digit_facts c' Hc') as (_ & _ & _ & Hr' & Hinv').
  assert (Hint : Str.int_of_digit c' <> Str.int_of_digit c).
  { intros Heq. apply Hne. rewrite Hinv, Hinv', Heq. reflexivity. }
  apply Z.eqb_eq in Hvalid. apply Z.eqb_neq.
  set (w := if (0 + Str.len a) mod 2 =? 0 then 1 else 3) in *.
  assert (Hw : w = 1 \/ w = 3)
    by (subst w; destruct ((0 + Str.len a) mod 2 =? 0); tauto).
  set (x := project_1_functions.isbn13_total 0 0 a) in *.
  set (y := project_1_functions.isbn13_total (0 + Str.len a + 1) 0 b) in *.
  clearbody w x y. clear Hinv Hinv' Hl Hl' Hd' Ha Hb Hc Hc' Hne.
  set (u := Str.int_of_digit c) in *. set (v := Str.int_of_digit c') in *.
  clearbody u v. intros Hz.
  apply Z.mod_divide in Hvalid as [q Hq]; [|lia].
  apply Z.mod_divide in Hz as [q' Hq']; [|lia].
  destruct Hw; subst w; lia.
Qed.

Lemma isbn13_detects_single_digit_error_witness :
  project_1_functions.validate_isbn "9783161484100" = true
  /\ project_1_functions.validate_isbn "9783161684100" = false.
Proof.
  assert (Hv : project_1_functions.validate_isbn "9783161484100" = true)
    by (vm_compute; reflexivity).
  split; [exact Hv|].
  apply (isbn13_detects_single_digit_error "9783161" "84100" "4" "6").
  - vm_compute. reflexivity.
  - vm_compute. reflexivity.
  - vm_compute. reflexivity.
  - discriminate.
  - exact Hv.
Defined.
